(** * Audit-AI backend: analytics engine and tool-calling orchestrator

    A shallow embedding of the repositories and services of the
    backend (TypeScript over better-sqlite3) and the properties of its
    specification.

    Conventions of the embedding.
    - A JavaScript [number] holding money, a ratio or a confidence is a
      rational [Q]; arithmetic is exact.  Row ids are [nat]; the id [0]
      is the only falsy one.
    - A SQLite table is the list of its rows in insertion (rowid) order.
      A statement is a function from the database to a result and a new
      database.
    - A date column holds the text [YYYY-MM-DD]; it is modelled by its
      three numeric fields, whose lexicographic order is the text order
      SQL compares with.  A timestamp column ([CURRENT_TIMESTAMP]) is
      the number of milliseconds since the epoch; the process runs in
      UTC.
    - The clock is an explicit argument [now]. *)

From Stdlib Require Import List String Ascii Bool Arith ZArith QArith Lia.
From Stdlib Require Import Qround Qabs Qminmax DecimalString Lqa.
From Stdlib Require Import Sorted.
Import ListNotations.

Local Open Scope string_scope.
Local Open Scope Z_scope.
Local Open Scope Q_scope.

Set Implicit Arguments.

(** ** JavaScript and SQL primitives *)

Module Js.

(** [x < y] and [x <= y] on numbers, as booleans. *)
Definition ltb (x y : Q) : bool := negb (Qle_bool y x).
Definition leb (x y : Q) : bool := Qle_bool x y.
Definition gtb (x y : Q) : bool := ltb y x.
Definition geb (x y : Q) : bool := leb y x.

(** [x || d] for a number: [0] is falsy. *)
Definition num_or (x d : Q) : Q := if Qeq_bool x 0 then d else x.

(** [x || d] where [x] may also be [null] / [undefined]. *)
Definition opt_num_or (x : option Q) (d : Q) : Q :=
  match x with
  | Some v => num_or v d
  | None => d
  end.

(** [s || d] for a string: the empty string is falsy. *)
Definition str_or (s d : string) : string :=
  match s with
  | EmptyString => d
  | _ => s
  end.

Definition opt_str_or (s : option string) (d : string) : string :=
  match s with
  | Some v => str_or v d
  | None => d
  end.

(** [hay.includes(needle)]. *)
Fixpoint includes (hay needle : string) : bool :=
  if String.prefix needle hay then true
  else match hay with
       | EmptyString => false
       | String _ rest => includes rest needle
       end.

(** [Math.round]: the nearest integer, ties towards plus infinity. *)
Definition round (x : Q) : Q := inject_Z (Qfloor (x + (1 # 2))).

(** [Math.ceil]. *)
Definition ceil (x : Q) : Z := Qceiling x.

(** [Math.pow(b, i)] for a whole exponent. *)
Definition pow (b : Q) (i : nat) : Q := Qpower b (Z.of_nat i).

(** [Math.max] and [Math.min] on two numbers. *)
Definition max (x y : Q) : Q := if ltb x y then y else x.
Definition min (x y : Q) : Q := if ltb y x then y else x.

(** [arr.reduce((sum, a) => sum + a, 0)]. *)
Definition sum (l : list Q) : Q := fold_left Qplus l 0.

(** Decimal text of an integer, as [String(n)] prints it. *)
Definition string_of_nat (n : nat) : string :=
  NilZero.string_of_uint (Nat.to_uint n).

Definition string_of_Z (z : Z) : string :=
  NilZero.string_of_int (Z.to_int z).

(** [s.split(' ')]: the texts between the spaces, at least one. *)
Fixpoint split_spaces (s : string) : list string :=
  match s with
  | EmptyString => [EmptyString]
  | String c rest =>
      if Ascii.eqb c " "%char then EmptyString :: split_spaces rest
      else match split_spaces rest with
           | w :: ws => String c w :: ws
           | [] => [String c EmptyString]
           end
  end.

End Js.

(** Calendar dates: the text [YYYY-MM-DD] by its fields. *)
Module Date.

Local Open Scope Z_scope.

Record t : Type := mk { year : Z; month : Z; day : Z }.

Definition compare (a b : t) : comparison :=
  match Z.compare (year a) (year b) with
  | Eq => match Z.compare (month a) (month b) with
          | Eq => Z.compare (day a) (day b)
          | c => c
          end
  | c => c
  end.

Definition leb (a b : t) : bool :=
  match compare a b with Gt => false | _ => true end.

Definition eqb (a b : t) : bool :=
  match compare a b with Eq => true | _ => false end.

(** SQL [MIN(date)] and [MAX(date)] over a group that starts with [d]. *)
Definition min_of (d : t) (l : list t) : t :=
  fold_left (fun m x => if leb m x then m else x) l d.
Definition max_of (d : t) (l : list t) : t :=
  fold_left (fun m x => if leb m x then x else m) l d.

(** Days since 1970-01-01 of a proleptic Gregorian date; a day or a
    month out of range rolls over arithmetically. *)
Definition to_days (d : t) : Z :=
  let m0 := (month d - 1) mod 12 in
  let y0 := year d + (month d - 1) / 12 in
  let y := if (m0 <? 2)%Z then y0 - 1 else y0 in
  let mp := if (m0 <? 2)%Z then m0 + 10 else m0 - 2 in
  let era := y / 400 in
  let yoe := y - era * 400 in
  let doy := (153 * mp + 2) / 5 + (day d - 1) in
  let doe := yoe * 365 + yoe / 4 - yoe / 100 + doy in
  (era * 146097 + doe - 719468)%Z.

Definition of_days (z : Z) : t :=
  let z := z + 719468 in
  let era := z / 146097 in
  let doe := z - era * 146097 in
  let yoe := (doe - doe / 1460 + doe / 36524 - doe / 146096) / 365 in
  let doy := doe - (365 * yoe + yoe / 4 - yoe / 100) in
  let mp := (5 * doy + 2) / 153 in
  let d := doy - (153 * mp + 2) / 5 + 1 in
  let m := if (mp <? 10)%Z then mp + 3 else mp - 9 in
  let y := yoe + era * 400 + (if (m <=? 2)%Z then 1 else 0) in
  mk y m d.

(** [new Date(text).getTime()], in milliseconds. *)
Definition ms_per_day : Z := 86400000.
Definition getTime (d : t) : Z := (to_days d * ms_per_day)%Z.

(** The day number of an instant, and [toISOString().split('T')[0]]. *)
Definition day_of_instant (now : Z) : Z := (now / ms_per_day)%Z.
Definition today (now : Z) : t := of_days (day_of_instant now).

(** [new Date(y, m, 1)] of the month of [now], as a date text. *)
Definition first_of_month (now : Z) : t :=
  let d := today now in mk (year d) (month d) 1.

(** [toDateString()] equality of two instants. *)
Definition same_day (a b : Z) : bool :=
  (day_of_instant a =? day_of_instant b)%Z.

(** SQLite [date('now', '-n months')]: the month is moved and the
    result renormalised. *)
Definition sqlite_minus_months (now : Z) (n : Z) : t :=
  let d := today now in
  of_days (to_days (mk (year d) (month d - n) (day d))).

(** [strftime('%Y-%m', date)]. *)
Definition period (d : t) : Z * Z := (year d, month d).

End Date.

(** SQL fragments shared by the repositories. *)
Module Sql.

Section Generic.
Variables (A K : Type).
Variable eqb : K -> K -> bool.

(** The distinct keys of a [GROUP BY], in order of first appearance
    (SQL leaves the order of groups open). *)
Fixpoint group_keys (key : A -> K) (rows : list A) : list K :=
  match rows with
  | [] => []
  | r :: rest =>
      key r :: filter (fun k => negb (eqb k (key r))) (group_keys key rest)
  end.

(** Stable insertion sort for [ORDER BY]; [le a b] holds when [a]
    may come before [b]. *)
Variable le : A -> A -> bool.

Fixpoint insert_sorted (x : A) (l : list A) : list A :=
  match l with
  | [] => [x]
  | y :: rest => if le x y then x :: l else y :: insert_sorted x rest
  end.

Definition order_by (l : list A) : list A :=
  fold_right insert_sorted [] l.
End Generic.

(** [SUM(amount)], [NULL] on no row. *)
Definition SUM (l : list Q) : option Q :=
  match l with
  | [] => None
  | _ => Some (Js.sum l)
  end.

(** [AVG(amount)] of a non-empty group. *)
Definition AVG (l : list Q) : Q := Js.sum l / inject_Z (Z.of_nat (List.length l)).

(** [AUTOINCREMENT]: one more than the largest id in the table. *)
Definition next_id (ids : list nat) : nat := S (fold_right Nat.max 0%nat ids).

(** Fold an ASCII letter to lower case, as [LIKE] does. *)
Definition lower (c : ascii) : ascii :=
  let n := nat_of_ascii c in
  if ((65 <=? n) && (n <=? 90))%nat then ascii_of_nat (n + 32) else c.

Definition is_continuation (c : ascii) : bool :=
  let n := nat_of_ascii c in ((128 <=? n) && (n <=? 191))%nat.

(** Drop the rest of a UTF-8 character whose first byte was [c]. *)
Fixpoint skip_continuation (s : string) : string :=
  match s with
  | String d rest => if is_continuation d then skip_continuation rest else s
  | EmptyString => s
  end.

Definition skip_char (c : ascii) (rest : string) : string :=
  if (192 <=? nat_of_ascii c)%nat then skip_continuation rest else rest.

(** [text LIKE pattern] with SQLite's defaults: [%] matches any
    sequence, [_] one character, letters A-Z match case-blind, and
    there is no escape character. *)
Fixpoint like (pattern : string) : string -> bool :=
  match pattern with
  | EmptyString =>
      fun text => match text with EmptyString => true | _ => false end
  | String p pattern' =>
      if Ascii.eqb p "%" then
        fix any (text : string) : bool :=
          if like pattern' text then true
          else match text with
               | EmptyString => false
               | String _ rest => any rest
               end
      else if Ascii.eqb p "_" then
        fun text =>
          match text with
          | EmptyString => false
          | String c rest => like pattern' (skip_char c rest)
          end
      else
        fun text =>
          match text with
          | EmptyString => false
          | String c rest =>
              if Ascii.eqb (lower p) (lower c) then like pattern' rest
              else false
          end
  end.

(** [LIMIT n] with a whole number: a negative [n] lifts the limit. *)
Definition limit (A : Type) (n : Z) (l : list A) : list A :=
  if (n <? 0)%Z then l else firstn (Z.to_nat n) l.

End Sql.


(** Number to text conversions of the JavaScript runtime.  The
    repositories and services only concatenate their results into
    messages, so they are kept abstract; [en_US] below is the instance
    used to run the model. *)
Class NumberFormat : Type := {
  toLocaleString : Q -> string;
  toFixed : nat -> Q -> string;
  numberToString : Q -> string
}.

(** [JSON.stringify] of the flat objects the services store in
    [alerts.data]. *)
Module Json.

Definition dq : string := String (ascii_of_nat 34) EmptyString.

Inductive value : Type :=
| Str (s : string)
| Int (n : nat)
| Num (q : Q).

Definition hex_digit (n : nat) : ascii :=
  if (n <? 10)%nat then ascii_of_nat (48 + n) else ascii_of_nat (87 + n).

(** The escape of one character inside a JSON string. *)
Definition escape_char (c : ascii) : string :=
  let n := nat_of_ascii c in
  if (n =? 34)%nat then "\" ++ dq
  else if (n =? 92)%nat then "\\"
  else if (n =? 8)%nat then "\b"
  else if (n =? 12)%nat then "\f"
  else if (n =? 10)%nat then "\n"
  else if (n =? 13)%nat then "\r"
  else if (n =? 9)%nat then "\t"
  else if (n <? 32)%nat then
    "\u00" ++ String (hex_digit (n / 16)) (String (hex_digit (n mod 16))
                                                  EmptyString)
  else String c EmptyString.

Fixpoint escape (s : string) : string :=
  match s with
  | EmptyString => EmptyString
  | String c rest => escape_char c ++ escape rest
  end.

Definition quote (s : string) : string := dq ++ escape s ++ dq.

Section WithFormat.
Context {fmt : NumberFormat}.

Definition render (v : value) : string :=
  match v with
  | Str s => quote s
  | Int n => Js.string_of_nat n
  | Num q => numberToString q
  end.

Definition field (kv : string * value) : string :=
  quote (fst kv) ++ ":" ++ render (snd kv).

Definition stringify (fields : list (string * value)) : string :=
  "{" ++ String.concat "," (map field fields) ++ "}".

End WithFormat.

End Json.

(** ** Data model: one record per table row *)

Inductive TxType : Type := income | expense.

Definition TxType_eqb (a b : TxType) : bool :=
  match a, b with
  | income, income | expense, expense => true
  | _, _ => false
  end.

Module Transaction.
Record t : Type := mk {
  id : nat;
  user_id : string;
  date : Date.t;
  description : string;
  amount : Q;
  category : string;
  type : TxType;
  created_at : Z
}.
Definition set_category (c : string) (r : t) : t :=
  mk (id r) (user_id r) (date r) (description r) (amount r) c (type r)
     (created_at r).
End Transaction.

Inductive Period : Type := monthly_period | quarterly_period | yearly_period.

Module Budget.
Record t : Type := mk {
  id : nat;
  user_id : string;
  category : string;
  amount : Q;
  period : Period;
  start_date : Date.t;
  end_date : option Date.t;
  alert_threshold : option Q;
  created_at : Z
}.
End Budget.

Inductive VarianceStatus : Type := under | on_track | over.

Module BudgetVariance.
Record t : Type := mk {
  budget : Budget.t;
  actual : Q;
  variance : Q;
  variancePercentage : Q;
  status : VarianceStatus
}.
End BudgetVariance.

Inductive GoalType : Type :=
  revenue_goal | profit_goal | savings_goal | expense_reduction_goal
| custom_goal.

Inductive GoalStatus : Type := active | completed | cancelled.

Definition GoalStatus_eqb (a b : GoalStatus) : bool :=
  match a, b with
  | active, active | completed, completed | cancelled, cancelled => true
  | _, _ => false
  end.

Module FinancialGoal.
Record t : Type := mk {
  id : nat;
  user_id : string;
  goal_type : GoalType;
  target_amount : Q;
  current_amount : Q;
  deadline : option Date.t;
  description : option string;
  status : GoalStatus;
  created_at : Z;
  updated_at : Z
}.
(** [SET status = 'completed', updated_at = CURRENT_TIMESTAMP]. *)
Definition complete (now : Z) (g : t) : t :=
  mk (id g) (user_id g) (goal_type g) (target_amount g) (current_amount g)
     (deadline g) (description g) completed (created_at g) now.
End FinancialGoal.

Module GoalProgress.
Record t : Type := mk {
  goal : FinancialGoal.t;
  progress_percentage : Q;
  remaining_amount : Q;
  days_remaining : option Z;
  on_track : bool
}.
End GoalProgress.

Inductive AlertType : Type :=
  budget_overrun | low_cash | anomaly | goal_progress | trend | custom.

Definition AlertType_eqb (a b : AlertType) : bool :=
  match a, b with
  | budget_overrun, budget_overrun | low_cash, low_cash | anomaly, anomaly
  | goal_progress, goal_progress | trend, trend | custom, custom => true
  | _, _ => false
  end.

Inductive Severity : Type := info | warning | critical.

Module Alert.
Record t : Type := mk {
  id : nat;
  user_id : string;
  alert_type : AlertType;
  severity : Severity;
  title : string;
  message : string;
  data : option string;
  read : nat;
  dismissed : nat;
  created_at : Z
}.
End Alert.

Inductive AnomalyType : Type :=
  unusual_amount | unusual_category | unusual_frequency | duplicate | other.

Module Anomaly.
Record t : Type := mk {
  id : nat;
  user_id : string;
  transaction_id : option nat;
  anomaly_type : AnomalyType;
  severity : Q;
  description : string;
  reviewed : nat;
  false_positive : nat;
  detected_at : Z
}.
End Anomaly.

Inductive Frequency : Type := daily | weekly | monthly | quarterly | yearly.

Module RecurringTransaction.
Record t : Type := mk {
  id : nat;
  user_id : string;
  description : string;
  amount : Q;
  category : string;
  type : TxType;
  frequency : Frequency;
  confidence : Q;
  last_occurrence : option Date.t;
  next_expected : option Date.t;
  detected_at : Z
}.
End RecurringTransaction.

Module CashFlowForecast.
Record t : Type := mk {
  id : nat;
  user_id : string;
  forecast_date : Z * Z;
  projected_income : Q;
  projected_expenses : Q;
  projected_balance : Q;
  confidence_level : Q;
  assumptions : option string;
  created_at : Z
}.
End CashFlowForecast.

Module TrendData.
Record t : Type := mk {
  period : Z * Z;
  income : Q;
  expenses : Q;
  profit : Q
}.
End TrendData.

Inductive Role : Type := user | model.

Module ConversationMessage.
Record t : Type := mk {
  id : nat;
  userId : string;
  messageId : string;
  role : Role;
  content : string;
  timestamp : Z
}.
End ConversationMessage.

Inductive NotificationType : Type :=
  info_note | success_note | warning_note | error_note.

Module Notification.
Record t : Type := mk {
  id : nat;
  user_id : string;
  title : string;
  message : string;
  type : NotificationType;
  read : nat;
  created_at : Z
}.
End Notification.

(** The database: every table the core reads or writes. *)
Record DB : Type := mkDB {
  transactions : list Transaction.t;
  budgets : list Budget.t;
  financial_goals : list FinancialGoal.t;
  alerts : list Alert.t;
  anomalies : list Anomaly.t;
  recurring_transactions : list RecurringTransaction.t;
  cash_flow_forecasts : list CashFlowForecast.t;
  conversations : list ConversationMessage.t;
  notifications : list Notification.t
}.

Definition set_transactions (v : list Transaction.t) (db : DB) : DB :=
  mkDB v (budgets db) (financial_goals db) (alerts db) (anomalies db)
       (recurring_transactions db) (cash_flow_forecasts db)
       (conversations db) (notifications db).

Definition set_budgets (v : list Budget.t) (db : DB) : DB :=
  mkDB (transactions db) v (financial_goals db) (alerts db) (anomalies db)
       (recurring_transactions db) (cash_flow_forecasts db)
       (conversations db) (notifications db).

Definition set_financial_goals (v : list FinancialGoal.t) (db : DB) : DB :=
  mkDB (transactions db) (budgets db) v (alerts db) (anomalies db)
       (recurring_transactions db) (cash_flow_forecasts db)
       (conversations db) (notifications db).

Definition set_alerts (v : list Alert.t) (db : DB) : DB :=
  mkDB (transactions db) (budgets db) (financial_goals db) v (anomalies db)
       (recurring_transactions db) (cash_flow_forecasts db)
       (conversations db) (notifications db).

Definition set_anomalies (v : list Anomaly.t) (db : DB) : DB :=
  mkDB (transactions db) (budgets db) (financial_goals db) (alerts db) v
       (recurring_transactions db) (cash_flow_forecasts db)
       (conversations db) (notifications db).

Definition set_recurring_transactions (v : list RecurringTransaction.t)
  (db : DB) : DB :=
  mkDB (transactions db) (budgets db) (financial_goals db) (alerts db)
       (anomalies db) v (cash_flow_forecasts db)
       (conversations db) (notifications db).

Definition set_cash_flow_forecasts (v : list CashFlowForecast.t)
  (db : DB) : DB :=
  mkDB (transactions db) (budgets db) (financial_goals db) (alerts db)
       (anomalies db) (recurring_transactions db) v
       (conversations db) (notifications db).

Definition set_conversations (v : list ConversationMessage.t)
  (db : DB) : DB :=
  mkDB (transactions db) (budgets db) (financial_goals db) (alerts db)
       (anomalies db) (recurring_transactions db) (cash_flow_forecasts db)
       v (notifications db).

Definition set_notifications (v : list Notification.t) (db : DB) : DB :=
  mkDB (transactions db) (budgets db) (financial_goals db) (alerts db)
       (anomalies db) (recurring_transactions db) (cash_flow_forecasts db)
       (conversations db) v.

Definition empty_db : DB := mkDB [] [] [] [] [] [] [] [] [].

(** ** TransactionRepository *)

Module FinancialSummary.
Record t : Type := mk { revenue : Q; expenses : Q; profit : Q }.
End FinancialSummary.

(** A row of the statistics query of [getAnomalousTransactions]. *)
Module CategoryStat.
Record t : Type := mk {
  category : string;
  type : TxType;
  avg_amount : Q;
  count : nat
}.
End CategoryStat.

(** A row of [detectRecurringTransactions]. *)
Module RecurringPattern.
Record t : Type := mk {
  description : string;
  category : string;
  type : TxType;
  avg_amount : Q;
  occurrence_count : nat;
  first_date : Date.t;
  last_date : Date.t
}.
End RecurringPattern.

(** A row of [getCategoryTotals]. *)
Module CategoryTotal.
Record t : Type := mk {
  category : string;
  type : TxType;
  total : Q
}.
End CategoryTotal.

(** A row of [getMonthlyComparison]. *)
Module MonthlyComparison.
Record t : Type := mk {
  month : Z * Z;
  income : Q;
  expenses : Q;
  profit : Q
}.
End MonthlyComparison.

Module TransactionRepository.

Definition of_user (userId : string) (t : Transaction.t) : bool :=
  String.eqb (Transaction.user_id t) userId.

(** [INSERT INTO transactions ...]; returns [lastInsertRowid]. *)
Definition addTransaction (now : Z) (t : Transaction.t) (db : DB)
  : nat * DB :=
  let rowid := Sql.next_id (map Transaction.id (transactions db)) in
  let row :=
    Transaction.mk rowid (Transaction.user_id t) (Transaction.date t)
      (Transaction.description t) (Transaction.amount t)
      (Transaction.category t) (Transaction.type t) now in
  (rowid, set_transactions (transactions db ++ [row]) db).

Definition getFinancialSummary (userId : string) (db : DB)
  : FinancialSummary.t :=
  let rows := filter (of_user userId) (transactions db) in
  let revenue :=
    Js.opt_num_or
      (Sql.SUM (map (fun t => match Transaction.type t with
                              | income => Transaction.amount t
                              | expense => 0
                              end) rows)) 0 in
  let expenses :=
    Js.opt_num_or
      (Sql.SUM (map (fun t => match Transaction.type t with
                              | expense => Transaction.amount t
                              | income => 0
                              end) rows)) 0 in
  FinancialSummary.mk revenue expenses (revenue - expenses).

Definition date_desc (a b : Transaction.t) : bool :=
  Date.leb (Transaction.date b) (Transaction.date a).

Definition in_range (startDate endDate : option Date.t) (t : Transaction.t)
  : bool :=
  match startDate with
  | Some s => Date.leb s (Transaction.date t)
  | None => true
  end &&
  match endDate with
  | Some e => Date.leb (Transaction.date t) e
  | None => true
  end.

Definition getTransactionsByCategory (userId category : string)
  (startDate endDate : option Date.t) (db : DB) : list Transaction.t :=
  Sql.order_by date_desc
    (filter (fun t => of_user userId t
                      && String.eqb (Transaction.category t) category
                      && in_range startDate endDate t)
            (transactions db)).

Definition pair_key (t : Transaction.t) : string * TxType :=
  (Transaction.category t, Transaction.type t).

Definition pair_eqb (a b : string * TxType) : bool :=
  String.eqb (fst a) (fst b) && TxType_eqb (snd a) (snd b).

(** [SELECT category, type, AVG(amount), COUNT( * ) ... GROUP BY category,
    type HAVING count >= 3]. *)
Definition category_stats (userId : string) (db : DB)
  : list CategoryStat.t :=
  let rows := filter (of_user userId) (transactions db) in
  filter (fun s => (3 <=? CategoryStat.count s)%nat)
    (map (fun k =>
            let g := filter (fun t => pair_eqb (pair_key t) k) rows in
            CategoryStat.mk (fst k) (snd k)
              (Sql.AVG (map Transaction.amount g)) (List.length g))
         (Sql.group_keys pair_eqb pair_key rows)).

Definition amount_desc (a b : Transaction.t) : bool :=
  Js.leb (Transaction.amount b) (Transaction.amount a).

(** The inner query of [getAnomalousTransactions] for one statistic. *)
Definition high_transactions (userId : string) (threshold : Q)
  (stat : CategoryStat.t) (db : DB) : list Transaction.t :=
  let highThreshold := CategoryStat.avg_amount stat * threshold in
  Sql.order_by amount_desc
    (filter (fun t => of_user userId t
                      && String.eqb (Transaction.category t)
                                    (CategoryStat.category stat)
                      && TxType_eqb (Transaction.type t)
                                    (CategoryStat.type stat)
                      && Js.gtb (Transaction.amount t) highThreshold)
            (transactions db)).

Definition getAnomalousTransactions (userId : string) (threshold : Q)
  (db : DB) : list Transaction.t :=
  flat_map (fun stat => high_transactions userId threshold stat db)
           (category_stats userId db).

Definition triple_key (t : Transaction.t) : string * string * TxType :=
  (Transaction.description t, Transaction.category t, Transaction.type t).

Definition triple_eqb (a b : string * string * TxType) : bool :=
  String.eqb (fst (fst a)) (fst (fst b))
  && String.eqb (snd (fst a)) (snd (fst b))
  && TxType_eqb (snd a) (snd b).

Definition pattern_of_group (k : string * string * TxType)
  (g : list Transaction.t) : list RecurringPattern.t :=
  match g with
  | [] => []
  | t0 :: rest =>
      [RecurringPattern.mk (fst (fst k)) (snd (fst k)) (snd k)
         (Sql.AVG (map Transaction.amount g)) (List.length g)
         (Date.min_of (Transaction.date t0) (map Transaction.date rest))
         (Date.max_of (Transaction.date t0) (map Transaction.date rest))]
  end.

Definition count_desc (a b : RecurringPattern.t) : bool :=
  (RecurringPattern.occurrence_count b
   <=? RecurringPattern.occurrence_count a)%nat.

(** [... GROUP BY description, category, type HAVING occurrence_count >= 3
    ORDER BY occurrence_count DESC]. *)
Definition detectRecurringTransactions (userId : string) (db : DB)
  : list RecurringPattern.t :=
  let rows := filter (of_user userId) (transactions db) in
  Sql.order_by count_desc
    (filter (fun p => (3 <=? RecurringPattern.occurrence_count p)%nat)
       (flat_map (fun k =>
                    pattern_of_group k
                      (filter (fun t => triple_eqb (triple_key t) k) rows))
                 (Sql.group_keys triple_eqb triple_key rows))).

(** The [WHERE] clause of [bulkUpdateCategory]. *)
Definition matches_vendor (userId vendorName : string) (t : Transaction.t)
  : bool :=
  of_user userId t
  && Sql.like ("%" ++ vendorName ++ "%") (Transaction.description t).

(** [UPDATE transactions SET category = @newCategory WHERE user_id =
    @userId AND description LIKE @pattern]; returns [info.changes]. *)
Definition bulkUpdateCategory (userId vendorName newCategory : string)
  (db : DB) : nat * DB :=
  (List.length (filter (matches_vendor userId vendorName) (transactions db)),
   set_transactions
     (map (fun t => if matches_vendor userId vendorName t
                    then Transaction.set_category newCategory t else t)
          (transactions db))
     db).

(** [ORDER BY date DESC, created_at DESC]. *)
Definition newest_first (a b : Transaction.t) : bool :=
  match Date.compare (Transaction.date b) (Transaction.date a) with
  | Lt => true
  | Gt => false
  | Eq => (Transaction.created_at b <=? Transaction.created_at a)%Z
  end.

Definition getAllTransactions (userId : string) (db : DB)
  : list Transaction.t :=
  Sql.order_by newest_first (filter (of_user userId) (transactions db)).

(** [... ORDER BY date DESC, created_at DESC LIMIT ?]; the limit is a
    whole number. *)
Definition getRecentTransactions (userId : string) (limit : Z) (db : DB)
  : list Transaction.t :=
  Sql.limit limit
    (Sql.order_by newest_first (filter (of_user userId) (transactions db))).

Definition getTransactionsByDateRange (userId : string)
  (startDate endDate : Date.t) (db : DB) : list Transaction.t :=
  Sql.order_by newest_first
    (filter (fun t => of_user userId t
                      && Date.leb startDate (Transaction.date t)
                      && Date.leb (Transaction.date t) endDate)
            (transactions db)).

Definition total_desc (a b : CategoryTotal.t) : bool :=
  Js.leb (CategoryTotal.total b) (CategoryTotal.total a).

(** [SELECT category, type, SUM(amount) as total ... GROUP BY category,
    type ORDER BY total DESC], the two bounds being optional. *)
Definition getCategoryTotals (userId : string)
  (startDate endDate : option Date.t) (db : DB) : list CategoryTotal.t :=
  let rows :=
    filter (fun t => of_user userId t && in_range startDate endDate t)
           (transactions db) in
  Sql.order_by total_desc
    (map (fun k =>
            CategoryTotal.mk (fst k) (snd k)
              (Js.sum (map Transaction.amount
                         (filter (fun t => pair_eqb (pair_key t) k) rows))))
         (Sql.group_keys pair_eqb pair_key rows)).

Definition month_desc (a b : MonthlyComparison.t) : bool :=
  let p := MonthlyComparison.month a in
  let q := MonthlyComparison.month b in
  ((fst q <? fst p) || ((fst q =? fst p) && (snd q <=? snd p)))%Z.

(** [SELECT strftime('%Y-%m', date) as month, SUM(CASE ...) as income,
    ... WHERE user_id = ? AND date >= date('now', '-N months') GROUP BY
    month ORDER BY month DESC]. *)
Definition getMonthlyComparison (now : Z) (userId : string) (months : nat)
  (db : DB) : list MonthlyComparison.t :=
  let cutoff := Date.sqlite_minus_months now (Z.of_nat months) in
  let rows :=
    filter (fun t => of_user userId t
                     && Date.leb cutoff (Transaction.date t))
           (transactions db) in
  let key := fun t => Date.period (Transaction.date t) in
  let same := fun a b : Z * Z => ((fst a =? fst b) && (snd a =? snd b))%Z in
  Sql.order_by month_desc
    (map (fun p =>
            let g := filter (fun t => same (key t) p) rows in
            MonthlyComparison.mk p
              (Js.sum (map (fun t => match Transaction.type t with
                                     | income => Transaction.amount t
                                     | expense => 0
                                     end) g))
              (Js.sum (map (fun t => match Transaction.type t with
                                     | expense => Transaction.amount t
                                     | income => 0
                                     end) g))
              (Js.sum (map (fun t => match Transaction.type t with
                                     | income => Transaction.amount t
                                     | expense => - Transaction.amount t
                                     end) g)))
         (Sql.group_keys same key rows)).

End TransactionRepository.

(** ** AlertRepository *)

Module AlertRepository.

(** [INSERT INTO alerts ...] with [read: alert.read || 0] and
    [dismissed: alert.dismissed || 0]. *)
Definition createAlert (now : Z) (a : Alert.t) (db : DB) : nat * DB :=
  let rowid := Sql.next_id (map Alert.id (alerts db)) in
  let row :=
    Alert.mk rowid (Alert.user_id a) (Alert.alert_type a) (Alert.severity a)
      (Alert.title a) (Alert.message a) (Alert.data a)
      (Alert.read a) (Alert.dismissed a) now in
  (rowid, set_alerts (alerts db ++ [row]) db).

Definition created_desc (a b : Alert.t) : bool :=
  (Alert.created_at b <=? Alert.created_at a)%Z.

Definition getAlerts (userId : string) (includeRead includeDismissed : bool)
  (db : DB) : list Alert.t :=
  Sql.order_by created_desc
    (filter (fun a => String.eqb (Alert.user_id a) userId
                      && (includeRead || (Alert.read a =? 0)%nat)
                      && (includeDismissed || (Alert.dismissed a =? 0)%nat))
            (alerts db)).

Definition createAnomaly (now : Z) (a : Anomaly.t) (db : DB) : nat * DB :=
  let rowid := Sql.next_id (map Anomaly.id (anomalies db)) in
  let row :=
    Anomaly.mk rowid (Anomaly.user_id a) (Anomaly.transaction_id a)
      (Anomaly.anomaly_type a) (Anomaly.severity a) (Anomaly.description a)
      (Anomaly.reviewed a) (Anomaly.false_positive a) now in
  (rowid, set_anomalies (anomalies db ++ [row]) db).

(** [ORDER BY severity DESC, detected_at DESC]. *)
Definition severity_desc (a b : Anomaly.t) : bool :=
  if Js.ltb (Anomaly.severity b) (Anomaly.severity a) then true
  else if Js.ltb (Anomaly.severity a) (Anomaly.severity b) then false
  else (Anomaly.detected_at b <=? Anomaly.detected_at a)%Z.

Definition getAnomalies (userId : string) (includeReviewed : bool) (db : DB)
  : list Anomaly.t :=
  Sql.order_by severity_desc
    (filter (fun a => String.eqb (Anomaly.user_id a) userId
                      && (includeReviewed || (Anomaly.reviewed a =? 0)%nat))
            (anomalies db)).

Definition createRecurringTransaction (now : Z) (r : RecurringTransaction.t)
  (db : DB) : nat * DB :=
  let rowid :=
    Sql.next_id (map RecurringTransaction.id (recurring_transactions db)) in
  let row :=
    RecurringTransaction.mk rowid (RecurringTransaction.user_id r)
      (RecurringTransaction.description r) (RecurringTransaction.amount r)
      (RecurringTransaction.category r) (RecurringTransaction.type r)
      (RecurringTransaction.frequency r) (RecurringTransaction.confidence r)
      (RecurringTransaction.last_occurrence r)
      (RecurringTransaction.next_expected r) now in
  (rowid, set_recurring_transactions (recurring_transactions db ++ [row]) db).

(** [ORDER BY confidence DESC, detected_at DESC]. *)
Definition confidence_desc (a b : RecurringTransaction.t) : bool :=
  if Js.ltb (RecurringTransaction.confidence b)
            (RecurringTransaction.confidence a) then true
  else if Js.ltb (RecurringTransaction.confidence a)
                 (RecurringTransaction.confidence b) then false
  else (RecurringTransaction.detected_at b
        <=? RecurringTransaction.detected_at a)%Z.

Definition getRecurringTransactions (userId : string) (db : DB)
  : list RecurringTransaction.t :=
  Sql.order_by confidence_desc
    (filter (fun r => String.eqb (RecurringTransaction.user_id r) userId)
            (recurring_transactions db)).

(** [UPDATE alerts SET read = 1 WHERE id = ?]. *)
Definition markAlertAsRead (alertId : nat) (db : DB) : DB :=
  set_alerts
    (map (fun a => if (Alert.id a =? alertId)%nat
                   then Alert.mk (Alert.id a) (Alert.user_id a)
                          (Alert.alert_type a) (Alert.severity a)
                          (Alert.title a) (Alert.message a) (Alert.data a)
                          1%nat (Alert.dismissed a) (Alert.created_at a)
                   else a)
         (alerts db))
    db.

(** [UPDATE alerts SET dismissed = 1 WHERE id = ?]. *)
Definition dismissAlert (alertId : nat) (db : DB) : DB :=
  set_alerts
    (map (fun a => if (Alert.id a =? alertId)%nat
                   then Alert.mk (Alert.id a) (Alert.user_id a)
                          (Alert.alert_type a) (Alert.severity a)
                          (Alert.title a) (Alert.message a) (Alert.data a)
                          (Alert.read a) 1%nat (Alert.created_at a)
                   else a)
         (alerts db))
    db.

(** The [WHERE] clause of [clearOldAlerts]: the two timestamps are
    texts with a resolution of one second, [daysOld] a whole number. *)
Definition expired (now : Z) (userId : string) (daysOld : Z) (a : Alert.t)
  : bool :=
  String.eqb (Alert.user_id a) userId
  && (Alert.created_at a / 1000 <? now / 1000 - daysOld * 86400)%Z
  && ((Alert.read a =? 1)%nat || (Alert.dismissed a =? 1)%nat).

(** [DELETE FROM alerts WHERE user_id = ? AND created_at <
    datetime('now', '-N days') AND (read = 1 OR dismissed = 1)]. *)
Definition clearOldAlerts (now : Z) (userId : string) (daysOld : Z) (db : DB)
  : DB :=
  set_alerts (filter (fun a => negb (expired now userId daysOld a))
                     (alerts db))
             db.

(** [UPDATE anomalies SET reviewed = 1, false_positive = ? WHERE id =
    ?]. *)
Definition markAnomalyAsReviewed (anomalyId : nat) (isFalsePositive : bool)
  (db : DB) : DB :=
  set_anomalies
    (map (fun a => if (Anomaly.id a =? anomalyId)%nat
                   then Anomaly.mk (Anomaly.id a) (Anomaly.user_id a)
                          (Anomaly.transaction_id a) (Anomaly.anomaly_type a)
                          (Anomaly.severity a) (Anomaly.description a)
                          1%nat (if isFalsePositive then 1%nat else 0%nat)
                          (Anomaly.detected_at a)
                   else a)
         (anomalies db))
    db.

End AlertRepository.

(** ** BudgetRepository *)

Module BudgetRepository.

Definition category_asc (a b : Budget.t) : bool :=
  String.leb (Budget.category a) (Budget.category b).

(** Budgets whose window contains today, [ORDER BY category]. *)
Definition getActiveBudgets (now : Z) (userId : string) (db : DB)
  : list Budget.t :=
  let currentDate := Date.today now in
  Sql.order_by category_asc
    (filter (fun b => String.eqb (Budget.user_id b) userId
                      && Date.leb (Budget.start_date b) currentDate
                      && match Budget.end_date b with
                         | None => true
                         | Some e => Date.leb currentDate e
                         end)
            (budgets db)).

(** [SELECT SUM(amount) as total FROM transactions WHERE user_id = ? AND
    category = ? AND date >= ? AND date <= ? AND type = 'expense']. *)
Definition spent (userId category : string) (startDate endDate : Date.t)
  (db : DB) : option Q :=
  Sql.SUM
    (map Transaction.amount
       (filter (fun t => String.eqb (Transaction.user_id t) userId
                         && String.eqb (Transaction.category t) category
                         && Date.leb startDate (Transaction.date t)
                         && Date.leb (Transaction.date t) endDate
                         && TxType_eqb (Transaction.type t) expense)
               (transactions db))).

(** The body of the loop of [getBudgetVariance]. *)
Definition variance_of (userId : string) (startDate endDate : Date.t)
  (db : DB) (budget : Budget.t) : BudgetVariance.t :=
  let actual :=
    Js.opt_num_or (spent userId (Budget.category budget) startDate endDate db)
                  0 in
  let variance := Budget.amount budget - actual in
  let variancePercentage :=
    if Js.gtb (Budget.amount budget) 0
    then (variance / Budget.amount budget) * 100 else 0 in
  let threshold := Js.opt_num_or (Budget.alert_threshold budget) (9 # 10) in
  let status :=
    if Js.gtb actual (Budget.amount budget) then over
    else if Js.ltb actual (Budget.amount budget * threshold) then under
    else on_track in
  BudgetVariance.mk budget actual variance variancePercentage status.

Definition getBudgetVariance (now : Z) (userId : string)
  (startDate endDate : Date.t) (db : DB) : list BudgetVariance.t :=
  map (variance_of userId startDate endDate db)
      (getActiveBudgets now userId db).

(** [a / b >= c] in JavaScript, where a zero [b] gives an infinity or
    NaN. *)
Definition quotient_geb (a b c : Q) : bool :=
  if Qeq_bool b 0 then Js.gtb a 0 else Js.geb (a / b) c.

Definition needs_alert (v : BudgetVariance.t) : bool :=
  match BudgetVariance.status v with
  | over => true
  | _ =>
      quotient_geb (BudgetVariance.actual v)
        (Budget.amount (BudgetVariance.budget v))
        (Js.opt_num_or (Budget.alert_threshold (BudgetVariance.budget v))
                       (9 # 10))
  end.

Definition checkBudgetAlerts (now : Z) (userId : string) (db : DB)
  : list BudgetVariance.t :=
  let startDate := Date.first_of_month now in
  let endDate := Date.today now in
  filter needs_alert (getBudgetVariance now userId startDate endDate db).

Definition created_desc (a b : Budget.t) : bool :=
  (Budget.created_at b <=? Budget.created_at a)%Z.

(** [SELECT * FROM budgets WHERE user_id = ? ORDER BY created_at DESC]. *)
Definition getBudgets (userId : string) (db : DB) : list Budget.t :=
  Sql.order_by created_desc
    (filter (fun b => String.eqb (Budget.user_id b) userId) (budgets db)).

(** [SELECT * FROM budgets WHERE id = ?]; [undefined] on no row. *)
Definition getBudgetById (id : nat) (db : DB) : option Budget.t :=
  find (fun b => (Budget.id b =? id)%nat) (budgets db).

(** [DELETE FROM budgets WHERE id = ?]. *)
Definition deleteBudget (id : nat) (db : DB) : DB :=
  set_budgets (filter (fun b => negb (Budget.id b =? id)%nat) (budgets db))
              db.

End BudgetRepository.

(** ** GoalRepository *)

Module GoalRepository.

Definition created_desc (a b : FinancialGoal.t) : bool :=
  (FinancialGoal.created_at b <=? FinancialGoal.created_at a)%Z.

Definition getGoals (userId : string) (status : option GoalStatus) (db : DB)
  : list FinancialGoal.t :=
  Sql.order_by created_desc
    (filter (fun g => String.eqb (FinancialGoal.user_id g) userId
                      && match status with
                         | Some s => GoalStatus_eqb (FinancialGoal.status g) s
                         | None => true
                         end)
            (financial_goals db)).

(** [Math.ceil(ms / (1000 * 60 * 60 * 24))]. *)
Definition ceil_days (ms : Z) : Z :=
  Js.ceil (inject_Z ms / inject_Z Date.ms_per_day).

(** The function mapped over the active goals by [getGoalProgress]. *)
Definition progress_of (now : Z) (goal : FinancialGoal.t) : GoalProgress.t :=
  let progress_percentage :=
    if Js.gtb (FinancialGoal.target_amount goal) 0
    then (FinancialGoal.current_amount goal
          / FinancialGoal.target_amount goal) * 100
    else 0 in
  let remaining_amount :=
    FinancialGoal.target_amount goal - FinancialGoal.current_amount goal in
  match FinancialGoal.deadline goal with
  | Some d =>
      let deadline := Date.getTime d in
      let days_remaining := ceil_days (deadline - now) in
      let created := FinancialGoal.created_at goal in
      let totalDays := ceil_days (deadline - created) in
      let elapsedDays := ceil_days (now - created) in
      let expectedProgress :=
        if (0 <? totalDays)%Z
        then (inject_Z elapsedDays / inject_Z totalDays) * 100 else 0 in
      GoalProgress.mk goal progress_percentage remaining_amount
        (Some days_remaining)
        (Js.geb progress_percentage (expectedProgress * (9 # 10)))
  | None =>
      GoalProgress.mk goal progress_percentage remaining_amount None true
  end.

Definition getGoalProgress (now : Z) (userId : string) (db : DB)
  : list GoalProgress.t :=
  map (progress_of now) (getGoals userId (Some active) db).

(** [UPDATE financial_goals SET status = 'completed', updated_at =
    CURRENT_TIMESTAMP WHERE id = ?]. *)
Definition mark_completed (now : Z) (goalId : nat) (db : DB) : DB :=
  set_financial_goals
    (map (fun g => if (FinancialGoal.id g =? goalId)%nat
                   then FinancialGoal.complete now g else g)
         (financial_goals db))
    db.

(** The [SELECT] of [checkGoalCompletion]. *)
Definition reached (userId : string) (g : FinancialGoal.t) : bool :=
  String.eqb (FinancialGoal.user_id g) userId
  && GoalStatus_eqb (FinancialGoal.status g) active
  && Js.geb (FinancialGoal.current_amount g) (FinancialGoal.target_amount g).

(** The body of the loop of [checkGoalCompletion]: [if (goal.id)]. *)
Definition completion_step (now : Z) (d : DB) (goal : FinancialGoal.t) : DB :=
  if (FinancialGoal.id goal =? 0)%nat then d
  else mark_completed now (FinancialGoal.id goal) d.

Definition checkGoalCompletion (now : Z) (userId : string) (db : DB)
  : list FinancialGoal.t * DB :=
  let completedGoals := filter (reached userId) (financial_goals db) in
  (completedGoals, fold_left (completion_step now) completedGoals db).

(** [SELECT * FROM financial_goals WHERE id = ?]; [undefined] on no
    row. *)
Definition getGoalById (id : nat) (db : DB) : option FinancialGoal.t :=
  find (fun g => (FinancialGoal.id g =? id)%nat) (financial_goals db).

(** [UPDATE financial_goals SET current_amount = ?, updated_at =
    CURRENT_TIMESTAMP WHERE id = ?]. *)
Definition updateGoalProgress (now : Z) (goalId : nat) (currentAmount : Q)
  (db : DB) : DB :=
  set_financial_goals
    (map (fun g => if (FinancialGoal.id g =? goalId)%nat
                   then FinancialGoal.mk (FinancialGoal.id g)
                          (FinancialGoal.user_id g)
                          (FinancialGoal.goal_type g)
                          (FinancialGoal.target_amount g) currentAmount
                          (FinancialGoal.deadline g)
                          (FinancialGoal.description g)
                          (FinancialGoal.status g)
                          (FinancialGoal.created_at g) now
                   else g)
         (financial_goals db))
    db.

End GoalRepository.

(** ** AnalyticsRepository *)

Inductive Trend : Type := increasing | decreasing | stable_trend.

Module SpendingPattern.
Record t : Type := mk {
  category : string;
  total : Q;
  count : nat;
  average : Q;
  percentage : Q;
  trend : Trend
}.
End SpendingPattern.

Inductive Metric : Type := income_metric | expenses_metric | profit_metric.

Module AnalyticsRepository.

Definition period_eqb (a b : Z * Z) : bool :=
  ((fst a =? fst b) && (snd a =? snd b))%Z.

Definition period_leb (a b : Z * Z) : bool :=
  ((fst a <? fst b) || ((fst a =? fst b) && (snd a <=? snd b)))%Z.

Definition period_desc (a b : TrendData.t) : bool :=
  period_leb (TrendData.period b) (TrendData.period a).

Definition trend_of_group (p : Z * Z) (g : list Transaction.t) : TrendData.t :=
  TrendData.mk p
    (Js.sum (map (fun t => match Transaction.type t with
                           | income => Transaction.amount t
                           | expense => 0
                           end) g))
    (Js.sum (map (fun t => match Transaction.type t with
                           | expense => Transaction.amount t
                           | income => 0
                           end) g))
    (Js.sum (map (fun t => match Transaction.type t with
                           | income => Transaction.amount t
                           | expense => - Transaction.amount t
                           end) g)).

(** [... WHERE user_id = ? AND date >= date('now', '-N months') GROUP BY
    period ORDER BY period DESC]. *)
Definition getMonthlyTrends (now : Z) (userId : string) (months : nat)
  (db : DB) : list TrendData.t :=
  let cutoff := Date.sqlite_minus_months now (Z.of_nat months) in
  let rows :=
    filter (fun t => String.eqb (Transaction.user_id t) userId
                     && Date.leb cutoff (Transaction.date t))
           (transactions db) in
  let key := fun t => Date.period (Transaction.date t) in
  Sql.order_by period_desc
    (map (fun p =>
            trend_of_group p (filter (fun t => period_eqb (key t) p) rows))
         (Sql.group_keys period_eqb key rows)).

Definition saveForecast (now : Z) (f : CashFlowForecast.t) (db : DB)
  : nat * DB :=
  let rowid :=
    Sql.next_id (map CashFlowForecast.id (cash_flow_forecasts db)) in
  let row :=
    CashFlowForecast.mk rowid (CashFlowForecast.user_id f)
      (CashFlowForecast.forecast_date f) (CashFlowForecast.projected_income f)
      (CashFlowForecast.projected_expenses f)
      (CashFlowForecast.projected_balance f)
      (CashFlowForecast.confidence_level f) (CashFlowForecast.assumptions f)
      now in
  (rowid, set_cash_flow_forecasts (cash_flow_forecasts db ++ [row]) db).

(** The aggregate row of one category in [getSpendingPatterns]. *)
Record CategorySpending : Type := mkSpending {
  spending_category : string;
  spending_total : Q;
  spending_count : nat;
  spending_average : Q
}.

Definition spending_desc (a b : CategorySpending) : bool :=
  Js.leb (spending_total b) (spending_total a).

(** [SELECT category, SUM(amount) as total, COUNT( * ) as count,
    AVG(amount) as average FROM transactions WHERE user_id = ? AND type =
    'expense' ... GROUP BY category ORDER BY total DESC]. *)
Definition spending_by_category (userId : string)
  (startDate endDate : option Date.t) (db : DB) : list CategorySpending :=
  let rows :=
    filter (fun t => String.eqb (Transaction.user_id t) userId
                     && TxType_eqb (Transaction.type t) expense
                     && TransactionRepository.in_range startDate endDate t)
           (transactions db) in
  Sql.order_by spending_desc
    (map (fun c =>
            let g := filter (fun t => String.eqb (Transaction.category t) c)
                            rows in
            mkSpending c (Js.sum (map Transaction.amount g)) (List.length g)
              (Sql.AVG (map Transaction.amount g)))
         (Sql.group_keys String.eqb Transaction.category rows)).

(** The monthly totals read by [getCategoryTrend]: [... AND date >=
    date('now', '-3 months') GROUP BY month ORDER BY month ASC]. *)
Definition monthly_totals (now : Z) (userId category : string) (db : DB)
  : list ((Z * Z) * Q) :=
  let cutoff := Date.sqlite_minus_months now 3 in
  let rows :=
    filter (fun t => String.eqb (Transaction.user_id t) userId
                     && String.eqb (Transaction.category t) category
                     && TxType_eqb (Transaction.type t) expense
                     && Date.leb cutoff (Transaction.date t))
           (transactions db) in
  let key := fun t => Date.period (Transaction.date t) in
  Sql.order_by (fun a b => period_leb (fst a) (fst b))
    (map (fun p =>
            (p, Js.sum (map Transaction.amount
                          (filter (fun t => period_eqb (key t) p) rows))))
         (Sql.group_keys period_eqb key rows)).

(** [((last - first) / first) * 100] against the two bounds; a zero
    [first] gives an infinity of the sign of [last - first], or NaN. *)
Definition trend_of_change (first last : Q) : Trend :=
  if Qeq_bool first 0 then
    if Js.gtb (last - first) 0 then increasing
    else if Js.ltb (last - first) 0 then decreasing
    else stable_trend
  else
    let change := ((last - first) / first) * 100 in
    if Js.gtb change 10 then increasing
    else if Js.ltb change (-10) then decreasing
    else stable_trend.

Definition getCategoryTrend (now : Z) (userId category : string) (db : DB)
  : Trend :=
  let monthlyData := monthly_totals now userId category db in
  match monthlyData with
  | first :: _ :: _ =>
      trend_of_change (snd first) (snd (List.last monthlyData first))
  | _ => stable_trend
  end.

Definition getSpendingPatterns (now : Z) (userId : string)
  (startDate endDate : option Date.t) (db : DB) : list SpendingPattern.t :=
  let results := spending_by_category userId startDate endDate db in
  let totalExpenses := Js.sum (map spending_total results) in
  map (fun r =>
         SpendingPattern.mk (spending_category r) (spending_total r)
           (spending_count r) (spending_average r)
           (if Js.gtb totalExpenses 0
            then (spending_total r / totalExpenses) * 100 else 0)
           (getCategoryTrend now userId (spending_category r) db))
      results.

Definition metric_of (metric : Metric) (t : TrendData.t) : Q :=
  match metric with
  | income_metric => TrendData.income t
  | expenses_metric => TrendData.expenses t
  | profit_metric => TrendData.profit t
  end.

(** [getGrowthRate]: the trends come newest first. *)
Definition getGrowthRate (now : Z) (userId : string) (metric : Metric)
  (months : nat) (db : DB) : Q :=
  let trends := getMonthlyTrends now userId months db in
  match trends with
  | newest :: _ :: _ =>
      let first := metric_of metric (List.last trends newest) in
      let last := metric_of metric newest in
      if Qeq_bool first 0 then 0 else ((last - first) / first) * 100
  | _ => 0
  end.

End AnalyticsRepository.

(** ** ConversationRepository and NotificationRepository *)

Module ConversationRepository.

(** [INSERT INTO conversations (user_id, message_id, role, content)];
    [messageId] is the value [uuidv4()] returned. *)
Definition saveMessage (now : Z) (messageId userId : string) (role : Role)
  (content : string) (db : DB) : DB :=
  let rowid := Sql.next_id (map ConversationMessage.id (conversations db)) in
  set_conversations
    (conversations db
     ++ [ConversationMessage.mk rowid userId messageId role content now])
    db.

Definition timestamp_desc (a b : ConversationMessage.t) : bool :=
  (ConversationMessage.timestamp b <=? ConversationMessage.timestamp a)%Z.

(** [SELECT ... FROM conversations WHERE user_id = ? ORDER BY timestamp
    DESC LIMIT ?], then [messages.reverse()]. *)
Definition getConversationHistory (userId : string) (limit : Z) (db : DB)
  : list ConversationMessage.t :=
  rev (Sql.limit limit
         (Sql.order_by timestamp_desc
            (filter (fun m => String.eqb (ConversationMessage.userId m)
                                         userId)
                    (conversations db)))).

(** [DELETE FROM conversations WHERE user_id = ?]. *)
Definition clearConversation (userId : string) (db : DB) : DB :=
  set_conversations
    (filter (fun m => negb (String.eqb (ConversationMessage.userId m)
                                       userId))
            (conversations db))
    db.

(** [SELECT COUNT( * ) as count FROM conversations WHERE user_id = ?]. *)
Definition getMessageCount (userId : string) (db : DB) : nat :=
  List.length
    (filter (fun m => String.eqb (ConversationMessage.userId m) userId)
            (conversations db)).

End ConversationRepository.

Module NotificationRepository.

Definition createNotification (now : Z) (n : Notification.t) (db : DB)
  : nat * DB :=
  let rowid := Sql.next_id (map Notification.id (notifications db)) in
  let row :=
    Notification.mk rowid (Notification.user_id n) (Notification.title n)
      (Notification.message n) (Notification.type n) 0%nat now in
  (rowid, set_notifications (notifications db ++ [row]) db).

(** [UPDATE notifications SET read = 1 WHERE id = ?]. *)
Definition markAsRead (notificationId : nat) (db : DB) : DB :=
  set_notifications
    (map (fun n => if (Notification.id n =? notificationId)%nat
                   then Notification.mk (Notification.id n)
                          (Notification.user_id n) (Notification.title n)
                          (Notification.message n) (Notification.type n)
                          1%nat (Notification.created_at n)
                   else n)
         (notifications db))
    db.

(** [SELECT COUNT( * ) as count FROM notifications WHERE user_id = ? AND
    read = 0]. *)
Definition getUnreadCount (userId : string) (db : DB) : nat :=
  List.length
    (filter (fun n => String.eqb (Notification.user_id n) userId
                      && (Notification.read n =? 0)%nat)
            (notifications db)).

End NotificationRepository.

(** ** FinancialIntelligenceService *)

Module CashFlowProjection.
Record t : Type := mk {
  month : Z * Z;
  projected_income : Q;
  projected_expenses : Q;
  projected_balance : Q;
  confidence : Q
}.
End CashFlowProjection.

Inductive InsightType : Type :=
  opportunity_insight | warning_insight | info_insight.

Module FinancialInsight.
Record t : Type := mk {
  type : InsightType;
  category : string;
  title : string;
  description : string;
  impact : Q;
  actionable : bool;
  recommendation : option string
}.
End FinancialInsight.

Inductive ScenarioType : Type :=
  new_hire | price_change | cost_reduction | revenue_increase
| custom_scenario.

Module ScenarioInput.
Record t : Type := mk {
  type : ScenarioType;
  monthly_impact : Q;
  description : string;
  duration_months : option Q
}.
End ScenarioInput.

Inductive RiskLevel : Type := low_risk | medium_risk | high_risk.

(** A cash runway in months: a number, [Infinity] or [NaN]. *)
Inductive Runway : Type :=
| Months (q : Q)
| Unbounded
| NotANumber.

Module ScenarioResult.
Record t : Type := mk {
  scenario : ScenarioInput.t;
  current_profit : Q;
  projected_profit : Q;
  profit_change : Q;
  profit_change_percentage : Q;
  cash_runway_current : Runway;
  cash_runway_projected : Runway;
  recommendation : string;
  risk_level : RiskLevel
}.
End ScenarioResult.

Module FinancialIntelligenceService.

Section WithFormat.
Context {fmt : NumberFormat}.

(** [calculateGrowthRate]: the series is newest first. *)
Definition calculateGrowthRate (values : list Q) : Q :=
  if (List.length values <? 2)%nat then 0
  else
    let first := last values 0 in
    let last := nth 0 values 0 in
    if Qeq_bool first 0 then 0
    else
      let totalGrowth := (last - first) / first in
      totalGrowth / inject_Z (Z.of_nat (List.length values - 1)).

(** [new Date(year, month + i, 1).toISOString().slice(0, 7)]. *)
Definition future_month (now : Z) (i : nat) : Z * Z :=
  let d := Date.today now in
  Date.period
    (Date.of_days
       (Date.to_days (Date.mk (Date.year d) (Date.month d + Z.of_nat i) 1))).

Definition confidence_at (i : nat) : Q :=
  Js.max (1 # 2) ((9 # 10) - inject_Z (Z.of_nat i) * (1 # 10)).

Definition assumptions_text (n : nat) (incomeGrowth expenseGrowth : Q)
  : string :=
  "Based on " ++ Js.string_of_nat n
  ++ " months of historical data with "
  ++ toFixed 1 (incomeGrowth * 100) ++ "% income growth and "
  ++ toFixed 1 (expenseGrowth * 100) ++ "% expense growth".

(** The state carried round the projection loop. *)
Record ForecastLoop : Type := mkLoop {
  runningBalance : Q;
  projections : list CashFlowProjection.t;
  store : DB
}.

(** One iteration of the [for] loop of [forecastCashFlow]. *)
Definition forecast_step (now : Z) (userId : string) (n : nat)
  (avgIncome avgExpenses incomeGrowth expenseGrowth : Q)
  (st : ForecastLoop) (i : nat) : ForecastLoop :=
  let monthStr := future_month now i in
  let projectedIncome := avgIncome * Js.pow (1 + incomeGrowth) i in
  let projectedExpenses := avgExpenses * Js.pow (1 + expenseGrowth) i in
  let runningBalance' :=
    runningBalance st + (projectedIncome - projectedExpenses) in
  let confidence := confidence_at i in
  let projection :=
    CashFlowProjection.mk monthStr (Js.round projectedIncome)
      (Js.round projectedExpenses) (Js.round runningBalance') confidence in
  let saved :=
    AnalyticsRepository.saveForecast now
      (CashFlowForecast.mk 0%nat userId monthStr projectedIncome
         projectedExpenses runningBalance' confidence
         (Some (assumptions_text n incomeGrowth expenseGrowth)) now)
      (store st) in
  mkLoop runningBalance' (projections st ++ [projection]) (snd saved).

Definition forecastCashFlow (now : Z) (userId : string) (months : nat)
  (db : DB) : list CashFlowProjection.t * DB :=
  let trends := AnalyticsRepository.getMonthlyTrends now userId 6 db in
  if (List.length trends <? 2)%nat then ([], db)
  else
    let n := inject_Z (Z.of_nat (List.length trends)) in
    let avgIncome := Js.sum (map TrendData.income trends) / n in
    let avgExpenses := Js.sum (map TrendData.expenses trends) / n in
    let incomeGrowth := calculateGrowthRate (map TrendData.income trends) in
    let expenseGrowth :=
      calculateGrowthRate (map TrendData.expenses trends) in
    let summary := TransactionRepository.getFinancialSummary userId db in
    let final :=
      fold_left
        (forecast_step now userId (List.length trends) avgIncome avgExpenses
           incomeGrowth expenseGrowth)
        (seq 1 months)
        (mkLoop (FinancialSummary.profit summary) [] db) in
    (projections final, store final).

Definition anomaly_description (t : Transaction.t) (severity : Q) : string :=
  "Transaction of $" ++ toLocaleString (Transaction.amount t) ++ " for "
  ++ Transaction.description t ++ " is " ++ toFixed 1 severity
  ++ "x higher than average for " ++ Transaction.category t.

Definition anomaly_message (t : Transaction.t) : string :=
  "A transaction of $" ++ toLocaleString (Transaction.amount t) ++ " for "
  ++ Json.dq ++ Transaction.description t ++ Json.dq
  ++ " is significantly higher than your typical "
  ++ Transaction.category t ++ " expenses.".

(** [existing.some(a => a.transaction_id === transaction.id)]. *)
Definition alreadyRecorded (userId : string) (transaction : Transaction.t)
  (db : DB) : bool :=
  existsb (fun a => match Anomaly.transaction_id a with
                    | Some i => (i =? Transaction.id transaction)%nat
                    | None => false
                    end)
          (AlertRepository.getAnomalies userId false db).

(** The severity computed inside the loop of [detectAnomalies]. *)
Definition severity_of (userId : string) (transaction : Transaction.t)
  (db : DB) : Q :=
  let categoryTransactions :=
    TransactionRepository.getTransactionsByCategory userId
      (Transaction.category transaction) None None db in
  let amounts := map Transaction.amount categoryTransactions in
  let avg := Js.sum amounts / inject_Z (Z.of_nat (List.length amounts)) in
  Transaction.amount transaction / avg.

(** One iteration of the loop of [detectAnomalies]. *)
Definition record_anomaly (now : Z) (userId : string) (db : DB)
  (transaction : Transaction.t) : DB :=
  if negb (alreadyRecorded userId transaction db)
     && negb (Transaction.id transaction =? 0)%nat
  then
    let severity := severity_of userId transaction db in
    let db1 :=
      snd (AlertRepository.createAnomaly now
             (Anomaly.mk 0%nat userId (Some (Transaction.id transaction))
                unusual_amount severity
                (anomaly_description transaction severity) 0%nat 0%nat now)
             db) in
    snd (AlertRepository.createAlert now
           (Alert.mk 0%nat userId anomaly
              (if Js.gtb severity 5 then critical else warning)
              "Unusual Transaction Detected" (anomaly_message transaction)
              (Some (Json.stringify
                       [("transaction_id",
                         Json.Int (Transaction.id transaction))]))
              0%nat 0%nat now)
           db1)
  else db.

Definition detectAnomalies (now : Z) (userId : string) (db : DB) : DB :=
  let anomalousTransactions :=
    TransactionRepository.getAnomalousTransactions userId 3 db in
  fold_left (record_anomaly now userId) anomalousTransactions db.

(** [calculateNextExpected]: [setDate], [setMonth] and [setFullYear]
    roll an overflowing day over into the next month. *)
Definition calculateNextExpected (lastDate : Date.t) (frequency : Frequency)
  : Date.t :=
  let y := Date.year lastDate in
  let m := Date.month lastDate in
  let d := Date.day lastDate in
  Date.of_days
    (Date.to_days
       match frequency with
       | daily => Date.mk y m (d + 1)
       | weekly => Date.mk y m (d + 7)
       | monthly => Date.mk y (m + 1) d
       | quarterly => Date.mk y (m + 3) d
       | yearly => Date.mk (y + 1) m d
       end).

(** [(lastDate.getTime() - firstDate.getTime()) / (1000 * 60 * 60 * 24)
    / (occurrence_count - 1)]. *)
Definition avgDaysBetween (pattern : RecurringPattern.t) : Q :=
  let daysDiff :=
    inject_Z (Date.getTime (RecurringPattern.last_date pattern)
              - Date.getTime (RecurringPattern.first_date pattern))
    / inject_Z Date.ms_per_day in
  daysDiff
  / inject_Z (Z.of_nat (RecurringPattern.occurrence_count pattern - 1)).

(** The [if] cascade on [avgDaysBetween]. *)
Definition classify_frequency (avg : Q) : Frequency :=
  if Js.leb avg 2 then daily
  else if Js.leb avg 9 then weekly
  else if Js.leb avg 40 then monthly
  else if Js.leb avg 120 then quarterly
  else yearly.

Definition pattern_confidence (pattern : RecurringPattern.t) : Q :=
  Js.min (95 # 100)
    (inject_Z (Z.of_nat (RecurringPattern.occurrence_count pattern)) / 10).

Definition alreadyExists (userId : string) (pattern : RecurringPattern.t)
  (db : DB) : bool :=
  existsb (fun r =>
             String.eqb (RecurringTransaction.description r)
                        (RecurringPattern.description pattern)
             && String.eqb (RecurringTransaction.category r)
                           (RecurringPattern.category pattern))
          (AlertRepository.getRecurringTransactions userId db).

(** The object literal [recurringTx]; it carries no [id]. *)
Definition recurring_of (userId : string) (pattern : RecurringPattern.t)
  : RecurringTransaction.t :=
  let frequency := classify_frequency (avgDaysBetween pattern) in
  RecurringTransaction.mk 0%nat userId
    (RecurringPattern.description pattern)
    (RecurringPattern.avg_amount pattern)
    (RecurringPattern.category pattern)
    (RecurringPattern.type pattern)
    frequency
    (pattern_confidence pattern)
    (Some (RecurringPattern.last_date pattern))
    (Some (calculateNextExpected (RecurringPattern.last_date pattern)
                                 frequency))
    0%Z.

(** One iteration of the loop of [detectRecurringPatterns]. *)
Definition record_pattern (now : Z) (userId : string)
  (st : list RecurringTransaction.t * DB) (pattern : RecurringPattern.t)
  : list RecurringTransaction.t * DB :=
  if negb (alreadyExists userId pattern (snd st)) then
    let recurringTx := recurring_of userId pattern in
    ((fst st ++ [recurringTx])%list,
     snd (AlertRepository.createRecurringTransaction now recurringTx
            (snd st)))
  else st.

Definition detectRecurringPatterns (now : Z) (userId : string) (db : DB)
  : list RecurringTransaction.t * DB :=
  let patterns :=
    TransactionRepository.detectRecurringTransactions userId db in
  fold_left (record_pattern now userId) patterns ([], db).

(** The insights pushed for one pattern inside the loop of
    [analyzeSpending]. *)
Definition insights_of_pattern (pattern : SpendingPattern.t)
  : list FinancialInsight.t :=
  let category := SpendingPattern.category pattern in
  let share :=
    if Js.gtb (SpendingPattern.percentage pattern) 25 then
      [FinancialInsight.mk info_insight category
         (category ++ " is "
          ++ toFixed 1 (SpendingPattern.percentage pattern)
          ++ "% of total expenses")
         ("You're spending $"
          ++ toLocaleString (SpendingPattern.total pattern) ++ " on "
          ++ category
          ++ ". This represents a significant portion of your budget.")
         (SpendingPattern.total pattern) true
         (Some ("Review " ++ category
                ++ " expenses to identify potential savings opportunities."))]
    else [] in
  let rising :=
    match SpendingPattern.trend pattern with
    | increasing =>
        [FinancialInsight.mk warning_insight category
           (category ++ " costs are increasing")
           ("Spending on " ++ category
            ++ " has been trending upward over the past 3 months.")
           (SpendingPattern.total pattern) true
           (Some ("Investigate why " ++ category
                  ++ " costs are rising and consider cost-control measures."))]
    | _ => []
    end in
  let falling :=
    match SpendingPattern.trend pattern with
    | decreasing =>
        [FinancialInsight.mk opportunity_insight category
           ("Great job reducing " ++ category ++ " costs")
           ("You've successfully decreased spending on " ++ category
            ++ " over recent months.")
           (SpendingPattern.total pattern) false None]
    | _ => []
    end in
  (share ++ rising ++ falling)%list.

(** [analyzeSpending]: the patterns of the current month and the two
    before it. *)
Definition analyzeSpending (now : Z) (userId : string) (db : DB)
  : list FinancialInsight.t :=
  let d := Date.today now in
  let startDate :=
    Date.of_days
      (Date.to_days (Date.mk (Date.year d) (Date.month d - 2) 1)) in
  let endDate := d in
  let patterns :=
    AnalyticsRepository.getSpendingPatterns now userId (Some startDate)
      (Some endDate) db in
  flat_map insights_of_pattern patterns.

(** [Math.abs(a / b)], where a zero [b] gives [Infinity] or [NaN]. *)
Definition abs_quotient (a b : Q) : Runway :=
  if Qeq_bool b 0 then (if Qeq_bool a 0 then NotANumber else Unbounded)
  else Months (Qabs (a / b)).

Definition scenario_recommendation (monthly_impact : Q)
  (riskLevel : RiskLevel) : string :=
  if Js.gtb monthly_impact 0 then
    "This scenario would increase your monthly profit by $"
    ++ toLocaleString (Qabs monthly_impact) ++ ". "
    ++ match riskLevel with
       | low_risk =>
           "This appears to be a financially sound decision with minimal risk."
       | _ =>
           "While positive, ensure you have sufficient cash reserves to manage the transition."
       end
  else
    "This scenario would decrease your monthly profit by $"
    ++ toLocaleString (Qabs monthly_impact) ++ ". "
    ++ match riskLevel with
       | high_risk =>
           "This would put your business at significant financial risk. I recommend building more cash reserves before proceeding."
       | medium_risk => "Proceed with caution and monitor cash flow closely."
       | low_risk =>
           "Your business can absorb this cost, but look for ways to optimize the investment."
       end.

Definition simulateScenario (now : Z) (userId : string)
  (scenario : ScenarioInput.t) (db : DB) : ScenarioResult.t :=
  let summary := TransactionRepository.getFinancialSummary userId db in
  let currentProfit := FinancialSummary.profit summary in
  let currentExpenses := FinancialSummary.expenses summary in
  let trends := AnalyticsRepository.getMonthlyTrends now userId 3 db in
  let monthlyProfit :=
    match trends with
    | [] => currentProfit
    | _ => Js.sum (map TrendData.profit trends)
           / inject_Z (Z.of_nat (List.length trends))
    end in
  let duration :=
    Js.opt_num_or (ScenarioInput.duration_months scenario) 12 in
  let monthly_impact := ScenarioInput.monthly_impact scenario in
  let projectedMonthlyProfit := monthlyProfit + monthly_impact in
  let projectedProfit := currentProfit + monthly_impact * duration in
  let profitChange := projectedProfit - currentProfit in
  let profitChangePercentage :=
    if Qeq_bool currentProfit 0 then 0
    else (profitChange / currentProfit) * 100 in
  let monthlyBurn :=
    currentExpenses
    / inject_Z (Z.of_nat (match trends with
                          | [] => 1
                          | _ => List.length trends
                          end)) in
  let cashRunwayCurrent :=
    if Js.gtb monthlyProfit 0 then Unbounded
    else abs_quotient currentProfit monthlyBurn in
  let cashRunwayProjected :=
    if Js.gtb projectedMonthlyProfit 0 then Unbounded
    else abs_quotient projectedProfit (monthlyBurn + Qabs monthly_impact) in
  let riskLevel :=
    if Js.ltb projectedMonthlyProfit 0 then high_risk
    else if Js.ltb projectedMonthlyProfit (monthlyProfit * (1 # 2))
         then medium_risk
         else low_risk in
  ScenarioResult.mk scenario currentProfit projectedProfit profitChange
    profitChangePercentage cashRunwayCurrent cashRunwayProjected
    (scenario_recommendation monthly_impact riskLevel) riskLevel.

Definition low_reserves_insight (summary : FinancialSummary.t)
  : FinancialInsight.t :=
  FinancialInsight.mk warning_insight "Cash Flow" "Low cash reserves"
    ("Your current cash position is $"
     ++ toLocaleString (FinancialSummary.profit summary)
     ++ ". Consider building reserves.")
    (FinancialSummary.profit summary) true
    (Some "Aim to build at least 3 months of operating expenses in reserves.").

Definition budget_exceeded_insight (variance : BudgetVariance.t)
  : FinancialInsight.t :=
  let category := Budget.category (BudgetVariance.budget variance) in
  FinancialInsight.mk warning_insight category
    (category ++ " budget exceeded")
    ("You've spent $" ++ toLocaleString (BudgetVariance.actual variance)
     ++ " against a budget of $"
     ++ toLocaleString (Budget.amount (BudgetVariance.budget variance))
     ++ ".")
    (Qabs (BudgetVariance.variance variance)) true
    (Some ("Review " ++ category
           ++ " expenses and adjust budget or reduce spending.")).

(** [generateInsights]: the cash position, the budgets over their
    amount, the spending insights; [slice(0, 10)]. *)
Definition generateInsights (now : Z) (userId : string) (db : DB)
  : list FinancialInsight.t :=
  let summary := TransactionRepository.getFinancialSummary userId db in
  let cash :=
    if Js.ltb (FinancialSummary.profit summary) 10000
    then [low_reserves_insight summary] else [] in
  let budgetVariances := BudgetRepository.checkBudgetAlerts now userId db in
  let exceeded :=
    flat_map (fun variance =>
                match BudgetVariance.status variance with
                | over => [budget_exceeded_insight variance]
                | _ => []
                end)
             budgetVariances in
  let spendingInsights := analyzeSpending now userId db in
  firstn 10 (cash ++ exceeded ++ spendingInsights)%list.

End WithFormat.

End FinancialIntelligenceService.

(** ** NotificationService *)

Module DailyDigest.
Record t : Type := mk {
  date : Date.t;
  cash_balance : Q;
  daily_income : Q;
  daily_expenses : Q;
  daily_profit : Q;
  active_alerts : nat;
  budget_status : string;
  top_insight : option string;
  goal_progress : option string
}.
End DailyDigest.

Module NotificationService.

Section WithFormat.
Context {fmt : NumberFormat}.

(** [new Date(a.created_at).toDateString() === new Date().toDateString()]. *)
Definition createdToday (now : Z) (a : Alert.t) : bool :=
  Date.same_day (Alert.created_at a) now.

(** [a.data?.includes(text)]. *)
Definition dataIncludes (a : Alert.t) (text : string) : bool :=
  match Alert.data a with
  | Some d => Js.includes d text
  | None => false
  end.

Definition monitorCashBalance (now : Z) (userId : string) (threshold : Q)
  (db : DB) : DB :=
  let summary := TransactionRepository.getFinancialSummary userId db in
  if Js.ltb (FinancialSummary.profit summary) threshold then
    let existingAlerts := AlertRepository.getAlerts userId false false db in
    let hasRecentCashAlert :=
      existsb (fun a => AlertType_eqb (Alert.alert_type a) low_cash
                        && createdToday now a)
              existingAlerts in
    if negb hasRecentCashAlert then
      snd (AlertRepository.createAlert now
             (Alert.mk 0%nat userId low_cash
                (if Js.ltb (FinancialSummary.profit summary)
                           (threshold * (1 # 2))
                 then critical else warning)
                "Low Cash Reserves"
                ("Your cash balance is $"
                 ++ toLocaleString (FinancialSummary.profit summary)
                 ++ ", which is below the recommended threshold of $"
                 ++ toLocaleString threshold ++ ".")
                (Some (Json.stringify
                         [("current_balance",
                           Json.Num (FinancialSummary.profit summary));
                          ("threshold", Json.Num threshold)]))
                0%nat 0%nat now)
             db)
    else db
  else db.

Definition hasRecentBudgetAlert (now : Z) (userId : string)
  (variance : BudgetVariance.t) (db : DB) : bool :=
  existsb (fun a => AlertType_eqb (Alert.alert_type a) budget_overrun
                    && dataIncludes a
                         (Budget.category (BudgetVariance.budget variance))
                    && createdToday now a)
          (AlertRepository.getAlerts userId false false db).

Definition budget_alert (now : Z) (userId : string)
  (variance : BudgetVariance.t) : Alert.t :=
  let budget := BudgetVariance.budget variance in
  let severity :=
    if Js.gtb (BudgetVariance.actual variance)
              (Budget.amount budget * (12 # 10))
    then critical else warning in
  Alert.mk 0%nat userId budget_overrun severity
    (Budget.category budget ++ " Budget Alert")
    ("You've spent $" ++ toLocaleString (BudgetVariance.actual variance)
     ++ " against a budget of $" ++ toLocaleString (Budget.amount budget)
     ++ " ("
     ++ toFixed 0 (Qabs (BudgetVariance.variancePercentage variance))
     ++ "% over).")
    (Some (Json.stringify
             [("category", Json.Str (Budget.category budget));
              ("budget", Json.Num (Budget.amount budget));
              ("actual", Json.Num (BudgetVariance.actual variance))]))
    0%nat 0%nat now.

(** One iteration of the loop of [monitorBudgets]. *)
Definition monitor_budget (now : Z) (userId : string) (db : DB)
  (variance : BudgetVariance.t) : DB :=
  if negb (hasRecentBudgetAlert now userId variance db) then
    snd (AlertRepository.createAlert now (budget_alert now userId variance)
           db)
  else db.

Definition monitorBudgets (now : Z) (userId : string) (db : DB) : DB :=
  let budgetAlerts := BudgetRepository.checkBudgetAlerts now userId db in
  fold_left (monitor_budget now userId) budgetAlerts db.

Definition goal_type_text (g : GoalType) : string :=
  match g with
  | revenue_goal => "revenue"
  | profit_goal => "profit"
  | savings_goal => "savings"
  | expense_reduction_goal => "expense_reduction"
  | custom_goal => "custom"
  end.

(** [goal.description || goal.goal_type]. *)
Definition goal_label (g : FinancialGoal.t) : string :=
  Js.opt_str_or (FinancialGoal.description g)
                (goal_type_text (FinancialGoal.goal_type g)).

(** [progress.goal.id?.toString() || '']. *)
Definition goal_id_text (g : FinancialGoal.t) : string :=
  Js.string_of_nat (FinancialGoal.id g).

(** The guard of the at-risk alert: [days_remaining && days_remaining <
    30 && !on_track]. *)
Definition at_risk (progress : GoalProgress.t) : bool :=
  match GoalProgress.days_remaining progress with
  | Some d => negb (d =? 0)%Z && (d <? 30)%Z
              && negb (GoalProgress.on_track progress)
  | None => false
  end.

Definition days_text (progress : GoalProgress.t) : string :=
  match GoalProgress.days_remaining progress with
  | Some d => Js.string_of_Z d
  | None => "undefined"
  end.

Definition alert_at_risk (now : Z) (userId : string) (db : DB)
  (progress : GoalProgress.t) : DB :=
  let goal := GoalProgress.goal progress in
  if at_risk progress then
    let existingAlerts := AlertRepository.getAlerts userId false false db in
    let hasRecentGoalAlert :=
      existsb (fun a => AlertType_eqb (Alert.alert_type a) goal_progress
                        && dataIncludes a (goal_id_text goal)
                        && createdToday now a)
              existingAlerts in
    if negb hasRecentGoalAlert then
      snd (AlertRepository.createAlert now
             (Alert.mk 0%nat userId goal_progress warning
                ("Goal At Risk: " ++ goal_label goal)
                ("You're "
                 ++ toFixed 0 (GoalProgress.progress_percentage progress)
                 ++ "% towards your goal with " ++ days_text progress
                 ++ " days remaining. You may need to accelerate progress.")
                (Some (Json.stringify
                         [("goal_id", Json.Int (FinancialGoal.id goal));
                          ("progress",
                           Json.Num
                             (GoalProgress.progress_percentage progress))]))
                0%nat 0%nat now)
             db)
    else db
  else db.

Definition alert_milestone (now : Z) (userId : string) (db : DB)
  (progress : GoalProgress.t) : DB :=
  let goal := GoalProgress.goal progress in
  if Js.geb (GoalProgress.progress_percentage progress) 50
     && Js.ltb (GoalProgress.progress_percentage progress) 55
     && GoalProgress.on_track progress
  then
    let existingAlerts := AlertRepository.getAlerts userId true true db in
    let hasMilestoneAlert :=
      existsb (fun a => AlertType_eqb (Alert.alert_type a) goal_progress
                        && dataIncludes a (goal_id_text goal)
                        && Js.includes (Alert.message a) "50%")
              existingAlerts in
    if negb hasMilestoneAlert then
      snd (AlertRepository.createAlert now
             (Alert.mk 0%nat userId goal_progress info
                "ðŸŽ‰ Halfway There!"
                ("You've reached 50% of your " ++ goal_label goal
                 ++ " goal. Keep up the great work!")
                (Some (Json.stringify
                         [("goal_id", Json.Int (FinancialGoal.id goal));
                          ("milestone", Json.Int 50%nat)]))
                0%nat 0%nat now)
             db)
    else db
  else db.

(** One iteration of the loop of [monitorGoals]. *)
Definition monitor_goal (now : Z) (userId : string) (db : DB)
  (progress : GoalProgress.t) : DB :=
  alert_milestone now userId (alert_at_risk now userId db progress) progress.

Definition monitorGoals (now : Z) (userId : string) (db : DB) : DB :=
  let goalProgress := GoalRepository.getGoalProgress now userId db in
  fold_left (monitor_goal now userId) goalProgress db.

(** [((a - b) / c * 100).toFixed(0)], where a zero [c] under a positive
    [a - b] prints [Infinity]. *)
Definition percent_text (a b c : Q) : string :=
  if Qeq_bool c 0 then "Infinity" else toFixed 0 ((a - b) / c * 100).

Definition hasRecentTrendAlert (now : Z) (userId word : string) (db : DB)
  : bool :=
  existsb (fun a => AlertType_eqb (Alert.alert_type a) trend
                    && Js.includes (Alert.message a) word
                    && createdToday now a)
          (AlertRepository.getAlerts userId false false db).

Definition alert_revenue_drop (now : Z) (userId : string)
  (latestMonth previousMonth : TrendData.t) (db : DB) : DB :=
  if Js.ltb (TrendData.income latestMonth)
            (TrendData.income previousMonth * (8 # 10))
  then
    if negb (hasRecentTrendAlert now userId "revenue" db) then
      let dropPercentage :=
        percent_text (TrendData.income previousMonth)
          (TrendData.income latestMonth) (TrendData.income previousMonth) in
      snd (AlertRepository.createAlert now
             (Alert.mk 0%nat userId trend warning
                "Revenue Decline Detected"
                ("Your revenue dropped by " ++ dropPercentage
                 ++ "% this month compared to last month. From $"
                 ++ toLocaleString (TrendData.income previousMonth)
                 ++ " to $" ++ toLocaleString (TrendData.income latestMonth)
                 ++ ".")
                (Some (Json.stringify
                         [("previous",
                           Json.Num (TrendData.income previousMonth));
                          ("current",
                           Json.Num (TrendData.income latestMonth))]))
                0%nat 0%nat now)
             db)
    else db
  else db.

Definition alert_expense_spike (now : Z) (userId : string)
  (latestMonth previousMonth : TrendData.t) (db : DB) : DB :=
  if Js.gtb (TrendData.expenses latestMonth)
            (TrendData.expenses previousMonth * (12 # 10))
  then
    if negb (hasRecentTrendAlert now userId "expenses" db) then
      let increasePercentage :=
        percent_text (TrendData.expenses latestMonth)
          (TrendData.expenses previousMonth)
          (TrendData.expenses previousMonth) in
      snd (AlertRepository.createAlert now
             (Alert.mk 0%nat userId trend warning
                "Expense Spike Detected"
                ("Your expenses increased by " ++ increasePercentage
                 ++ "% this month. From $"
                 ++ toLocaleString (TrendData.expenses previousMonth)
                 ++ " to $"
                 ++ toLocaleString (TrendData.expenses latestMonth) ++ ".")
                (Some (Json.stringify
                         [("previous",
                           Json.Num (TrendData.expenses previousMonth));
                          ("current",
                           Json.Num (TrendData.expenses latestMonth))]))
                0%nat 0%nat now)
             db)
    else db
  else db.

Definition monitorTrends (now : Z) (userId : string) (db : DB) : DB :=
  match AnalyticsRepository.getMonthlyTrends now userId 3 db with
  | latestMonth :: previousMonth :: _ =>
      alert_expense_spike now userId latestMonth previousMonth
        (alert_revenue_drop now userId latestMonth previousMonth db)
  | _ => db
  end.

(** [runAllMonitoring]; [monitorCashBalance] runs with its default
    threshold. *)
Definition runAllMonitoring (now : Z) (userId : string) (db : DB) : DB :=
  let db1 := monitorCashBalance now userId 5000 db in
  let db2 := monitorBudgets now userId db1 in
  let db3 := monitorGoals now userId db2 in
  let db4 := monitorTrends now userId db3 in
  FinancialIntelligenceService.detectAnomalies now userId db4.

(** [n > 1 ? 's' : ''] *)
Definition plural (n : nat) : string :=
  if (1 <? n)%nat then "s" else EmptyString.

(** [todayTransactions.filter(t => t.type === type).reduce((sum, t) =>
    sum + t.amount, 0)]. *)
Definition daily_total (type : TxType) (todayTransactions : list Transaction.t)
  : Q :=
  Js.sum (map Transaction.amount
            (filter (fun t => TxType_eqb (Transaction.type t) type)
                    todayTransactions)).

Definition generateDailyDigest (now : Z) (userId : string) (db : DB)
  : DailyDigest.t :=
  let today := Date.today now in
  let summary := TransactionRepository.getFinancialSummary userId db in
  let todayTransactions :=
    TransactionRepository.getTransactionsByDateRange userId today today db in
  let dailyIncome := daily_total income todayTransactions in
  let dailyExpenses := daily_total expense todayTransactions in
  let activeAlerts := AlertRepository.getAlerts userId false false db in
  let budgetVariances := BudgetRepository.checkBudgetAlerts now userId db in
  let budgetStatus :=
    match List.length budgetVariances with
    | O => "All budgets on track"
    | n => Js.string_of_nat n ++ " budget" ++ plural n ++ " need attention"
    end in
  let insights :=
    FinancialIntelligenceService.generateInsights now userId db in
  let topInsight :=
    match insights with
    | first :: _ => Some (FinancialInsight.title first)
    | [] => None
    end in
  let goalProgress := GoalRepository.getGoalProgress now userId db in
  let activeGoals :=
    filter (fun g => GoalStatus_eqb
                       (FinancialGoal.status (GoalProgress.goal g)) active)
           goalProgress in
  let goalProgressStr :=
    match List.length activeGoals with
    | O => None
    | n =>
        Some (Js.string_of_nat n ++ " active goal" ++ plural n ++ ", avg "
              ++ toFixed 0
                   (Js.sum (map GoalProgress.progress_percentage activeGoals)
                    / inject_Z (Z.of_nat n))
              ++ "% complete")
    end in
  DailyDigest.mk today (FinancialSummary.profit summary) dailyIncome
    dailyExpenses (dailyIncome - dailyExpenses) (List.length activeAlerts)
    budgetStatus topInsight goalProgressStr.

End WithFormat.

End NotificationService.

(** ** GeminiAccountantService: the tool-calling orchestrator *)

Module GeminiAccountantService.

(** A thrown value, by its [message] property. *)
Record JsError : Type := mkError { message : option string }.

(** The arguments object of a function call, [call.args]. *)
Record Args : Type := mkArgs {
  date : option Date.t;
  description : option string;
  amount : option Q;
  category : option string;
  type : option string
}.

Record FunctionCall : Type := mkCall { name : string; args : Args }.

(** What the external model answers: [response.functionCalls()] and
    [response.text()]. *)
Record Response : Type := mkResponse {
  functionCalls : option (list FunctionCall);
  text : string
}.

Inductive SendResult : Type :=
| Throws (e : JsError)
| Responds (r : Response).

(** A constraint of the [transactions] table refusing an insert. *)
Inductive InsertError : Type := not_null_failed | check_type_failed.

(** The object sent back to the model as [functionResponse.response]. *)
Inductive FunctionResult : Type :=
| UnknownFunction
| Failed (e : InsertError)
| TransactionAdded (transactionId : nat)
| ReportGenerated (message : string).

(** The chat session of the SDK: the answer to the user message and the
    answer to a function response. *)
Record ChatSession : Type := mkSession {
  sendMessage : string -> SendResult;
  sendFunctionResponse : string -> FunctionResult -> SendResult
}.

Definition type_of_text (s : string) : option TxType :=
  if String.eqb s "income" then Some income
  else if String.eqb s "expense" then Some expense
  else None.

Section WithFormat.
Context {fmt : NumberFormat}.

Definition option_text (s : option string) : string :=
  match s with
  | Some v => v
  | None => "undefined"
  end.

Definition amount_text (a : option Q) : string :=
  match a with
  | Some v => numberToString v
  | None => "undefined"
  end.

(** The [addTransaction] tool: the insert, then the notification; a
    refused insert is caught and reported. *)
Definition tool_addTransaction (now : Z) (userId : string) (a : Args)
  (db : DB) : FunctionResult * DB :=
  match description a, amount a, category a, type a with
  | Some d, Some amt, Some c, Some ty =>
      match type_of_text ty with
      | Some t =>
          let inserted :=
            TransactionRepository.addTransaction now
              (Transaction.mk 0%nat userId
                 (match date a with
                  | Some x => x
                  | None => Date.today now
                  end)
                 d amt c t now)
              db in
          let notified :=
            NotificationRepository.createNotification now
              (Notification.mk 0%nat userId "New Transaction"
                 ("Added " ++ ty ++ ": " ++ d ++ " - $" ++ numberToString amt)
                 success_note 0%nat now)
              (snd inserted) in
          (TransactionAdded (fst inserted), snd notified)
      | None => (Failed check_type_failed, db)
      end
  | _, _, _, _ => (Failed not_null_failed, db)
  end.

(** The dispatch on [call.name]. *)
Definition dispatch (now : Z) (userId : string) (call : FunctionCall)
  (db : DB) : FunctionResult * DB :=
  if String.eqb (name call) "addTransaction" then
    tool_addTransaction now userId (args call) db
  else if String.eqb (name call) "generateReport" then
    (ReportGenerated
       ("Report of type " ++ option_text (type (args call)) ++ " generated."),
     db)
  else (UnknownFunction, db).

(** [error.message?.includes(word)]. *)
Definition mentions (e : JsError) (word : string) : bool :=
  match message e with
  | Some m => Js.includes m word
  | None => false
  end.

Definition identity_error_text : string :=
  "❌ AI Identity Error: Your API Key is missing or unregistered in the live settings. Please check your Railway Environment Variables.".

Definition fetch_failed_text (apiKey : string) : string :=
  "Connection Error: Gemini API is unreachable (fetch failed). This could be due to your local internet connection, a firewall, or Google's servers being temporarily down. (Hint: Your API Key length is "
  ++ Js.string_of_nat (String.length apiKey) ++ ")".

Definition connection_error_text (e : JsError) : string :=
  "Connection Error: " ++ Js.opt_str_or (message e) "Unknown error"
  ++ ". (Hint: Check your API Key)".

(** The [catch] block of [chat]. *)
Definition diagnostic (apiKey : string) (e : JsError) : string :=
  if mentions e "403" || mentions e "identity" then identity_error_text
  else if mentions e "fetch failed" then fetch_failed_text apiKey
  else connection_error_text e.

(** [chat]: [ids] are the two values [uuidv4()] returns when the
    messages are saved. *)
Definition chat (now : Z) (ids : string * string) (apiKey : string)
  (session : ChatSession) (userId userMessage : string) (db : DB)
  : string * DB :=
  match sendMessage session userMessage with
  | Throws e => (diagnostic apiKey e, db)
  | Responds response =>
      match functionCalls response with
      | Some (call :: _) =>
          let dispatched := dispatch now userId call db in
          match sendFunctionResponse session (name call) (fst dispatched) with
          | Throws e => (diagnostic apiKey e, snd dispatched)
          | Responds response2 => (text response2, snd dispatched)
          end
      | _ =>
          let db1 :=
            ConversationRepository.saveMessage now (fst ids) userId user
              userMessage db in
          let db2 :=
            ConversationRepository.saveMessage now (snd ids) userId model
              (text response) db1 in
          (text response, db2)
      end
  end.

(** The chunks [streamChat] yields for a response: its first word, then
    every other word with the space before it. *)
Definition chunks_of (fullResponse : string) : list string :=
  match Js.split_spaces fullResponse with
  | [] => []
  | w :: ws => w :: map (fun x => " " ++ x) ws
  end.

(** [streamChat]: the whole turn runs first, then the chunks are
    yielded one by one. *)
Definition streamChat (now : Z) (ids : string * string) (apiKey : string)
  (session : ChatSession) (userId userMessage : string) (db : DB)
  : list string * DB :=
  let turn := chat now ids apiKey session userId userMessage db in
  (chunks_of (fst turn), snd turn).

End WithFormat.

End GeminiAccountantService.

(** [clearHistory] and [getHistory] of the service. *)
Module History.

Definition clearHistory (userId : string) (db : DB) : DB :=
  ConversationRepository.clearConversation userId db.

(** [{ role: msg.role, parts: msg.content }] for the last 50 messages. *)
Definition getHistory (userId : string) (db : DB) : list (Role * string) :=
  map (fun msg => (ConversationMessage.role msg,
                   ConversationMessage.content msg))
      (ConversationRepository.getConversationHistory userId 50 db).

End History.

(** ** The alert and budget routes

    A handler runs after [authenticate] has set [req.user]; it gets the
    authenticated user and [parseInt(req.params.id)], [None] standing
    for [NaN]. *)

Module Routes.

Inductive Reply : Type :=
| Success (message : string)
| Failure (status : nat) (error : string).

(** [rows.find(r => r.id === parseInt(id))]. *)
Definition same_id (parsed : option Z) (rowId : nat) : bool :=
  match parsed with
  | Some z => (Z.of_nat rowId =? z)%Z
  | None => false
  end.

(** The number handed to the repository once the lookup has found a
    row: [parseInt(id)] again. *)
Definition passed_id (parsed : option Z) : nat :=
  match parsed with
  | Some z => Z.to_nat z
  | None => 0%nat
  end.

(** [POST /api/alerts/:id/read]. *)
Definition post_alert_read (authenticatedUserId : string)
  (parsed : option Z) (db : DB) : Reply * DB :=
  let alerts := AlertRepository.getAlerts authenticatedUserId true true db in
  match find (fun a => same_id parsed (Alert.id a)) alerts with
  | None => (Failure 404 "Alert not found or access denied", db)
  | Some _ =>
      (Success "Alert marked as read",
       AlertRepository.markAlertAsRead (passed_id parsed) db)
  end.

(** [POST /api/alerts/:id/dismiss]. *)
Definition post_alert_dismiss (authenticatedUserId : string)
  (parsed : option Z) (db : DB) : Reply * DB :=
  let alerts := AlertRepository.getAlerts authenticatedUserId true true db in
  match find (fun a => same_id parsed (Alert.id a)) alerts with
  | None => (Failure 404 "Alert not found or access denied", db)
  | Some _ =>
      (Success "Alert dismissed",
       AlertRepository.dismissAlert (passed_id parsed) db)
  end.

(** [POST /api/alerts/anomalies/:id/review], with [isFalsePositive ||
    false] of the body. *)
Definition post_anomaly_review (authenticatedUserId : string)
  (parsed : option Z) (isFalsePositive : bool) (db : DB) : Reply * DB :=
  let anomalies := AlertRepository.getAnomalies authenticatedUserId true db in
  match find (fun a => same_id parsed (Anomaly.id a)) anomalies with
  | None => (Failure 404 "Anomaly not found or access denied", db)
  | Some _ =>
      (Success "Anomaly marked as reviewed",
       AlertRepository.markAnomalyAsReviewed (passed_id parsed)
         isFalsePositive db)
  end.

(** [DELETE /api/budgets/:id]. *)
Definition delete_budget (authenticatedUserId : string) (parsed : option Z)
  (db : DB) : Reply * DB :=
  let existingBudgets := BudgetRepository.getBudgets authenticatedUserId db in
  match find (fun b => same_id parsed (Budget.id b)) existingBudgets with
  | None => (Failure 404 "Budget not found or access denied", db)
  | Some _ =>
      (Success "Budget deleted successfully",
       BudgetRepository.deleteBudget (passed_id parsed) db)
  end.

End Routes.

(** ** A number format to run the model with

    [toFixed] and [toLocaleString] (locale en-US) are exact on the
    rational they are given.  [numberToString] is exact on whole numbers
    and on decimal fractions of at most 17 places; other values are cut
    after 17 places. *)

Module EnUS.

Local Open Scope Z_scope.

Definition scaled (places : nat) (x : Q) : Z :=
  Qfloor (Qabs x * inject_Z (10 ^ Z.of_nat places) + (1 # 2))%Q.

Definition truncated (places : nat) (x : Q) : Z :=
  Qfloor (Qabs x * inject_Z (10 ^ Z.of_nat places))%Q.

Definition sign_text (x : Q) : string :=
  if Js.ltb x 0%Q then "-" else EmptyString.

(** The decimal digits of [n], zero-padded on the left to [width]. *)
Fixpoint pad_left (width : nat) (s : string) : string :=
  match width with
  | O => s
  | S w => if (String.length s <=? w)%nat then pad_left w ("0" ++ s)%string
           else s
  end.

Fixpoint strip_zeros_rev (l : list ascii) : list ascii :=
  match l with
  | c :: rest => if Ascii.eqb c "0" then strip_zeros_rev rest else l
  | [] => []
  end.

Definition strip_trailing_zeros (s : string) : string :=
  string_of_list_ascii
    (rev (strip_zeros_rev (rev (list_ascii_of_string s)))).

(** Commas between groups of three digits, on the reversed digits. *)
Fixpoint group_rev (l : list ascii) (k : nat) : list ascii :=
  match l with
  | [] => []
  | c :: rest =>
      match k with
      | O => ","%char :: c :: group_rev rest 2
      | S k' => c :: group_rev rest k'
      end
  end.

Definition grouped (n : Z) : string :=
  string_of_list_ascii
    (rev (group_rev (rev (list_ascii_of_string (Js.string_of_Z n))) 3)).

Definition fraction_text (places : nat) (frac : Z) (strip : bool) : string :=
  let digits := pad_left places (Js.string_of_Z frac) in
  let digits := if strip then strip_trailing_zeros digits else digits in
  match places, digits with
  | O, _ => EmptyString
  | _, EmptyString => EmptyString
  | _, _ => ("." ++ digits)%string
  end.

Definition toFixed (places : nat) (x : Q) : string :=
  let n := scaled places x in
  let unit := 10 ^ Z.of_nat places in
  (sign_text x ++ Js.string_of_Z (n / unit)
   ++ fraction_text places (n mod unit) false)%string.

Definition toLocaleString (x : Q) : string :=
  let n := scaled 3 x in
  (sign_text x ++ grouped (n / 1000)
   ++ fraction_text 3 (n mod 1000) true)%string.

Definition numberToString (x : Q) : string :=
  let n := truncated 17 x in
  let unit := 10 ^ 17 in
  (sign_text x ++ Js.string_of_Z (n / unit)
   ++ fraction_text 17 (n mod unit) true)%string.

#[export] Instance format : NumberFormat :=
  Build_NumberFormat toLocaleString toFixed numberToString.

End EnUS.


(** ** Vocabulary of the properties *)

(** Primary key of [financial_goals]: ids are distinct and start at 1. *)
Definition goals_keyed (db : DB) : Prop :=
  NoDup (map FinancialGoal.id (financial_goals db))
  /\ forall g, In g (financial_goals db) -> FinancialGoal.id g <> 0%nat.

(** [g] carries the id of a row of [l] that the completion loop
    updates. *)
Definition hit (l : list FinancialGoal.t) (g : FinancialGoal.t) : bool :=
  existsb (fun x => negb (FinancialGoal.id x =? 0)%nat
                    && (FinancialGoal.id g =? FinancialGoal.id x)%nat) l.

(** Two transaction rows agree on every column but [category]. *)
Definition same_but_category (t t' : Transaction.t) : Prop :=
  Transaction.id t' = Transaction.id t
  /\ Transaction.user_id t' = Transaction.user_id t
  /\ Transaction.date t' = Transaction.date t
  /\ Transaction.description t' = Transaction.description t
  /\ Transaction.amount t' = Transaction.amount t
  /\ Transaction.type t' = Transaction.type t
  /\ Transaction.created_at t' = Transaction.created_at t.

(** The row is the user's and its description matches [%vendor%]. *)
Definition like_vendor (userId vendorName : string) (t : Transaction.t)
  : Prop :=
  Transaction.user_id t = userId
  /\ Sql.like ("%" ++ vendorName ++ "%") (Transaction.description t) = true.

(** C10 as the specification words it: the rows recategorised are the
    user's rows whose description contains the vendor text. *)
Definition recategorises_exactly_substring_rows : Prop :=
  forall (userId vendorName newCategory : string) (db : DB)
         (i : nat) (t : Transaction.t),
    nth_error (transactions db) i = Some t ->
    nth_error
      (transactions
         (snd (TransactionRepository.bulkUpdateCategory userId vendorName
                 newCategory db))) i
    = Some (if String.eqb (Transaction.user_id t) userId
               && Js.includes (Transaction.description t) vendorName
            then Transaction.set_category newCategory t else t).

(** The expense rows of one category inside a date range. *)
Definition expenses_in_range (userId category : string)
  (startDate endDate : Date.t) (db : DB) : list Transaction.t :=
  filter (fun t => String.eqb (Transaction.user_id t) userId
                   && String.eqb (Transaction.category t) category
                   && Date.leb startDate (Transaction.date t)
                   && Date.leb (Transaction.date t) endDate
                   && TxType_eqb (Transaction.type t) expense)
         (transactions db).

(** [budget.alert_threshold || 0.9]. *)
Definition threshold_of (budget : Budget.t) : Q :=
  Js.opt_num_or (Budget.alert_threshold budget) (9 # 10).

(** C4 as the specification words it: three independent conditions on
    the status. *)
Definition status_as_worded : Prop :=
  forall (userId : string) (startDate endDate : Date.t) (db : DB)
         (budget : Budget.t),
    0 < Budget.amount budget ->
    let v :=
      BudgetRepository.variance_of userId startDate endDate db budget in
    (BudgetVariance.status v = over
     <-> Budget.amount budget < BudgetVariance.actual v)
    /\ (BudgetVariance.status v = under
        <-> BudgetVariance.actual v
            < Budget.amount budget * threshold_of budget).

(** The rows of a user that share the triple of a pattern. *)
Definition group_of (userId : string) (p : RecurringPattern.t) (db : DB)
  : list Transaction.t :=
  filter (fun t => TransactionRepository.of_user userId t
                   && TransactionRepository.triple_eqb
                        (TransactionRepository.triple_key t)
                        (RecurringPattern.description p,
                         RecurringPattern.category p,
                         RecurringPattern.type p))
         (transactions db).

(** Days from the first to the last date of a pattern, divided by the
    number of gaps. *)
Definition average_gap (p : RecurringPattern.t) : Q :=
  inject_Z (Date.to_days (RecurringPattern.last_date p)
            - Date.to_days (RecurringPattern.first_date p))
  / inject_Z (Z.of_nat (RecurringPattern.occurrence_count p - 1)).

(** The quantities [forecastCashFlow] derives from the trailing trends. *)
Definition trailing_trends (now : Z) (userId : string) (db : DB)
  : list TrendData.t :=
  AnalyticsRepository.getMonthlyTrends now userId 6 db.

(** The arithmetic means of the trailing series. *)
Definition avgIncome (now : Z) (userId : string) (db : DB) : Q :=
  Js.sum (map TrendData.income (trailing_trends now userId db))
  / inject_Z (Z.of_nat (List.length (trailing_trends now userId db))).

Definition avgExpenses (now : Z) (userId : string) (db : DB) : Q :=
  Js.sum (map TrendData.expenses (trailing_trends now userId db))
  / inject_Z (Z.of_nat (List.length (trailing_trends now userId db))).

Definition incomeGrowth (now : Z) (userId : string) (db : DB) : Q :=
  FinancialIntelligenceService.calculateGrowthRate
    (map TrendData.income (trailing_trends now userId db)).

Definition expenseGrowth (now : Z) (userId : string) (db : DB) : Q :=
  FinancialIntelligenceService.calculateGrowthRate
    (map TrendData.expenses (trailing_trends now userId db)).

(** avg x (1 + growth)^i. *)
Definition projected (avg growth : Q) (i : nat) : Q :=
  avg * Qpower (1 + growth) (Z.of_nat i).

Definition projectedIncome (now : Z) (userId : string) (db : DB) (i : nat)
  : Q :=
  projected (avgIncome now userId db) (incomeGrowth now userId db) i.

Definition projectedExpenses (now : Z) (userId : string) (db : DB) (i : nat)
  : Q :=
  projected (avgExpenses now userId db) (expenseGrowth now userId db) i.

(** The balance of the financial summary plus the projected net of the
    months 1 to [i]. *)
Fixpoint balance_after (now : Z) (userId : string) (db : DB) (i : nat) : Q :=
  match i with
  | O => FinancialSummary.profit
           (TransactionRepository.getFinancialSummary userId db)
  | S j =>
      balance_after now userId db j
      + (projectedIncome now userId db i - projectedExpenses now userId db i)
  end.

(** The columns of a forecast row that the forecast run decides. *)
Definition forecast_values (f : CashFlowForecast.t)
  : string * (Z * Z) * Q * Q * Q * Q :=
  (CashFlowForecast.user_id f, CashFlowForecast.forecast_date f,
   CashFlowForecast.projected_income f, CashFlowForecast.projected_expenses f,
   CashFlowForecast.projected_balance f, CashFlowForecast.confidence_level f).

(** The projection of month [i] with its amounts rounded, and the
    values of the forecast row of month [i]. *)
Definition projection_at (now : Z) (userId : string) (db : DB) (i : nat)
  : CashFlowProjection.t :=
  CashFlowProjection.mk
    (FinancialIntelligenceService.future_month now i)
    (Js.round (projectedIncome now userId db i))
    (Js.round (projectedExpenses now userId db i))
    (Js.round (balance_after now userId db i))
    (FinancialIntelligenceService.confidence_at i).

Definition row_values_at (now : Z) (userId : string) (db : DB) (i : nat)
  : string * (Z * Z) * Q * Q * Q * Q :=
  (userId, FinancialIntelligenceService.future_month now i,
   projectedIncome now userId db i, projectedExpenses now userId db i,
   balance_after now userId db i,
   FinancialIntelligenceService.confidence_at i).

(** The loop of [forecastCashFlow] as [fold_left] runs it: its body with
    the quantities computed before the loop, and its initial state. *)
Definition forecast_body {fmt : NumberFormat} (now : Z) (userId : string)
  (db : DB)
  : FinancialIntelligenceService.ForecastLoop -> nat ->
    FinancialIntelligenceService.ForecastLoop :=
  FinancialIntelligenceService.forecast_step now userId
    (List.length (trailing_trends now userId db))
    (avgIncome now userId db) (avgExpenses now userId db)
    (incomeGrowth now userId db) (expenseGrowth now userId db).

Definition forecast_start (userId : string) (db : DB)
  : FinancialIntelligenceService.ForecastLoop :=
  FinancialIntelligenceService.mkLoop
    (FinancialSummary.profit
       (TransactionRepository.getFinancialSummary userId db)) [] db.

(** C5 as the specification words it: the returned projection carries
    avgIncome x (1 + incomeGrowth)^i itself. *)
Definition projections_as_worded : Prop :=
  forall (now : Z) (userId : string) (months : nat) (db : DB)
         (i : nat) (p : CashFlowProjection.t),
    (2 <= List.length (trailing_trends now userId db))%nat ->
    nth_error
      (fst (FinancialIntelligenceService.forecastCashFlow (fmt := EnUS.format)
              now userId months db)) i = Some p ->
    CashFlowProjection.projected_income p
    == projectedIncome now userId db (S i).

(** The user has an unreviewed anomaly row for transaction [i]. *)
Definition recorded (userId : string) (i : nat) (db : DB) : Prop :=
  exists a,
    In a (anomalies db)
    /\ Anomaly.user_id a = userId
    /\ Anomaly.reviewed a = 0%nat
    /\ Anomaly.transaction_id a = Some i.

(** The user has a recurring row for the description and category. *)
Definition known_pattern (userId description category : string) (db : DB)
  : Prop :=
  exists r,
    In r (recurring_transactions db)
    /\ RecurringTransaction.user_id r = userId
    /\ RecurringTransaction.description r = description
    /\ RecurringTransaction.category r = category.

(** The rows of a user with the category and type of [t], and their
    mean amount. *)
Definition pair_group (userId : string) (t : Transaction.t) (db : DB)
  : list Transaction.t :=
  filter (fun x => TransactionRepository.of_user userId x
                   && TransactionRepository.pair_eqb
                        (TransactionRepository.pair_key x)
                        (TransactionRepository.pair_key t))
         (transactions db).

Definition pair_mean (userId : string) (t : Transaction.t) (db : DB) : Q :=
  Sql.AVG (map Transaction.amount (pair_group userId t db)).

(** [d'] is [d] with rows appended to [alerts] and to [anomalies]. *)
Definition extends (d d' : DB) : Prop :=
  exists moreAlerts moreAnomalies,
    d' = set_alerts (alerts d ++ moreAlerts)
           (set_anomalies (anomalies d ++ moreAnomalies) d).

(** A monitor only appends alerts and anomalies. *)
Definition extending (f : DB -> DB) : Prop := forall d, extends d (f d).

(** Once [f1] has run on a database that satisfies [P], [f2] finds
    nothing left to insert, however many alerts and anomalies were
    appended in between. *)
Definition settles (P : DB -> Prop) (f1 f2 : DB -> DB) : Prop :=
  forall d d'', P d -> extends (f1 d) d'' -> f2 d'' = d''.

(** [P] only looks at tables the monitors leave alone. *)
Definition stable (P : DB -> Prop) : Prop :=
  forall d d', extends d d' -> P d -> P d'.

(** A text that [JSON.stringify] prints between quotes as it is. *)
Definition plain (s : string) : Prop := Json.escape s = s.

(** The row [createAlert] stores for the alert [a]. *)
Definition stored (now : Z) (rowid : nat) (a : Alert.t) : Alert.t :=
  Alert.mk rowid (Alert.user_id a) (Alert.alert_type a) (Alert.severity a)
    (Alert.title a) (Alert.message a) (Alert.data a) (Alert.read a)
    (Alert.dismissed a) now.

(** The step every monitor is made of: look the alert up, insert it
    when the lookup finds nothing. *)
Definition guarded_insert (now : Z) (userId : string)
  (includeRead includeDismissed : bool) (found : Alert.t -> bool)
  (a : Alert.t) (db : DB) : DB :=
  if negb (existsb found
             (AlertRepository.getAlerts userId includeRead includeDismissed
                db))
  then snd (AlertRepository.createAlert now a db)
  else db.

(** What two runs need besides an unchanged database: budget categories
    that JSON prints as they are, and goals whose progress evaluates the
    same at both instants. *)
Definition steady (now1 now2 : Z) (userId : string) (d : DB) : Prop :=
  (forall b, In b (budgets d) -> Budget.user_id b = userId ->
             plain (Budget.category b))
  /\ (forall g, In g (financial_goals d) ->
                GoalRepository.progress_of now2 g
                = GoalRepository.progress_of now1 g).

(** C1 as the specification words it, for the second of two runs on
    one day. *)
Definition second_run_inserts_nothing : Prop :=
  forall (now1 now2 : Z) (userId : string) (db : DB),
    Date.same_day now1 now2 = true ->
    let db1 :=
      NotificationService.runAllMonitoring (fmt := EnUS.format) now1 userId
        db in
    alerts (NotificationService.runAllMonitoring (fmt := EnUS.format) now2
              userId db1)
    = alerts db1.

(** The parts of the day count of a date: the day number of 1 March of
    a year (less the offset of the epoch), and the days from 1 March to
    the first of a month counted from March. *)
Definition year_start (y : Z) : Z :=
  let era := (y / 400)%Z in
  let yoe := (y - era * 400)%Z in
  (era * 146097 + yoe * 365 + yoe / 4 - yoe / 100)%Z.

Definition month_start (mp : Z) : Z := ((153 * mp + 2) / 5)%Z.

(** The year, the day of the year and the month (all counted from 1
    March) of a day [doe] of a cycle of 400 years. *)
Definition yoe_of (doe : Z) : Z :=
  ((doe - doe / 1460 + doe / 36524 - doe / 146096) / 365)%Z.

Definition doy_of (doe : Z) : Z :=
  (doe - (365 * yoe_of doe + yoe_of doe / 4 - yoe_of doe / 100))%Z.

Definition mp_of (doe : Z) : Z := ((5 * doy_of doe + 2) / 153)%Z.

(** The days from a date to the date [calculateNextExpected] gives. *)
Definition step_days (lastDate : Date.t) (frequency : Frequency) : Z :=
  (Date.to_days
     (FinancialIntelligenceService.calculateNextExpected lastDate frequency)
   - Date.to_days lastDate)%Z.

(** Primary key of [alerts]: ids are distinct. *)
Definition alerts_keyed (db : DB) : Prop :=
  NoDup (map Alert.id (alerts db)).

(** The reply of the alert handlers to an id that is not the user's. *)
Definition alert_not_found : Routes.Reply :=
  Routes.Failure 404 "Alert not found or access denied".

(** What a conversation turn may write for [userId]: rows appended to
    three tables, all of that user, and either none at all, or two
    messages, or one transaction with one unread notification. *)
Definition turn_writes (userId : string) (db db' : DB) : Prop :=
  exists newTransactions newNotifications newMessages,
    db' = mkDB (transactions db ++ newTransactions) (budgets db)
            (financial_goals db) (alerts db) (anomalies db)
            (recurring_transactions db) (cash_flow_forecasts db)
            (conversations db ++ newMessages)
            (notifications db ++ newNotifications)
    /\ (forall t, In t newTransactions -> Transaction.user_id t = userId)
    /\ (forall n, In n newNotifications ->
                  Notification.user_id n = userId
                  /\ Notification.read n = 0%nat)
    /\ (forall m, In m newMessages -> ConversationMessage.userId m = userId)
    /\ ((newTransactions = [] /\ newNotifications = [] /\ newMessages = [])
        \/ (newTransactions = [] /\ newNotifications = []
            /\ List.length newMessages = 2%nat)
        \/ (List.length newTransactions = 1%nat
            /\ List.length newNotifications = 1%nat /\ newMessages = [])).

(** Primary keys of [budgets], [anomalies] and [notifications]. *)
Definition budgets_keyed (db : DB) : Prop :=
  NoDup (map Budget.id (budgets db)).

Definition anomalies_keyed (db : DB) : Prop :=
  NoDup (map Anomaly.id (anomalies db)).

Definition notifications_keyed (db : DB) : Prop :=
  NoDup (map Notification.id (notifications db)).

(** The replies of the budget and anomaly handlers to an id that is not
    the user's. *)
Definition budget_not_found : Routes.Reply :=
  Routes.Failure 404 "Budget not found or access denied".

Definition anomaly_not_found : Routes.Reply :=
  Routes.Failure 404 "Anomaly not found or access denied".

(** ** Example data *)

(** The goal of the specification's example: target 1000, current 1000. *)
Definition example_goal : FinancialGoal.t :=
  FinancialGoal.mk 1 "owner" savings_goal 1000 1000 None None active 0 0.

Definition example_goal_db : DB :=
  set_financial_goals
    [example_goal;
     FinancialGoal.mk 2 "owner" revenue_goal 500 200 None None active 0 0]
    empty_db.

Definition hosting_row : Transaction.t :=
  Transaction.mk 1 "owner" (Date.mk 2025 1 5) "abc hosting" 20 "Misc"
    expense 0.

(** A budget of 1000 on [Travel] and one expense of [spent] in 2025-03. *)
Definition travel_budget (threshold : option Q) : Budget.t :=
  Budget.mk 1 "owner" "Travel" 1000 monthly_period (Date.mk 2025 1 1) None
    threshold 0.

Definition travel_db (spent : Q) : DB :=
  set_transactions
    [Transaction.mk 1 "owner" (Date.mk 2025 3 10) "Flights" spent "Travel"
       expense 0]
    empty_db.

Definition travel_variance (threshold : option Q) (spent : Q)
  : BudgetVariance.t :=
  BudgetRepository.variance_of "owner" (Date.mk 2025 3 1) (Date.mk 2025 3 31)
    (travel_db spent) (travel_budget threshold).

(** Three monthly payments, as in the specification's example. *)
Definition spotify_db : DB :=
  set_transactions
    [Transaction.mk 1 "owner" (Date.mk 2025 1 1) "Spotify" 10 "Software"
       expense 0;
     Transaction.mk 2 "owner" (Date.mk 2025 2 1) "Spotify" 10 "Software"
       expense 0;
     Transaction.mk 3 "owner" (Date.mk 2025 3 1) "Spotify" 10 "Software"
       expense 0]
    empty_db.

(** The record detection builds for them; the amount is the unreduced
    average 30 / 3. *)
Definition spotify_record : RecurringTransaction.t :=
  RecurringTransaction.mk 0 "owner" "Spotify" (30 # 3) "Software" expense
    monthly
    (3 # 10) (Some (Date.mk 2025 3 1)) (Some (Date.mk 2025 4 1)) 0.

(** The instant 2025-03-15T00:00:00Z, and two months of income: 100 in
    February and 101 in March. *)
Definition mid_march : Z := Date.getTime (Date.mk 2025 3 15).

Definition two_month_db : DB :=
  set_transactions
    [Transaction.mk 1 "owner" (Date.mk 2025 2 10) "Invoice 1" 100 "Sales"
       income 0;
     Transaction.mk 2 "owner" (Date.mk 2025 3 5) "Invoice 2" 101 "Sales"
       income 0]
    empty_db.

(** A category used for both directions: four expenses of 10 and one
    of 210 on [Office], and one income of 1010 on [Office]. *)
Definition desk_row : Transaction.t :=
  Transaction.mk 5 "owner" (Date.mk 2025 3 9) "Desk" 210 "Office" expense 0.

Definition mixed_office_db : DB :=
  set_transactions
    [Transaction.mk 1 "owner" (Date.mk 2025 3 1) "Pens" 10 "Office" expense 0;
     Transaction.mk 2 "owner" (Date.mk 2025 3 2) "Paper" 10 "Office" expense 0;
     Transaction.mk 3 "owner" (Date.mk 2025 3 3) "Ink" 10 "Office" expense 0;
     Transaction.mk 4 "owner" (Date.mk 2025 3 4) "Tape" 10 "Office" expense 0;
     desk_row;
     Transaction.mk 6 "owner" (Date.mk 2025 3 6) "Sublet" 1010 "Office"
       income 0]
    empty_db.

(** A model that asks for a report and then answers in text, and one
    whose first call fails on the network. *)
Definition report_session : GeminiAccountantService.ChatSession :=
  GeminiAccountantService.mkSession
    (fun _ =>
       GeminiAccountantService.Responds
         (GeminiAccountantService.mkResponse
            (Some [GeminiAccountantService.mkCall "generateReport"
                     (GeminiAccountantService.mkArgs None None None None
                        (Some "summary"))])
            EmptyString))
    (fun _ _ =>
       GeminiAccountantService.Responds
         (GeminiAccountantService.mkResponse None "Your report is ready.")).

Definition offline_session : GeminiAccountantService.ChatSession :=
  GeminiAccountantService.mkSession
    (fun _ =>
       GeminiAccountantService.Throws
         (GeminiAccountantService.mkError (Some "TypeError: fetch failed")))
    (fun _ _ =>
       GeminiAccountantService.Throws
         (GeminiAccountantService.mkError None)).

(** A budget of 100 that is overspent by an expense of 150 in March
    2025, next to an income of 6000; [category] is the budget's
    category. *)
Definition overspent_db (category : string) : DB :=
  mkDB
    [Transaction.mk 1 "owner" (Date.mk 2025 3 2) "Invoice" 6000 "Sales"
       income 0;
     Transaction.mk 2 "owner" (Date.mk 2025 3 10) "Withdrawal" 150 category
       expense 0]
    [Budget.mk 1 "owner" category 100 monthly_period (Date.mk 2025 1 1) None
       None 0]
    [] [] [] [] [] [] [].

(** The category text [Owner "draw"], with its two double quotes. *)
Definition quoted_category : string :=
  "Owner " ++ Json.dq ++ "draw" ++ Json.dq.

(** One hour after [mid_march], on the same day. *)
Definition mid_march_later : Z := (mid_march + 3600000)%Z.

(** A goal created on 2025-01-01 at noon, due on 2025-03-31, at 74% of
    its target; 09:00 and 15:00 of 2025-03-15. *)
Definition drifting_goal_db : DB :=
  mkDB
    [Transaction.mk 1 "owner" (Date.mk 2025 3 2) "Invoice" 6000 "Sales"
       income 0]
    []
    [FinancialGoal.mk 1 "owner" savings_goal 1000 740
       (Some (Date.mk 2025 3 31)) None active
       (Date.getTime (Date.mk 2025 1 1) + 43200000)%Z 0]
    [] [] [] [] [] [].

Definition morning : Z := (mid_march + 9 * 3600000)%Z.
Definition afternoon : Z := (mid_march + 15 * 3600000)%Z.

(** A model that records a lunch of 150 on [Meals] and confirms it. *)
Definition lunch_call : GeminiAccountantService.FunctionCall :=
  GeminiAccountantService.mkCall "addTransaction"
    (GeminiAccountantService.mkArgs None (Some "Lunch with client")
       (Some 150) (Some "Meals") (Some "expense")).

Definition lunch_response : GeminiAccountantService.Response :=
  GeminiAccountantService.mkResponse (Some [lunch_call]) EmptyString.

Definition lunch_session : GeminiAccountantService.ChatSession :=
  GeminiAccountantService.mkSession
    (fun _ => GeminiAccountantService.Responds lunch_response)
    (fun _ _ =>
       GeminiAccountantService.Responds
         (GeminiAccountantService.mkResponse None "Recorded $150 for Meals.")).

(** * Properties *)

(** ** Generic facts about the primitives *)

Section SqlFacts.
Variable A : Type.
Variable le : A -> A -> bool.

Lemma insert_sorted_In (x y : A) (l : list A) :
  In x (Sql.insert_sorted le y l) <-> x = y \/ In x l.
Proof.
  induction l as [|z l IH]; simpl.
  - intuition.
  - destruct (le y z); simpl; rewrite ?IH; intuition.
Qed.

Lemma order_by_In (x : A) (l : list A) :
  In x (Sql.order_by le l) <-> In x l.
Proof.
  induction l as [|y l IH]; simpl.
  - reflexivity.
  - rewrite insert_sorted_In, IH. intuition.
Qed.

Lemma insert_sorted_length (y : A) (l : list A) :
  List.length (Sql.insert_sorted le y l) = S (List.length l).
Proof.
  induction l as [|z l IH]; simpl; [reflexivity|].
  destruct (le y z); simpl; congruence.
Qed.

Lemma order_by_length (l : list A) :
  List.length (Sql.order_by le l) = List.length l.
Proof.
  induction l as [|y l IH]; simpl; [reflexivity|].
  now rewrite insert_sorted_length, IH.
Qed.

Lemma existsb_order_by (p : A -> bool) (l : list A) :
  existsb p (Sql.order_by le l) = existsb p l.
Proof.
  apply eq_true_iff_eq. rewrite !existsb_exists.
  split; intros (x & Hin & Hp); exists x; split; auto;
    now apply order_by_In.
Qed.

End SqlFacts.

Lemma geb_true_iff (x y : Q) : Js.geb x y = true <-> y <= x.
Proof. unfold Js.geb, Js.leb. apply Qle_bool_iff. Qed.

Lemma ltb_true_iff (x y : Q) : Js.ltb x y = true <-> x < y.
Proof.
  unfold Js.ltb. rewrite negb_true_iff.
  split; intro H.
  - apply Qnot_le_lt. intro Hle. apply Qle_bool_iff in Hle. congruence.
  - destruct (Qle_bool y x) eqn:E; [|reflexivity].
    apply Qle_bool_iff in E. exfalso. exact (Qlt_not_le _ _ H E).
Qed.

Lemma ltb_false_iff (x y : Q) : Js.ltb x y = false <-> y <= x.
Proof.
  unfold Js.ltb. rewrite negb_false_iff. apply Qle_bool_iff.
Qed.

Lemma gtb_true_iff (x y : Q) : Js.gtb x y = true <-> y < x.
Proof. unfold Js.gtb. apply ltb_true_iff. Qed.

Lemma gtb_false_iff (x y : Q) : Js.gtb x y = false <-> x <= y.
Proof. unfold Js.gtb. apply ltb_false_iff. Qed.

Lemma leb_true_iff (x y : Q) : Js.leb x y = true <-> x <= y.
Proof. unfold Js.leb. apply Qle_bool_iff. Qed.

(** ** Goal completion (C9) *)

Section GoalCompletion.
Variable now : Z.
Variable userId : string.

Lemma completion_fold_goals (l : list FinancialGoal.t) :
  forall db,
    financial_goals (fold_left (GoalRepository.completion_step now) l db)
    = map (fun g => if hit l g then FinancialGoal.complete now g else g)
          (financial_goals db).
Proof.
  induction l as [|x l IH]; intro db; simpl.
  - symmetry. apply map_id.
  - rewrite IH. unfold GoalRepository.completion_step, hit. simpl.
    destruct (FinancialGoal.id x =? 0)%nat eqn:E0; simpl.
    + reflexivity.
    + rewrite map_map. apply map_ext. intro g.
      destruct (FinancialGoal.id g =? FinancialGoal.id x)%nat eqn:E; simpl.
      * destruct (existsb _ l); reflexivity.
      * reflexivity.
Qed.

Lemma completion_fold_frame (l : list FinancialGoal.t) :
  forall db,
    fold_left (GoalRepository.completion_step now) l db
    = set_financial_goals
        (financial_goals (fold_left (GoalRepository.completion_step now) l db))
        db.
Proof.
  induction l as [|x l IH]; intro db; simpl.
  - now destruct db.
  - etransitivity; [apply IH|].
    generalize (financial_goals
                  (fold_left (GoalRepository.completion_step now) l
                     (GoalRepository.completion_step now db x))).
    intro goals'. unfold GoalRepository.completion_step.
    destruct (FinancialGoal.id x =? 0)%nat; reflexivity.
Qed.

Lemma keyed_same_id (t : list FinancialGoal.t) (g h : FinancialGoal.t) :
  NoDup (map FinancialGoal.id t) -> In g t -> In h t ->
  FinancialGoal.id g = FinancialGoal.id h -> g = h.
Proof.
  induction t as [|x t IH]; simpl; intros Hnd Hg Hh Heq; [contradiction|].
  inversion Hnd as [|? ? Hnotin Hnd']; subst.
  destruct Hg as [->|Hg], Hh as [->|Hh]; auto.
  - exfalso. apply Hnotin. rewrite Heq. now apply in_map.
  - exfalso. apply Hnotin. rewrite <- Heq. now apply in_map.
Qed.

Lemma hit_reached (db : DB) (g : FinancialGoal.t) :
  goals_keyed db -> In g (financial_goals db) ->
  hit (filter (GoalRepository.reached userId) (financial_goals db)) g
  = GoalRepository.reached userId g.
Proof.
  intros [Hnd Hnz] Hg. unfold hit.
  destruct (GoalRepository.reached userId g) eqn:Er.
  - apply existsb_exists. exists g. split.
    + apply filter_In. auto.
    + rewrite Nat.eqb_refl, andb_true_r. apply negb_true_iff.
      apply Nat.eqb_neq. auto.
  - apply not_true_is_false. intro H. apply existsb_exists in H.
    destruct H as (x & Hx & Hid). apply filter_In in Hx.
    destruct Hx as [Hx Hrx]. apply andb_true_iff in Hid.
    destruct Hid as [_ Hid]. apply Nat.eqb_eq in Hid.
    assert (g = x) by (eapply keyed_same_id; eauto).
    subst. congruence.
Qed.

(** Under the primary key, the check rewrites exactly the rows it
    selected. *)
Lemma checkGoalCompletion_table (db : DB) :
  goals_keyed db ->
  financial_goals (snd (GoalRepository.checkGoalCompletion now userId db))
  = map (fun g => if GoalRepository.reached userId g
                  then FinancialGoal.complete now g else g)
        (financial_goals db).
Proof.
  intro Hk. unfold GoalRepository.checkGoalCompletion. simpl.
  rewrite completion_fold_goals.
  apply map_ext_in. intros g Hg. now rewrite hit_reached.
Qed.

End GoalCompletion.

(** C9.  A completion check moves every active goal of the owner whose
    current amount has reached its target to [completed]: the goal is
    part of the returned result, afterwards it is in the owner's
    completed goals and no active goal carries its id; a goal whose
    current amount is below its target keeps its row unchanged, and no
    other table is written. *)
Theorem checkGoalCompletion_completes_reached_goals
  (now : Z) (userId : string) (db : DB) (g : FinancialGoal.t) :
  goals_keyed db ->
  In g (financial_goals db) ->
  FinancialGoal.user_id g = userId ->
  FinancialGoal.status g = active ->
  FinancialGoal.target_amount g <= FinancialGoal.current_amount g ->
  let result := GoalRepository.checkGoalCompletion now userId db in
  In g (fst result)
  /\ In (FinancialGoal.complete now g)
        (GoalRepository.getGoals userId (Some completed) (snd result))
  /\ (forall g',
         In g' (GoalRepository.getGoals userId (Some active) (snd result)) ->
         FinancialGoal.id g' <> FinancialGoal.id g)
  /\ (forall i h,
         nth_error (financial_goals db) i = Some h ->
         FinancialGoal.current_amount h < FinancialGoal.target_amount h ->
         nth_error (financial_goals (snd result)) i = Some h)
  /\ snd result = set_financial_goals (financial_goals (snd result)) db.
Proof.
  intros Hk Hin Hu Hs Hreach result.
  assert (Hr : GoalRepository.reached userId g = true).
  { unfold GoalRepository.reached. rewrite Hu, Hs, String.eqb_refl. simpl.
    now apply geb_true_iff. }
  pose proof (checkGoalCompletion_table now userId Hk) as Htab.
  fold result in Htab.
  split; [|split; [|split; [|split]]].
  - subst result. simpl. apply filter_In. auto.
  - unfold GoalRepository.getGoals. apply order_by_In. apply filter_In.
    split.
    + rewrite Htab. apply in_map_iff. exists g. now rewrite Hr.
    + simpl. now rewrite Hu, String.eqb_refl.
  - intros g' Hg' Hid. unfold GoalRepository.getGoals in Hg'.
    apply order_by_In in Hg'. apply filter_In in Hg'.
    destruct Hg' as [Hg' Hact]. rewrite Htab in Hg'.
    apply in_map_iff in Hg'. destruct Hg' as (h & Hh & Hhin).
    apply andb_true_iff in Hact. destruct Hact as [_ Hact].
    assert (Hidh : FinancialGoal.id h = FinancialGoal.id g).
    { rewrite <- Hid, <- Hh.
      destruct (GoalRepository.reached userId h); reflexivity. }
    assert (h = g) by (destruct Hk; eapply keyed_same_id; eauto).
    subst h. rewrite Hr in Hh. subst g'. discriminate Hact.
  - intros i h Hnth Hlt. rewrite Htab, nth_error_map, Hnth. simpl.
    assert (Hnr : GoalRepository.reached userId h = false).
    { unfold GoalRepository.reached.
      replace (Js.geb (FinancialGoal.current_amount h)
                      (FinancialGoal.target_amount h)) with false.
      - apply andb_false_r.
      - symmetry. apply not_true_is_false. intro Hge.
        apply geb_true_iff in Hge. exact (Qlt_not_le _ _ Hlt Hge). }
    now rewrite Hnr.
  - subst result. unfold GoalRepository.checkGoalCompletion. simpl.
    apply completion_fold_frame.
Qed.

Lemma checkGoalCompletion_completes_reached_goals_witness :
  let result := GoalRepository.checkGoalCompletion 86400000 "owner"
                  example_goal_db in
  In example_goal (fst result)
  /\ In (FinancialGoal.complete 86400000 example_goal)
        (GoalRepository.getGoals "owner" (Some completed) (snd result))
  /\ (forall g',
         In g' (GoalRepository.getGoals "owner" (Some active) (snd result)) ->
         FinancialGoal.id g' <> FinancialGoal.id example_goal)
  /\ (forall i h,
         nth_error (financial_goals example_goal_db) i = Some h ->
         FinancialGoal.current_amount h < FinancialGoal.target_amount h ->
         nth_error (financial_goals (snd result)) i = Some h)
  /\ snd result = set_financial_goals (financial_goals (snd result))
                    example_goal_db.
Proof.
  apply (@checkGoalCompletion_completes_reached_goals 86400000 "owner"
           example_goal_db example_goal).
  - split.
    + simpl. repeat constructor; simpl; intuition discriminate.
    + simpl. intros g [<-|[<-|[]]]; discriminate.
  - simpl. auto.
  - reflexivity.
  - reflexivity.
  - simpl. apply Qle_refl.
Defined.

(** ** Bulk recategorisation (C10) *)

Lemma like_percent_step (p : string) (c : ascii) (s : string) :
  Sql.like (String "%" p) s = true ->
  Sql.like (String "%" p) (String c s) = true.
Proof.
  simpl. intro H. destruct (Sql.like p (String c s)); [reflexivity|exact H].
Qed.

Lemma like_percent_here (p s : string) :
  Sql.like p s = true -> Sql.like (String "%" p) s = true.
Proof.
  simpl. intro H. destruct s; now rewrite H.
Qed.

Lemma like_percent_all (s : string) : Sql.like "%" s = true.
Proof.
  induction s as [|c s IH].
  - reflexivity.
  - now apply like_percent_step.
Qed.

Lemma lower_eqb_refl (c : ascii) : Ascii.eqb (Sql.lower c) (Sql.lower c) = true.
Proof. apply Ascii.eqb_refl. Qed.

(** A pattern that starts with the text itself matches it, whatever
    characters the text holds. *)
Lemma like_literal (v : string) :
  forall p rest, Sql.like p rest = true ->
                 Sql.like (v ++ p) (v ++ rest) = true.
Proof.
  induction v as [|c v IH]; intros p rest H; simpl.
  - exact H.
  - destruct (Ascii.eqb c "%") eqn:Epc.
    + apply Ascii.eqb_eq in Epc. subst c.
      change (Sql.like (String "%" (v ++ p)) (String "%" (v ++ rest)) = true).
      apply like_percent_step, like_percent_here, IH, H.
    + destruct (Ascii.eqb c "_") eqn:Eus.
      * apply Ascii.eqb_eq in Eus. subst c. simpl. apply IH, H.
      * rewrite lower_eqb_refl. apply IH, H.
Qed.

Lemma prefix_split (v s : string) :
  String.prefix v s = true -> exists rest, s = v ++ rest.
Proof.
  revert s. induction v as [|c v IH]; intros s H.
  - exists s. reflexivity.
  - destruct s as [|d s]; simpl in H; [discriminate|].
    destruct (ascii_dec c d) as [->|]; [|discriminate].
    destruct (IH _ H) as [rest ->]. exists rest. reflexivity.
Qed.

(** A description that contains the vendor text matches the pattern
    [%vendor%]. *)
Lemma includes_unfold (hay needle : string) :
  Js.includes hay needle
  = if String.prefix needle hay then true
    else match hay with
         | EmptyString => false
         | String _ rest => Js.includes rest needle
         end.
Proof. destruct hay; reflexivity. Qed.

Lemma includes_like (vendor description : string) :
  Js.includes description vendor = true ->
  Sql.like ("%" ++ vendor ++ "%") description = true.
Proof.
  assert (Hhere : forall d, String.prefix vendor d = true ->
                            Sql.like ("%" ++ vendor ++ "%") d = true).
  { intros d E. apply prefix_split in E. destruct E as [rest E].
    apply like_percent_here. rewrite E.
    apply like_literal, like_percent_all. }
  induction description as [|c d IH]; rewrite includes_unfold.
  - destruct (String.prefix vendor EmptyString) eqn:E; [|discriminate].
    intros _. now apply Hhere.
  - destruct (String.prefix vendor (String c d)) eqn:E.
    + intros _. now apply Hhere.
    + intro H. apply like_percent_step. apply IH, H.
Qed.

Lemma matches_vendor_iff (userId vendorName : string) (t : Transaction.t) :
  TransactionRepository.matches_vendor userId vendorName t = true
  <-> like_vendor userId vendorName t.
Proof.
  unfold TransactionRepository.matches_vendor, like_vendor,
    TransactionRepository.of_user.
  rewrite andb_true_iff, String.eqb_eq. reflexivity.
Qed.



(** ** Budget variance (C4) *)

Lemma actual_is_expense_total (userId : string) (startDate endDate : Date.t)
  (db : DB) (budget : Budget.t) :
  BudgetVariance.actual
    (BudgetRepository.variance_of userId startDate endDate db budget)
  == Js.sum (map Transaction.amount
               (expenses_in_range userId (Budget.category budget)
                  startDate endDate db)).
Proof.
  unfold BudgetRepository.variance_of, BudgetRepository.spent,
    expenses_in_range. simpl.
  destruct (filter _ (transactions db)) as [|t l]; simpl.
  - reflexivity.
  - unfold Js.num_or.
    destruct (Qeq_bool _ 0) eqn:E; [|reflexivity].
    apply Qeq_bool_eq in E. now rewrite E.
Qed.




(** The other two rows of the specification's example. *)
Example budgetVariance_800_is_under :
  BudgetVariance.status (travel_variance None 800) = under.
Proof. reflexivity. Qed.

Example budgetVariance_950_is_on_track :
  BudgetVariance.status (travel_variance None 950) = on_track.
Proof. reflexivity. Qed.

(** ** Recurring patterns: the query and the classification (C6) *)

Lemma date_leb_iff (a b : Date.t) :
  Date.leb a b = true
  <-> (Date.year a < Date.year b
       \/ (Date.year a = Date.year b
           /\ (Date.month a < Date.month b
               \/ (Date.month a = Date.month b
                   /\ Date.day a <= Date.day b))))%Z.
Proof.
  unfold Date.leb, Date.compare.
  destruct (Z.compare_spec (Date.year a) (Date.year b));
    destruct (Z.compare_spec (Date.month a) (Date.month b));
    destruct (Z.compare_spec (Date.day a) (Date.day b));
    split; intro; try discriminate; try reflexivity; lia.
Qed.

Lemma date_leb_refl (a : Date.t) : Date.leb a a = true.
Proof. apply date_leb_iff. lia. Qed.

Lemma date_leb_trans (a b c : Date.t) :
  Date.leb a b = true -> Date.leb b c = true -> Date.leb a c = true.
Proof. rewrite !date_leb_iff. lia. Qed.

Lemma date_leb_total (a b : Date.t) :
  Date.leb a b = false -> Date.leb b a = true.
Proof.
  intro H. apply date_leb_iff.
  assert (Hn : ~ (Date.leb a b = true)) by congruence.
  rewrite date_leb_iff in Hn. lia.
Qed.

(** [MIN(date)] is a date of the group and bounds it from below. *)
Lemma min_of_spec (l : list Date.t) :
  forall d,
    In (Date.min_of d l) (d :: l)
    /\ forall x, In x (d :: l) -> Date.leb (Date.min_of d l) x = true.
Proof.
  unfold Date.min_of. induction l as [|y l IH]; intro d; simpl.
  - split; [auto|]. intros x [<-|[]]. apply date_leb_refl.
  - destruct (Date.leb d y) eqn:E.
    + destruct (IH d) as [Hin Hle]. simpl in Hin. split.
      * tauto.
      * intros x [<-|[<-|Hx]].
        -- apply Hle. simpl. auto.
        -- eapply date_leb_trans; [apply Hle; simpl; auto|exact E].
        -- apply Hle. simpl. auto.
    + destruct (IH y) as [Hin Hle]. simpl in Hin. split.
      * tauto.
      * intros x [<-|[<-|Hx]].
        -- eapply date_leb_trans; [apply Hle; simpl; auto|].
           now apply date_leb_total.
        -- apply Hle. simpl. auto.
        -- apply Hle. simpl. auto.
Qed.

(** [MAX(date)] is a date of the group and bounds it from above. *)
Lemma max_of_spec (l : list Date.t) :
  forall d,
    In (Date.max_of d l) (d :: l)
    /\ forall x, In x (d :: l) -> Date.leb x (Date.max_of d l) = true.
Proof.
  unfold Date.max_of. induction l as [|y l IH]; intro d; simpl.
  - split; [auto|]. intros x [<-|[]]. apply date_leb_refl.
  - destruct (Date.leb d y) eqn:E.
    + destruct (IH y) as [Hin Hle]. simpl in Hin. split.
      * tauto.
      * intros x [<-|[<-|Hx]].
        -- eapply date_leb_trans; [exact E|apply Hle; simpl; auto].
        -- apply Hle. simpl. auto.
        -- apply Hle. simpl. auto.
    + destruct (IH d) as [Hin Hle]. simpl in Hin. split.
      * tauto.
      * intros x [<-|[<-|Hx]].
        -- apply Hle. simpl. auto.
        -- eapply date_leb_trans; [|apply Hle; simpl; auto].
           now apply date_leb_total.
        -- apply Hle. simpl. auto.
Qed.

Lemma leb_false_iff (x y : Q) : Js.leb x y = false <-> y < x.
Proof.
  unfold Js.leb. split; intro H.
  - apply Qnot_le_lt. intro Hle. apply Qle_bool_iff in Hle. congruence.
  - apply not_true_is_false. intro Hle. apply Qle_bool_iff in Hle.
    exact (Qlt_not_le _ _ H Hle).
Qed.

(** The cascade of [detectRecurringPatterns] as intervals of the gap. *)
Lemma classify_frequency_spec (avg gap : Q) :
  avg == gap ->
  let f := FinancialIntelligenceService.classify_frequency avg in
  (f = daily <-> gap <= 2)
  /\ (f = weekly <-> 2 < gap /\ gap <= 9)
  /\ (f = monthly <-> 9 < gap /\ gap <= 40)
  /\ (f = quarterly <-> 40 < gap /\ gap <= 120)
  /\ (f = yearly <-> 120 < gap).
Proof.
  intro Heq. unfold FinancialIntelligenceService.classify_frequency.
  destruct (Js.leb avg 2) eqn:E2;
    [apply leb_true_iff in E2 | apply leb_false_iff in E2];
  (destruct (Js.leb avg 9) eqn:E9;
    [apply leb_true_iff in E9 | apply leb_false_iff in E9]);
  (destruct (Js.leb avg 40) eqn:E40;
    [apply leb_true_iff in E40 | apply leb_false_iff in E40]);
  (destruct (Js.leb avg 120) eqn:E120;
    [apply leb_true_iff in E120 | apply leb_false_iff in E120]);
  simpl; repeat split; intros; try discriminate; try reflexivity;
    try lra.
Qed.

Lemma avgDaysBetween_is_average_gap (p : RecurringPattern.t) :
  FinancialIntelligenceService.avgDaysBetween p == average_gap p.
Proof.
  unfold FinancialIntelligenceService.avgDaysBetween, average_gap,
    Date.getTime.
  rewrite <- Z.mul_sub_distr_r, inject_Z_mult.
  set (days := inject_Z (Date.to_days (RecurringPattern.last_date p)
                         - Date.to_days (RecurringPattern.first_date p))).
  set (gaps := inject_Z (Z.of_nat (RecurringPattern.occurrence_count p - 1))).
  assert (Hms : ~ inject_Z Date.ms_per_day == 0) by discriminate.
  setoid_replace (days * inject_Z Date.ms_per_day / inject_Z Date.ms_per_day)
    with days by (field; exact Hms).
  reflexivity.
Qed.

Lemma pattern_confidence_is_min (p : RecurringPattern.t) :
  FinancialIntelligenceService.pattern_confidence p
  == Qmin (95 # 100)
       (inject_Z (Z.of_nat (RecurringPattern.occurrence_count p)) / 10).
Proof.
  unfold FinancialIntelligenceService.pattern_confidence, Js.min.
  destruct (Js.ltb _ _) eqn:E.
  - apply ltb_true_iff in E. symmetry. apply Q.min_r. lra.
  - apply ltb_false_iff in E. symmetry. apply Q.min_l. exact E.
Qed.

Lemma filter_twice (A : Type) (p q : A -> bool) (l : list A) :
  filter q (filter p l) = filter (fun x => p x && q x) l.
Proof.
  induction l as [|x l IH]; simpl; [reflexivity|].
  destruct (p x); simpl; [destruct (q x)|]; now rewrite IH.
Qed.

(** What a row of [detectRecurringTransactions] says about its group. *)
Lemma detectRecurringTransactions_spec (userId : string) (db : DB)
  (p : RecurringPattern.t) :
  In p (TransactionRepository.detectRecurringTransactions userId db) ->
  let g := group_of userId p db in
  (3 <= RecurringPattern.occurrence_count p)%nat
  /\ RecurringPattern.occurrence_count p = List.length g
  /\ RecurringPattern.avg_amount p = Sql.AVG (map Transaction.amount g)
  /\ In (RecurringPattern.first_date p) (map Transaction.date g)
  /\ In (RecurringPattern.last_date p) (map Transaction.date g)
  /\ forall t, In t g ->
               Date.leb (RecurringPattern.first_date p) (Transaction.date t)
               = true
               /\ Date.leb (Transaction.date t) (RecurringPattern.last_date p)
                  = true.
Proof.
  unfold TransactionRepository.detectRecurringTransactions.
  intro Hin. apply order_by_In in Hin. apply filter_In in Hin.
  destruct Hin as [Hin Hcount]. apply Nat.leb_le in Hcount.
  apply in_flat_map in Hin. destruct Hin as (k & _ & Hp).
  rewrite filter_twice in Hp.
  destruct (filter _ (transactions db)) as [|t0 rest] eqn:Eg;
    simpl in Hp; [contradiction|].
  destruct Hp as [Hp|[]].
  assert (Hg : group_of userId p db = t0 :: rest).
  { unfold group_of. rewrite <- Eg. subst p. simpl.
    now destruct k as [[d c] ty]. }
  rewrite Hg.
  destruct (min_of_spec (map Transaction.date rest) (Transaction.date t0))
    as [Hmin_in Hmin_le].
  destruct (max_of_spec (map Transaction.date rest) (Transaction.date t0))
    as [Hmax_in Hmax_le].
  subst p. simpl RecurringPattern.occurrence_count in *.
  simpl RecurringPattern.first_date. simpl RecurringPattern.last_date.
  simpl RecurringPattern.avg_amount.
  repeat split; auto.
  - apply Hmin_le. change (In (Transaction.date t)
                              (map Transaction.date (t0 :: rest))).
    now apply in_map.
  - apply Hmax_le. change (In (Transaction.date t)
                              (map Transaction.date (t0 :: rest))).
    now apply in_map.
Qed.

(** Every record the detection loop returns is built from one of the
    patterns it was given. *)
Lemma record_pattern_fold (now : Z) (userId : string)
  (patterns : list RecurringPattern.t) :
  forall acc db r,
    In r (fst (fold_left
                 (FinancialIntelligenceService.record_pattern now userId)
                 patterns (acc, db))) ->
    In r acc
    \/ exists p, In p patterns
                 /\ r = FinancialIntelligenceService.recurring_of userId p.
Proof.
  induction patterns as [|p patterns IH]; intros acc db r Hin; simpl in Hin.
  - auto.
  - unfold FinancialIntelligenceService.record_pattern at 2 in Hin.
    simpl in Hin.
    destruct (FinancialIntelligenceService.alreadyExists userId p db).
    + simpl in Hin. apply IH in Hin. destruct Hin as [Hacc|(q & Hq & Hr)].
      * auto.
      * right. exists q. simpl. auto.
    + simpl in Hin. apply IH in Hin. destruct Hin as [Hacc|(q & Hq & Hr)].
      * apply in_app_or in Hacc. destruct Hacc as [Hacc|[<-|[]]].
        -- auto.
        -- right. exists p. simpl. auto.
      * right. exists q. simpl. auto.
Qed.

(** ** Cash-flow forecast (C5) *)

Section ForecastLoop.
Context {fmt : NumberFormat}.
Variables (now : Z) (userId : string) (db : DB).

(** The loop of [forecastCashFlow] after [k] iterations. *)
Lemma forecast_loop (k : nat) :
  let st :=
    fold_left (forecast_body now userId db) (seq 1 k)
      (forecast_start userId db) in
  FinancialIntelligenceService.runningBalance st
  = balance_after now userId db k
  /\ FinancialIntelligenceService.projections st
     = map (projection_at now userId db) (seq 1 k)
  /\ map forecast_values
         (cash_flow_forecasts (FinancialIntelligenceService.store st))
     = (map forecast_values (cash_flow_forecasts db)
        ++ map (row_values_at now userId db) (seq 1 k))%list
  /\ FinancialIntelligenceService.store st
     = set_cash_flow_forecasts
         (cash_flow_forecasts (FinancialIntelligenceService.store st)) db.
Proof.
  induction k as [|k IH].
  - simpl. repeat split.
    + now rewrite app_nil_r.
    + now destruct db.
  - rewrite seq_S, fold_left_app. simpl plus. simpl fold_left at 1.
    set (st := fold_left (forecast_body now userId db) (seq 1 k)
                 (forecast_start userId db)) in *.
    destruct IH as (Hbal & Hproj & Hrows & Hframe).
    unfold forecast_body at 1, FinancialIntelligenceService.forecast_step.
    cbn [FinancialIntelligenceService.runningBalance
           FinancialIntelligenceService.projections
           FinancialIntelligenceService.store snd
           AnalyticsRepository.saveForecast].
    rewrite Hbal. split; [reflexivity|]. split.
    + rewrite Hproj, map_app. reflexivity.
    + split.
      * destruct (FinancialIntelligenceService.store st). simpl in *.
        rewrite !map_app, Hrows, <- app_assoc. reflexivity.
      * generalize Hframe.
        generalize (cash_flow_forecasts (FinancialIntelligenceService.store st)).
        intros F ->. now destruct db.
Qed.

End ForecastLoop.

Lemma confidence_at_is_max (i : nat) :
  FinancialIntelligenceService.confidence_at i
  == Qmax (1 # 2) ((9 # 10) - inject_Z (Z.of_nat i) * (1 # 10)).
Proof.
  unfold FinancialIntelligenceService.confidence_at, Js.max.
  destruct (Js.ltb _ _) eqn:E.
  - apply ltb_true_iff in E. symmetry. apply Q.max_r. lra.
  - apply ltb_false_iff in E. symmetry. apply Q.max_l. exact E.
Qed.

Lemma confidence_at_floor (i : nat) :
  1 # 2 <= FinancialIntelligenceService.confidence_at i.
Proof. rewrite confidence_at_is_max. apply Q.le_max_l. Qed.

Lemma confidence_at_monotone (i j : nat) :
  (i <= j)%nat ->
  FinancialIntelligenceService.confidence_at j
  <= FinancialIntelligenceService.confidence_at i.
Proof.
  intro Hij. rewrite !confidence_at_is_max.
  apply Q.max_le_compat_l.
  assert (inject_Z (Z.of_nat i) <= inject_Z (Z.of_nat j))
    by (rewrite <- Zle_Qle; lia).
  lra.
Qed.




(** ** Anomaly detection (C3, C8) *)

Lemma TxType_eqb_eq (a b : TxType) : TxType_eqb a b = true <-> a = b.
Proof. destruct a, b; simpl; split; congruence. Qed.

Lemma pair_eqb_eq (a b : string * TxType) :
  TransactionRepository.pair_eqb a b = true <-> a = b.
Proof.
  destruct a as [c1 t1], b as [c2 t2].
  unfold TransactionRepository.pair_eqb. simpl.
  rewrite andb_true_iff, String.eqb_eq, TxType_eqb_eq.
  split; [intros [-> ->]; reflexivity|intro H; inversion H; auto].
Qed.

Section GroupKeys.
Variables (A K : Type) (eqb : K -> K -> bool) (key : A -> K).
Hypothesis eqb_eq : forall a b, eqb a b = true <-> a = b.

Lemma group_keys_complete (rows : list A) (r : A) :
  In r rows -> In (key r) (Sql.group_keys eqb key rows).
Proof.
  induction rows as [|x rows IH]; simpl; [contradiction|].
  intros [->|Hin]; [auto|].
  destruct (eqb (key r) (key x)) eqn:E.
  - left. symmetry. now apply eqb_eq.
  - right. apply filter_In. split; [auto|]. now rewrite E.
Qed.

Lemma group_keys_sound (rows : list A) (k : K) :
  In k (Sql.group_keys eqb key rows) -> exists r, In r rows /\ key r = k.
Proof.
  induction rows as [|x rows IH]; simpl; [contradiction|].
  intros [<-|Hin].
  - exists x. auto.
  - apply filter_In in Hin. destruct Hin as [Hin _].
    destruct (IH Hin) as (r & Hr & Hk). exists r. auto.
Qed.

End GroupKeys.

Lemma of_user_iff (userId : string) (t : Transaction.t) :
  TransactionRepository.of_user userId t = true
  <-> Transaction.user_id t = userId.
Proof. unfold TransactionRepository.of_user. apply String.eqb_eq. Qed.

(** The statistic row of the pair of [t]. *)
Lemma category_stats_of_pair (userId : string) (db : DB)
  (stat : CategoryStat.t) (t : Transaction.t) :
  In stat (TransactionRepository.category_stats userId db) ->
  CategoryStat.category stat = Transaction.category t ->
  CategoryStat.type stat = Transaction.type t ->
  CategoryStat.avg_amount stat = pair_mean userId t db
  /\ CategoryStat.count stat = List.length (pair_group userId t db)
  /\ (3 <= CategoryStat.count stat)%nat.
Proof.
  unfold TransactionRepository.category_stats. intros Hin Hc Hty.
  apply filter_In in Hin. destruct Hin as [Hin Hcount].
  apply Nat.leb_le in Hcount. apply in_map_iff in Hin.
  destruct Hin as (k & Hk & _). rewrite filter_twice in Hk.
  subst stat. simpl in *. destruct k as [c ty]. simpl in *. subst c ty.
  unfold pair_mean, pair_group. auto.
Qed.

(** Anomaly detection flags exactly the rows of a pair with at least 3
    rows whose amount exceeds the pair's mean times the threshold. *)
Lemma getAnomalousTransactions_spec (userId : string) (threshold : Q)
  (db : DB) (t : Transaction.t) :
  In t (TransactionRepository.getAnomalousTransactions userId threshold db)
  <-> In t (transactions db)
      /\ Transaction.user_id t = userId
      /\ (3 <= List.length (pair_group userId t db))%nat
      /\ pair_mean userId t db * threshold < Transaction.amount t.
Proof.
  unfold TransactionRepository.getAnomalousTransactions. split.
  - intro Hin. apply in_flat_map in Hin. destruct Hin as (stat & Hstat & Ht).
    unfold TransactionRepository.high_transactions in Ht.
    apply order_by_In in Ht. apply filter_In in Ht. destruct Ht as [Ht Hc].
    repeat (apply andb_true_iff in Hc; destruct Hc as [Hc ?]).
    apply of_user_iff in Hc.
    match goal with H : String.eqb _ _ = true |- _ =>
      apply String.eqb_eq in H; rename H into Hcat end.
    match goal with H : TxType_eqb _ _ = true |- _ =>
      apply TxType_eqb_eq in H; rename H into Hty end.
    match goal with H : Js.gtb _ _ = true |- _ =>
      apply gtb_true_iff in H; rename H into Hgt end.
    destruct (category_stats_of_pair userId db stat t Hstat)
      as (Havg & Hlen & Hcount); auto.
    rewrite <- Havg, <- Hlen. auto.
  - intros (Ht & Hu & Hcount & Hgt).
    apply in_flat_map.
    set (g := pair_group userId t db) in *.
    exists (CategoryStat.mk (Transaction.category t) (Transaction.type t)
              (Sql.AVG (map Transaction.amount g)) (List.length g)).
    split.
    + unfold TransactionRepository.category_stats. apply filter_In. split.
      * apply in_map_iff. exists (TransactionRepository.pair_key t). split.
        -- rewrite filter_twice. reflexivity.
        -- apply (@group_keys_complete _ _ _ _ pair_eqb_eq).
           apply filter_In. split; [exact Ht|]. now apply of_user_iff.
      * cbn [CategoryStat.count]. now apply Nat.leb_le.
    + unfold TransactionRepository.high_transactions. apply order_by_In.
      apply filter_In. split; [exact Ht|]. simpl.
      rewrite !String.eqb_refl.
      replace (TransactionRepository.of_user userId t) with true
        by (symmetry; now apply of_user_iff).
      replace (TxType_eqb (Transaction.type t) (Transaction.type t)) with true
        by (symmetry; now apply TxType_eqb_eq).
      simpl. now apply gtb_true_iff.
Qed.

(** *** The loop of anomaly detection (C8) *)

Section AnomalyLoop.
Context {fmt : NumberFormat}.
Variable userId : string.

Lemma alreadyRecorded_iff (t : Transaction.t) (db : DB) :
  FinancialIntelligenceService.alreadyRecorded userId t db = true
  <-> recorded userId (Transaction.id t) db.
Proof.
  unfold FinancialIntelligenceService.alreadyRecorded, recorded,
    AlertRepository.getAnomalies.
  rewrite existsb_order_by, existsb_exists. split.
  - intros (a & Ha & Hid). apply filter_In in Ha. destruct Ha as [Ha Hf].
    apply andb_true_iff in Hf. destruct Hf as [Hu Hr]. simpl in Hr.
    apply String.eqb_eq in Hu. apply Nat.eqb_eq in Hr.
    destruct (Anomaly.transaction_id a) as [i|] eqn:Ei; [|discriminate].
    apply Nat.eqb_eq in Hid. subst i. exists a. auto.
  - intros (a & Ha & Hu & Hr & Hid). exists a. split.
    + apply filter_In. split; [exact Ha|].
      rewrite Hu, Hr, String.eqb_refl. reflexivity.
    + rewrite Hid. apply Nat.eqb_refl.
Qed.

Lemma recorded_grows (i : nat) (db db' : DB) (more : list Anomaly.t) :
  anomalies db' = (anomalies db ++ more)%list ->
  recorded userId i db -> recorded userId i db'.
Proof.
  intros Heq (a & Ha & H). exists a. split; [|exact H].
  rewrite Heq. apply in_or_app. auto.
Qed.

(** One iteration either leaves the database alone, or appends one
    unreviewed anomaly row and one alert for a transaction that had
    none. *)
Lemma record_anomaly_cases (now : Z) (db : DB) (t : Transaction.t) :
  let db' := FinancialIntelligenceService.record_anomaly now userId db t in
  (db' = db /\ (recorded userId (Transaction.id t) db
                \/ Transaction.id t = 0%nat))
  \/ (~ recorded userId (Transaction.id t) db
      /\ Transaction.id t <> 0%nat
      /\ exists a al,
          anomalies db' = (anomalies db ++ [a])%list
          /\ alerts db' = (alerts db ++ [al])%list
          /\ db' = set_alerts (alerts db') (set_anomalies (anomalies db') db)
          /\ Anomaly.user_id a = userId
          /\ Anomaly.reviewed a = 0%nat
          /\ Anomaly.transaction_id a = Some (Transaction.id t)
          /\ Anomaly.severity a
             = FinancialIntelligenceService.severity_of userId t db).
Proof.
  unfold FinancialIntelligenceService.record_anomaly.
  destruct (FinancialIntelligenceService.alreadyRecorded userId t db) eqn:E.
  - left. simpl. split; [reflexivity|]. left. now apply alreadyRecorded_iff.
  - destruct (Transaction.id t =? 0)%nat eqn:E0; simpl.
    + left. split; [reflexivity|]. right. now apply Nat.eqb_eq.
    + right. split.
      * intro H. apply alreadyRecorded_iff in H. congruence.
      * split; [now apply Nat.eqb_neq|].
        eexists. eexists. split; [reflexivity|]. split; [reflexivity|].
        split; [now destruct db|]. repeat split.
Qed.

(** The loop of [detectAnomalies] over the flagged rows [l]. *)
Lemma detect_loop (now : Z) (l : list Transaction.t) :
  forall db,
    let db' :=
      fold_left (FinancialIntelligenceService.record_anomaly now userId) l
        db in
    exists newA newAl,
      anomalies db' = (anomalies db ++ newA)%list
      /\ alerts db' = (alerts db ++ newAl)%list
      /\ db' = set_alerts (alerts db') (set_anomalies (anomalies db') db)
      /\ (forall a, In a newA ->
                    Anomaly.user_id a = userId
                    /\ Anomaly.reviewed a = 0%nat
                    /\ exists t,
                        In t l
                        /\ Anomaly.transaction_id a = Some (Transaction.id t)
                        /\ ~ recorded userId (Transaction.id t) db)
      /\ NoDup (map Anomaly.transaction_id newA)
      /\ (forall t, In t l -> Transaction.id t <> 0%nat ->
                    recorded userId (Transaction.id t) db').
Proof.
  induction l as [|t l IH]; intro db; simpl.
  - exists [], []. rewrite !app_nil_r.
    split; [reflexivity|]. split; [reflexivity|].
    split; [now destruct db|]. split; [intros a []|].
    split; [constructor|]. intros t [].
  - destruct (IH (FinancialIntelligenceService.record_anomaly now userId db t))
      as (newA & newAl & HA & HAl & Hframe & Hnew & Hnd & Hrec).
    destruct (record_anomaly_cases now db t)
      as [[Hsame Hwhy]|(Hnot & Hid & a & al & Ha & Hal & Hfr & Hu & Hr & Htid
                        & _)].
    + rewrite Hsame in *. exists newA, newAl.
      split; [exact HA|]. split; [exact HAl|]. split; [exact Hframe|].
      split; [|split; [exact Hnd|]].
      * intros x Hx. destruct (Hnew x Hx) as (Hxu & Hxr & t' & Ht' & Hx').
        repeat split; auto. exists t'. tauto.
      * intros t' [<-|Ht'] Hnz; [|now apply Hrec].
        destruct Hwhy as [Hwhy|Hz]; [|contradiction].
        eapply recorded_grows; eauto.
    + exists (a :: newA), (al :: newAl).
      split; [rewrite HA, Ha, <- app_assoc; reflexivity|].
      split; [rewrite HAl, Hal, <- app_assoc; reflexivity|].
      split.
      { rewrite Hframe at 1. rewrite Hfr. now destruct db. }
      split; [|split].
      * intros x [<-|Hx].
        -- repeat split; auto. exists t. simpl. auto.
        -- destruct (Hnew x Hx) as (Hxu & Hxr & t' & Ht' & Hx' & Hn').
           repeat split; auto. exists t'. simpl. repeat split; auto.
           intro Hrec0. apply Hn'. eapply recorded_grows; eauto.
      * simpl. constructor; [|exact Hnd].
        intro Hin. apply in_map_iff in Hin.
        destruct Hin as (x & Hxid & Hx).
        destruct (Hnew x Hx) as (_ & _ & t' & _ & Hx' & Hn').
        apply Hn'. exists a. repeat split; auto.
        -- rewrite Ha. apply in_or_app. simpl. auto.
        -- congruence.
      * intros t' [<-|Ht'] Hnz; [|now apply Hrec].
        eapply recorded_grows; [exact HA|].
        exists a. repeat split; auto.
        rewrite Ha. apply in_or_app. simpl. auto.
Qed.

(** Once every flagged row with an id is recorded, the loop writes
    nothing. *)
Lemma detect_loop_idle (now : Z) (l : list Transaction.t) (db : DB) :
  (forall t, In t l -> Transaction.id t <> 0%nat ->
             recorded userId (Transaction.id t) db) ->
  fold_left (FinancialIntelligenceService.record_anomaly now userId) l db
  = db.
Proof.
  induction l as [|t l IH]; intro Hall; simpl; [reflexivity|].
  destruct (record_anomaly_cases now db t)
    as [[Hsame _]|(Hnot & Hid & _)].
  - rewrite Hsame. apply IH. intros t' Ht'. apply Hall. simpl. auto.
  - exfalso. apply Hnot. apply Hall; simpl; auto.
Qed.

Lemma getAnomalousTransactions_same_rows (threshold : Q) (db db' : DB) :
  transactions db' = transactions db ->
  TransactionRepository.getAnomalousTransactions userId threshold db'
  = TransactionRepository.getAnomalousTransactions userId threshold db.
Proof.
  intro H.
  unfold TransactionRepository.getAnomalousTransactions,
    TransactionRepository.category_stats,
    TransactionRepository.high_transactions.
  now rewrite H.
Qed.

End AnomalyLoop.

(** *** The loop of recurring detection (C6, C8) *)

Section RecurringLoop.
Variable userId : string.

Lemma alreadyExists_iff (p : RecurringPattern.t) (db : DB) :
  FinancialIntelligenceService.alreadyExists userId p db = true
  <-> known_pattern userId (RecurringPattern.description p)
        (RecurringPattern.category p) db.
Proof.
  unfold FinancialIntelligenceService.alreadyExists, known_pattern,
    AlertRepository.getRecurringTransactions.
  rewrite existsb_order_by, existsb_exists. split.
  - intros (r & Hr & Hm). apply filter_In in Hr. destruct Hr as [Hr Hu].
    apply String.eqb_eq in Hu. apply andb_true_iff in Hm.
    destruct Hm as [Hd Hc]. apply String.eqb_eq in Hd, Hc.
    exists r. auto.
  - intros (r & Hr & Hu & Hd & Hc). exists r. split.
    + apply filter_In. split; [exact Hr|]. rewrite Hu. apply String.eqb_refl.
    + rewrite Hd, Hc, !String.eqb_refl. reflexivity.
Qed.

Lemma known_pattern_grows (d c : string) (db db' : DB)
  (more : list RecurringTransaction.t) :
  recurring_transactions db' = (recurring_transactions db ++ more)%list ->
  known_pattern userId d c db -> known_pattern userId d c db'.
Proof.
  intros Heq (r & Hr & H). exists r. split; [|exact H].
  rewrite Heq. apply in_or_app. auto.
Qed.

(** One iteration either leaves the state alone, or appends one row for
    a description and category that had none. *)
Lemma record_pattern_cases (now : Z)
  (st : list RecurringTransaction.t * DB) (p : RecurringPattern.t) :
  let st' := FinancialIntelligenceService.record_pattern now userId st p in
  (st' = st /\ known_pattern userId (RecurringPattern.description p)
                 (RecurringPattern.category p) (snd st))
  \/ (~ known_pattern userId (RecurringPattern.description p)
          (RecurringPattern.category p) (snd st)
      /\ exists r,
          recurring_transactions (snd st')
          = (recurring_transactions (snd st) ++ [r])%list
          /\ snd st' = set_recurring_transactions
                         (recurring_transactions (snd st')) (snd st)
          /\ fst st'
             = (fst st
                ++ [FinancialIntelligenceService.recurring_of userId p])%list
          /\ RecurringTransaction.user_id r = userId
          /\ RecurringTransaction.description r
             = RecurringPattern.description p
          /\ RecurringTransaction.category r = RecurringPattern.category p).
Proof.
  unfold FinancialIntelligenceService.record_pattern.
  destruct (FinancialIntelligenceService.alreadyExists userId p (snd st))
    eqn:E; simpl.
  - left. split; [reflexivity|]. now apply alreadyExists_iff.
  - right. split.
    + intro H. apply alreadyExists_iff in H. congruence.
    + eexists. split; [reflexivity|]. split; [now destruct (snd st)|].
      repeat split.
Qed.

(** The loop of [detectRecurringPatterns] over the patterns [l]. *)
Lemma recurring_loop (now : Z) (l : list RecurringPattern.t) :
  forall st,
    let st' :=
      fold_left (FinancialIntelligenceService.record_pattern now userId) l
        st in
    exists newR,
      recurring_transactions (snd st')
      = (recurring_transactions (snd st) ++ newR)%list
      /\ snd st' = set_recurring_transactions
                     (recurring_transactions (snd st')) (snd st)
      /\ List.length (fst st') = (List.length (fst st) + List.length newR)%nat
      /\ (forall r, In r newR ->
                    RecurringTransaction.user_id r = userId
                    /\ ~ known_pattern userId
                         (RecurringTransaction.description r)
                         (RecurringTransaction.category r) (snd st))
      /\ NoDup (map (fun r => (RecurringTransaction.description r,
                               RecurringTransaction.category r)) newR)
      /\ (forall p, In p l ->
                    known_pattern userId (RecurringPattern.description p)
                      (RecurringPattern.category p) (snd st')).
Proof.
  induction l as [|p l IH]; intro st; simpl.
  - exists []. rewrite !app_nil_r.
    split; [reflexivity|]. split; [now destruct (snd st)|].
    split; [simpl; lia|]. split; [intros r []|].
    split; [constructor|]. intros p [].
  - destruct (IH (FinancialIntelligenceService.record_pattern now userId st p))
      as (newR & HR & Hframe & Hlen & Hnew & Hnd & Hknown).
    destruct (record_pattern_cases now st p)
      as [[Hsame Hwhy]|(Hnot & r & Hr & Hfr & Hacc & Hu & Hd & Hc)].
    + rewrite Hsame in *. exists newR.
      split; [exact HR|]. split; [exact Hframe|]. split; [exact Hlen|].
      split; [exact Hnew|]. split; [exact Hnd|].
      intros q [<-|Hq]; [|now apply Hknown].
      eapply known_pattern_grows; eauto.
    + exists (r :: newR).
      split; [rewrite HR, Hr, <- app_assoc; reflexivity|].
      split.
      { rewrite Hframe at 1. rewrite Hfr. now destruct (snd st). }
      split.
      { rewrite Hlen, Hacc, length_app. simpl. lia. }
      split; [|split].
      * intros x [<-|Hx].
        -- split; [exact Hu|]. now rewrite Hd, Hc.
        -- destruct (Hnew x Hx) as [Hxu Hn']. split; [exact Hxu|].
           intro Hk. apply Hn'. eapply known_pattern_grows; eauto.
      * simpl. constructor; [|exact Hnd].
        intro Hin. apply in_map_iff in Hin.
        destruct Hin as (x & Hxkey & Hx).
        destruct (Hnew x Hx) as [_ Hn']. apply Hn'.
        inversion Hxkey as [[Hxd Hxc]]. exists r. repeat split; auto.
        rewrite Hr. apply in_or_app. simpl. auto.
      * intros q [<-|Hq]; [|now apply Hknown].
        eapply known_pattern_grows; [exact HR|].
        exists r. repeat split; auto.
        rewrite Hr. apply in_or_app. simpl. auto.
Qed.

Lemma recurring_loop_idle (now : Z) (l : list RecurringPattern.t)
  (st : list RecurringTransaction.t * DB) :
  (forall p, In p l ->
             known_pattern userId (RecurringPattern.description p)
               (RecurringPattern.category p) (snd st)) ->
  fold_left (FinancialIntelligenceService.record_pattern now userId) l st
  = st.
Proof.
  induction l as [|p l IH]; intro Hall; simpl; [reflexivity|].
  destruct (record_pattern_cases now st p) as [[Hsame _]|(Hnot & _)].
  - rewrite Hsame. apply IH. intros q Hq. apply Hall. simpl. auto.
  - exfalso. apply Hnot. apply Hall. simpl. auto.
Qed.

Lemma recurring_loop_keeps (now : Z) (l : list RecurringPattern.t) :
  forall st r,
    In r (fst st) ->
    In r (fst (fold_left
                 (FinancialIntelligenceService.record_pattern now userId) l
                 st)).
Proof.
  induction l as [|p l IH]; intros st r Hr; simpl; [exact Hr|].
  apply IH.
  destruct (record_pattern_cases now st p)
    as [[-> _]|(_ & x & _ & _ & -> & _)]; [exact Hr|].
  apply in_or_app. auto.
Qed.

(** Every pattern of the loop is either known beforehand or covered by
    a returned record of its description and category. *)
Lemma recurring_loop_covers (now : Z) (l : list RecurringPattern.t) :
  forall st p,
    In p l ->
    known_pattern userId (RecurringPattern.description p)
      (RecurringPattern.category p) (snd st)
    \/ exists q,
        In q l
        /\ RecurringPattern.description q = RecurringPattern.description p
        /\ RecurringPattern.category q = RecurringPattern.category p
        /\ In (FinancialIntelligenceService.recurring_of userId q)
              (fst (fold_left
                      (FinancialIntelligenceService.record_pattern now userId)
                      l st)).
Proof.
  induction l as [|x l IH]; intros st p Hp; [contradiction|]. simpl.
  destruct (record_pattern_cases now st x)
    as [[Hsame Hknown]|(Hnot & r & Hr & _ & Hacc & Hu & Hd & Hc)].
  - rewrite Hsame. destruct Hp as [<-|Hp]; [auto|].
    destruct (IH st p Hp) as [Hk|(q & Hq & H)]; [auto|].
    right. exists q. simpl. tauto.
  - assert (Hx : In (FinancialIntelligenceService.recurring_of userId x)
                    (fst (fold_left
                            (FinancialIntelligenceService.record_pattern now
                               userId) l
                            (FinancialIntelligenceService.record_pattern now
                               userId st x)))).
    { apply recurring_loop_keeps. rewrite Hacc. apply in_or_app.
      simpl. auto. }
    destruct Hp as [<-|Hp].
    + right. exists x. simpl. auto.
    + destruct (IH (FinancialIntelligenceService.record_pattern now userId
                      st x) p Hp) as [Hk|(q & Hq & H)].
      * destruct Hk as (k & Hkin & Hku & Hkd & Hkc).
        rewrite Hr in Hkin. apply in_app_or in Hkin.
        destruct Hkin as [Hkin|[<-|[]]].
        -- left. exists k. auto.
        -- right. exists x. simpl. repeat split; auto; congruence.
      * right. exists q. simpl. tauto.
Qed.

Lemma detectRecurringTransactions_same_rows (db db' : DB) :
  transactions db' = transactions db ->
  TransactionRepository.detectRecurringTransactions userId db'
  = TransactionRepository.detectRecurringTransactions userId db.
Proof.
  intro H. unfold TransactionRepository.detectRecurringTransactions.
  now rewrite H.
Qed.

End RecurringLoop.


(** The specification's example: payments on 2025-01-01, 2025-02-01 and
    2025-03-01 give one monthly record of confidence 0.3. *)
Example detectRecurringPatterns_spotify :
  fst (FinancialIntelligenceService.detectRecurringPatterns 0 "owner"
         spotify_db)
  = [spotify_record].
Proof. vm_compute. reflexivity. Qed.


(** C8.  Detection only appends: anomaly detection adds at most one row
    per transaction and none for a transaction that already has an
    unreviewed anomaly row of the user; recurring detection adds at most
    one row per description and category and none for a pair that
    already has a row.  A second run right after the first, at any
    instant, changes nothing and returns no new recurring record. *)
Theorem detection_is_idempotent
  {fmt : NumberFormat} (now1 now2 : Z) (userId : string) (db : DB) :
  let db1 := FinancialIntelligenceService.detectAnomalies now1 userId db in
  let r1 :=
    FinancialIntelligenceService.detectRecurringPatterns now1 userId db in
  (exists newA,
      anomalies db1 = (anomalies db ++ newA)%list
      /\ NoDup (map Anomaly.transaction_id newA)
      /\ forall a, In a newA ->
                   exists i, Anomaly.transaction_id a = Some i
                             /\ ~ recorded userId i db)
  /\ (exists newR,
         recurring_transactions (snd r1)
         = (recurring_transactions db ++ newR)%list
         /\ NoDup (map (fun r => (RecurringTransaction.description r,
                                  RecurringTransaction.category r)) newR)
         /\ forall r, In r newR ->
                      ~ known_pattern userId
                          (RecurringTransaction.description r)
                          (RecurringTransaction.category r) db)
  /\ FinancialIntelligenceService.detectAnomalies now2 userId db1 = db1
  /\ FinancialIntelligenceService.detectRecurringPatterns now2 userId (snd r1)
     = ([], snd r1).
Proof.
  intros db1 r1.
  destruct (detect_loop userId now1
              (TransactionRepository.getAnomalousTransactions userId 3 db) db)
    as (newA & newAl & HA & _ & Hframe & Hnew & Hnd & Hrec).
  fold (FinancialIntelligenceService.detectAnomalies now1 userId db) in *.
  fold db1 in HA, Hframe, Hrec.
  destruct (recurring_loop userId now1
              (TransactionRepository.detectRecurringTransactions userId db)
              ([], db))
    as (newR & HR & HframeR & _ & HnewR & HndR & Hknown).
  fold (FinancialIntelligenceService.detectRecurringPatterns now1 userId db)
    in *.
  fold r1 in HR, HframeR, Hknown. simpl snd in HR, HframeR, HnewR.
  split; [|split; [|split]].
  - exists newA. split; [exact HA|]. split; [exact Hnd|].
    intros a Ha. destruct (Hnew a Ha) as (_ & _ & t & _ & Hid & Hn).
    exists (Transaction.id t). auto.
  - exists newR. split; [exact HR|]. split; [exact HndR|].
    intros r Hr. now destruct (HnewR r Hr).
  - unfold FinancialIntelligenceService.detectAnomalies at 1.
    rewrite (getAnomalousTransactions_same_rows userId 3 db db1)
      by (rewrite Hframe; reflexivity).
    now apply detect_loop_idle.
  - unfold FinancialIntelligenceService.detectRecurringPatterns at 1.
    rewrite (detectRecurringTransactions_same_rows userId db (snd r1))
      by (rewrite HframeR; reflexivity).
    now apply recurring_loop_idle.
Qed.

(** C3.  On [mixed_office_db] the desk (210) is the one flagged row: the
    expenses of [Office] average 50 and 210 exceeds 3 x 50.  The anomaly
    row recorded for it has severity 1, the ratio to the mean of all six
    [Office] rows, not 210 / 50. *)
Theorem detectAnomalies_severity_on_mixed_category :
  let db' :=
    FinancialIntelligenceService.detectAnomalies (fmt := EnUS.format)
      mid_march "owner" mixed_office_db in
  TransactionRepository.getAnomalousTransactions "owner" 3 mixed_office_db
  = [desk_row]
  /\ pair_mean "owner" desk_row mixed_office_db == 50
  /\ exists a,
      anomalies db' = [a]
      /\ Anomaly.transaction_id a = Some 5%nat
      /\ Anomaly.description a
         = "Transaction of $210 for Desk is 1.0x higher than average for Office"
      /\ Anomaly.severity a == 1
      /\ ~ Anomaly.severity a
           == Transaction.amount desk_row
              / pair_mean "owner" desk_row mixed_office_db.
Proof.
  split; [vm_compute; reflexivity|]. split; [vm_compute; reflexivity|].
  eexists. split; [vm_compute; reflexivity|].
  split; [reflexivity|]. split; [reflexivity|].
  split; [reflexivity|]. vm_compute. discriminate.
Qed.

(** ** The conversation turn (C2, C7) *)

Section ChatTurn.
Context {fmt : NumberFormat}.
Variables (now : Z) (ids : string * string) (apiKey : string).
Variables (session : GeminiAccountantService.ChatSession).
Variables (userId userMessage : string) (db : DB).

(** A tool handler never writes the conversation table. *)
Lemma dispatch_keeps_conversations (call : GeminiAccountantService.FunctionCall) :
  conversations (snd (GeminiAccountantService.dispatch now userId call db))
  = conversations db.
Proof.
  unfold GeminiAccountantService.dispatch,
    GeminiAccountantService.tool_addTransaction.
  destruct call as [name [date description amount category type]].
  cbn [GeminiAccountantService.name GeminiAccountantService.args
         GeminiAccountantService.date GeminiAccountantService.description
         GeminiAccountantService.amount GeminiAccountantService.category
         GeminiAccountantService.type].
  destruct (String.eqb name "addTransaction").
  - destruct description, amount, category, type as [ty|]; try reflexivity.
    destruct (GeminiAccountantService.type_of_text ty); reflexivity.
  - destruct (String.eqb name "generateReport"); reflexivity.
Qed.

(** A turn answered in text, with no function call, appends the user
    message and then the model's text, and writes nothing else. *)
Lemma chat_text_turn (response : GeminiAccountantService.Response) :
  GeminiAccountantService.sendMessage session userMessage
  = GeminiAccountantService.Responds response ->
  (GeminiAccountantService.functionCalls response = None
   \/ GeminiAccountantService.functionCalls response = Some []) ->
  let result :=
    GeminiAccountantService.chat now ids apiKey session userId userMessage
      db in
  fst result = GeminiAccountantService.text response
  /\ exists i j,
      conversations (snd result)
      = (conversations db
         ++ [ConversationMessage.mk i userId (fst ids) user userMessage now;
             ConversationMessage.mk j userId (snd ids) model
               (GeminiAccountantService.text response) now])%list
      /\ snd result = set_conversations (conversations (snd result)) db.
Proof.
  intros Hsend Hnone. unfold GeminiAccountantService.chat. rewrite Hsend.
  destruct Hnone as [-> | ->]; simpl; (split; [reflexivity|]);
    eexists; eexists; (split; [rewrite <- app_assoc; reflexivity|]);
    now destruct db.
Qed.

(** A turn in which the model calls a function returns the model's
    second answer and leaves the conversation table as it was. *)
Lemma chat_function_turn (response response2 : GeminiAccountantService.Response)
  (call : GeminiAccountantService.FunctionCall)
  (calls : list GeminiAccountantService.FunctionCall) :
  GeminiAccountantService.sendMessage session userMessage
  = GeminiAccountantService.Responds response ->
  GeminiAccountantService.functionCalls response = Some (call :: calls) ->
  GeminiAccountantService.sendFunctionResponse session
    (GeminiAccountantService.name call)
    (fst (GeminiAccountantService.dispatch now userId call db))
  = GeminiAccountantService.Responds response2 ->
  let result :=
    GeminiAccountantService.chat now ids apiKey session userId userMessage
      db in
  fst result = GeminiAccountantService.text response2
  /\ conversations (snd result) = conversations db.
Proof.
  intros Hsend Hcalls Hsecond. unfold GeminiAccountantService.chat.
  rewrite Hsend, Hcalls, Hsecond. simpl. split; [reflexivity|].
  apply dispatch_keeps_conversations.
Qed.

End ChatTurn.

(** C2.  A turn that completes with a function call persists nothing:
    the model asks for [generateReport], the handler answers, the model
    replies in text, the text is returned, and the conversation table
    has no new row; the specification asks for the user message and the
    model's text to be stored. *)
Theorem chat_function_turn_saves_no_message :
  let result :=
    GeminiAccountantService.chat (fmt := EnUS.format) mid_march
      ("id-1", "id-2") "key" report_session "owner" "Send me a summary report"
      empty_db in
  fst result = "Your report is ready."
  /\ conversations (snd result) = []
  /\ snd result = empty_db.
Proof. vm_compute. repeat split. Qed.



(** ** Alert deduplication (C1) *)

(** Outside the [plain] categories the budget lookup misses its own
    alert.  Two runs on the same day, an hour apart, with nothing else
    changed: for a budget whose category is the text [Owner "draw"] the
    second run inserts a second [budget_overrun] alert with the same
    data, because the stored data holds the category with its quotes
    escaped and the lookup searches for the raw text; for the category
    [Travel] the second run changes nothing. *)
Lemma runAllMonitoring_repeats_budget_alert :
  let db1 :=
    NotificationService.runAllMonitoring (fmt := EnUS.format) mid_march
      "owner" (overspent_db quoted_category) in
  let db2 :=
    NotificationService.runAllMonitoring (fmt := EnUS.format) mid_march_later
      "owner" db1 in
  let plain1 :=
    NotificationService.runAllMonitoring (fmt := EnUS.format) mid_march
      "owner" (overspent_db "Travel") in
  (exists a1 a2,
      alerts db1 = [a1]
      /\ alerts db2 = [a1; a2]
      /\ Alert.alert_type a1 = budget_overrun
      /\ Alert.alert_type a2 = budget_overrun
      /\ Alert.user_id a2 = Alert.user_id a1
      /\ Alert.data a2 = Alert.data a1
      /\ Alert.data a1
         = Some (Json.stringify (fmt := EnUS.format)
                   [("category", Json.Str quoted_category);
                    ("budget", Json.Num 100); ("actual", Json.Num 150)])
      /\ NotificationService.dataIncludes a1 quoted_category = false
      /\ Alert.read a1 = 0%nat
      /\ Alert.dismissed a1 = 0%nat
      /\ Date.same_day (Alert.created_at a1) (Alert.created_at a2) = true)
  /\ transactions db2 = transactions (overspent_db quoted_category)
  /\ budgets db2 = budgets (overspent_db quoted_category)
  /\ NotificationService.runAllMonitoring (fmt := EnUS.format) mid_march_later
       "owner" plain1 = plain1
  /\ List.length (alerts plain1) = 1%nat.
Proof.
  split.
  - eexists. eexists. split; [vm_compute; reflexivity|].
    split; [vm_compute; reflexivity|]. repeat split.
  - repeat split.
Qed.


(** *** Appending rows *)

Lemma extends_refl (d : DB) : extends d d.
Proof. exists [], []. rewrite !app_nil_r. now destruct d. Qed.

Lemma extends_trans (a b c : DB) : extends a b -> extends b c -> extends a c.
Proof.
  intros (x1 & y1 & ->) (x2 & y2 & ->).
  exists (x1 ++ x2)%list, (y1 ++ y2)%list. simpl.
  rewrite !app_assoc. reflexivity.
Qed.

Lemma extends_tables (d d' : DB) :
  extends d d' ->
  transactions d' = transactions d
  /\ budgets d' = budgets d
  /\ financial_goals d' = financial_goals d
  /\ (exists more, alerts d' = (alerts d ++ more)%list)
  /\ (exists more, anomalies d' = (anomalies d ++ more)%list).
Proof.
  intros (x & y & ->). simpl. repeat split; eauto.
Qed.

Lemma createAlert_extends (now : Z) (a : Alert.t) (d : DB) :
  extends d (snd (AlertRepository.createAlert now a d)).
Proof.
  exists [stored now (Sql.next_id (map Alert.id (alerts d))) a], [].
  simpl. rewrite app_nil_r. destruct d; reflexivity.
Qed.

Lemma createAnomaly_extends (now : Z) (a : Anomaly.t) (d : DB) :
  extends d (snd (AlertRepository.createAnomaly now a d)).
Proof.
  exists [],
    [Anomaly.mk (Sql.next_id (map Anomaly.id (anomalies d)))
       (Anomaly.user_id a) (Anomaly.transaction_id a)
       (Anomaly.anomaly_type a) (Anomaly.severity a) (Anomaly.description a)
       (Anomaly.reviewed a) (Anomaly.false_positive a) now].
  simpl. rewrite app_nil_r. destruct d; reflexivity.
Qed.

Lemma extending_compose (f g : DB -> DB) :
  extending f -> extending g -> extending (fun d => g (f d)).
Proof.
  intros Hf Hg d. eapply extends_trans; [apply Hf|apply Hg].
Qed.

Section Settling.
Variable P : DB -> Prop.
Hypothesis P_stable : stable P.

Lemma settles_compose (f1 f2 g1 g2 : DB -> DB) :
  extending f1 -> extending g1 -> settles P f1 f2 -> settles P g1 g2 ->
  settles P (fun d => g1 (f1 d)) (fun d => g2 (f2 d)).
Proof.
  intros Hextf Hextg Hf Hg d d'' HP H.
  assert (Hf2 : f2 d'' = d'').
  { apply (Hf d); [exact HP|].
    eapply extends_trans; [apply Hextg|exact H]. }
  rewrite Hf2. apply (Hg (f1 d)); [|exact H].
  eapply P_stable; [apply Hextf|exact HP].
Qed.

Variable X : Type.
Variables step1 step2 : DB -> X -> DB.

Lemma extending_fold (l : list X) :
  (forall x, In x l -> extending (fun d => step1 d x)) ->
  extending (fold_left step1 l).
Proof.
  induction l as [|x l IH]; intros H d; simpl.
  - apply extends_refl.
  - eapply extends_trans.
    + apply (H x). simpl. auto.
    + apply IH. intros y Hy. apply H. simpl. auto.
Qed.

Lemma settles_fold (l : list X) :
  (forall x, In x l -> extending (fun d => step1 d x)) ->
  (forall x, In x l ->
             settles P (fun d => step1 d x) (fun d => step2 d x)) ->
  settles P (fold_left step1 l) (fold_left step2 l).
Proof.
  induction l as [|x l IH]; intros Hext Hset d d'' HP H; simpl in *.
  - reflexivity.
  - assert (Hx : step2 d'' x = d'').
    { apply (Hset x (or_introl eq_refl) d); [exact HP|].
      eapply extends_trans; [|exact H].
      apply extending_fold. intros y Hy. apply Hext. auto. }
    rewrite Hx. apply (IH (fun y Hy => Hext y (or_intror Hy))
                          (fun y Hy => Hset y (or_intror Hy))
                          (step1 d x)); [|exact H].
    eapply P_stable; [|exact HP]. apply (Hext x). auto.
Qed.

End Settling.

(** *** The lookup before the insert *)

Lemma getAlerts_In (userId : string) (includeRead includeDismissed : bool)
  (d : DB) (x : Alert.t) :
  In x (AlertRepository.getAlerts userId includeRead includeDismissed d)
  <-> In x (alerts d)
      /\ Alert.user_id x = userId
      /\ (includeRead = true \/ Alert.read x = 0%nat)
      /\ (includeDismissed = true \/ Alert.dismissed x = 0%nat).
Proof.
  unfold AlertRepository.getAlerts.
  rewrite order_by_In, filter_In, !andb_true_iff, !orb_true_iff,
    String.eqb_eq, !Nat.eqb_eq.
  tauto.
Qed.

Lemma getAlerts_extends (userId : string) (includeRead includeDismissed : bool)
  (d d' : DB) (x : Alert.t) :
  extends d d' ->
  In x (AlertRepository.getAlerts userId includeRead includeDismissed d) ->
  In x (AlertRepository.getAlerts userId includeRead includeDismissed d').
Proof.
  intros Hext. rewrite !getAlerts_In. intros (Hin & H). split; [|exact H].
  destruct (extends_tables Hext) as (_ & _ & _ & (more & ->) & _).
  apply in_or_app. auto.
Qed.

Lemma guarded_insert_extending (now : Z) (userId : string)
  (includeRead includeDismissed : bool) (found : Alert.t -> bool)
  (a : Alert.t) :
  extending (guarded_insert now userId includeRead includeDismissed found a).
Proof.
  intro d. unfold guarded_insert.
  destruct (negb _); [apply createAlert_extends|apply extends_refl].
Qed.

(** An alert that matches its own lookup is inserted once: a later
    step whose lookup accepts whatever the first one did finds it. *)
Lemma guarded_insert_settles (now1 now2 : Z) (userId : string)
  (includeRead includeDismissed : bool) (found1 found2 : Alert.t -> bool)
  (a1 a2 : Alert.t) :
  (forall x, found1 x = true -> found2 x = true) ->
  Alert.user_id a1 = userId ->
  (includeRead = true \/ Alert.read a1 = 0%nat) ->
  (includeDismissed = true \/ Alert.dismissed a1 = 0%nat) ->
  (forall rowid, found1 (stored now1 rowid a1) = true) ->
  forall P,
    settles P
      (guarded_insert now1 userId includeRead includeDismissed found1 a1)
      (guarded_insert now2 userId includeRead includeDismissed found2 a2).
Proof.
  intros Himp Hu Hr Hd Hself P d d'' _ Hext.
  assert (Hfound : existsb found2
                     (AlertRepository.getAlerts userId includeRead
                        includeDismissed d'') = true).
  { apply existsb_exists. unfold guarded_insert in Hext.
    destruct (existsb found1 _) eqn:E; simpl in Hext.
    - apply existsb_exists in E. destruct E as (x & Hx & Hf).
      exists x. split; [|now apply Himp].
      eapply getAlerts_extends; eauto.
    - exists (stored now1 (Sql.next_id (map Alert.id (alerts d))) a1).
      split; [|apply Himp, Hself].
      eapply getAlerts_extends; [exact Hext|].
      apply getAlerts_In. simpl. split; [|auto].
      apply in_or_app. simpl. auto. }
  unfold guarded_insert. now rewrite Hfound.
Qed.

(** *** Texts that contain their discriminator *)

Lemma append_assoc (a b c : string) : ((a ++ b) ++ c = a ++ (b ++ c))%string.
Proof. induction a as [|x a IH]; simpl; [reflexivity|now rewrite IH]. Qed.

Lemma prefix_append (w b : string) : String.prefix w (w ++ b) = true.
Proof.
  induction w as [|c w IH]; simpl; [now destruct b|].
  destruct (ascii_dec c c); [exact IH|contradiction].
Qed.

Lemma prefix_append_l (w a b : string) :
  String.prefix w a = true -> String.prefix w (a ++ b) = true.
Proof.
  revert a. induction w as [|c w IH]; intros a H;
    [now destruct (a ++ b)%string|].
  destruct a as [|x a]; simpl in *; [discriminate|].
  destruct (ascii_dec c x); [now apply IH|discriminate].
Qed.

Lemma includes_here (w b : string) : Js.includes (w ++ b) w = true.
Proof. rewrite includes_unfold, prefix_append. reflexivity. Qed.

Lemma includes_append_r (a b w : string) :
  Js.includes b w = true -> Js.includes (a ++ b) w = true.
Proof.
  intro H. induction a as [|c a IH]; [exact H|].
  change (String c a ++ b)%string with (String c (a ++ b)).
  rewrite includes_unfold.
  destruct (String.prefix w (String c (a ++ b))); [reflexivity|exact IH].
Qed.

Lemma includes_append_l (a b w : string) :
  Js.includes a w = true -> Js.includes (a ++ b) w = true.
Proof.
  induction a as [|c a IH]; rewrite includes_unfold.
  - destruct (String.prefix w EmptyString) eqn:E; [|discriminate].
    intros _. rewrite includes_unfold.
    now rewrite (prefix_append_l _ _ b E).
  - destruct (String.prefix w (String c a)) eqn:E.
    + intros _. rewrite includes_unfold.
      now rewrite (prefix_append_l _ _ b E).
    + intro H. change (String c a ++ b)%string with (String c (a ++ b)).
      rewrite includes_unfold.
      destruct (String.prefix w (String c (a ++ b))); [reflexivity|].
      now apply IH.
Qed.

Lemma includes_middle (a w b : string) :
  Js.includes (a ++ w ++ b) w = true.
Proof. apply includes_append_r, includes_here. Qed.

(** *** The monitors, one by one *)

Lemma steady_stable (now1 now2 : Z) (userId : string) :
  stable (steady now1 now2 userId).
Proof.
  intros d d' Hext [Hb Hg].
  destruct (extends_tables Hext) as (_ & Eb & Eg & _).
  unfold steady. rewrite Eb, Eg. now split.
Qed.

Section Monitoring.
Context {fmt : NumberFormat}.
Variables (now1 now2 : Z) (userId : string).
Hypothesis same_day : Date.same_day now1 now2 = true.

Lemma same_day_today : Date.today now2 = Date.today now1.
Proof.
  unfold Date.today. unfold Date.same_day in same_day.
  apply Z.eqb_eq in same_day. now rewrite same_day.
Qed.

Lemma createdToday_shift (a : Alert.t) :
  NotificationService.createdToday now1 a = true ->
  NotificationService.createdToday now2 a = true.
Proof.
  unfold NotificationService.createdToday, Date.same_day in *.
  apply Z.eqb_eq in same_day. now rewrite same_day.
Qed.

Lemma createdToday_stored (now : Z) (rowid : nat) (a : Alert.t) :
  NotificationService.createdToday now (stored now rowid a) = true.
Proof.
  unfold NotificationService.createdToday, Date.same_day. simpl.
  apply Z.eqb_refl.
Qed.

Lemma getFinancialSummary_same (d d' : DB) :
  transactions d' = transactions d ->
  TransactionRepository.getFinancialSummary userId d'
  = TransactionRepository.getFinancialSummary userId d.
Proof.
  intro H. unfold TransactionRepository.getFinancialSummary. now rewrite H.
Qed.

(** Cash balance. *)
Lemma monitorCashBalance_extending (now : Z) (threshold : Q) :
  extending (NotificationService.monitorCashBalance now userId threshold).
Proof.
  intro d. unfold NotificationService.monitorCashBalance.
  destruct (Js.ltb _ threshold); [|apply extends_refl].
  destruct (negb _); [apply createAlert_extends|apply extends_refl].
Qed.

Lemma monitorCashBalance_settles (threshold : Q) (P : DB -> Prop) :
  settles P (NotificationService.monitorCashBalance now1 userId threshold)
            (NotificationService.monitorCashBalance now2 userId threshold).
Proof.
  intros d d'' HP Hext.
  assert (Htx : transactions d'' = transactions d).
  { destruct (extends_tables
                (extends_trans (monitorCashBalance_extending now1 threshold d)
                               Hext)) as (H & _). exact H. }
  unfold NotificationService.monitorCashBalance in *.
  rewrite (getFinancialSummary_same _ _ Htx).
  destruct (Js.ltb _ threshold); [|reflexivity].
  refine (@guarded_insert_settles now1 now2 userId false false
            (fun a => AlertType_eqb (Alert.alert_type a) low_cash
                      && NotificationService.createdToday now1 a)
            (fun a => AlertType_eqb (Alert.alert_type a) low_cash
                      && NotificationService.createdToday now2 a)
            _ _ _ _ _ _ _ P d d'' HP Hext); auto.
  - intros x Hx. apply andb_true_iff in Hx. destruct Hx as [-> Hx].
    now apply createdToday_shift.
  - intro rowid. simpl. apply createdToday_stored.
Qed.

(** Budgets. *)
Lemma checkBudgetAlerts_same (d d' : DB) :
  transactions d' = transactions d -> budgets d' = budgets d ->
  BudgetRepository.checkBudgetAlerts now2 userId d'
  = BudgetRepository.checkBudgetAlerts now1 userId d.
Proof.
  intros Ht Hb.
  unfold BudgetRepository.checkBudgetAlerts,
    BudgetRepository.getBudgetVariance, BudgetRepository.getActiveBudgets,
    Date.first_of_month.
  rewrite same_day_today, Hb.
  apply f_equal. apply map_ext. intro b.
  unfold BudgetRepository.variance_of, BudgetRepository.spent.
  now rewrite Ht.
Qed.

Lemma checkBudgetAlerts_budget (now : Z) (d : DB) (v : BudgetVariance.t) :
  In v (BudgetRepository.checkBudgetAlerts now userId d) ->
  In (BudgetVariance.budget v) (budgets d)
  /\ Budget.user_id (BudgetVariance.budget v) = userId.
Proof.
  unfold BudgetRepository.checkBudgetAlerts,
    BudgetRepository.getBudgetVariance, BudgetRepository.getActiveBudgets.
  intro H. apply filter_In in H. destruct H as [H _].
  apply in_map_iff in H. destruct H as (b & <- & Hb). simpl.
  apply order_by_In in Hb. apply filter_In in Hb. destruct Hb as [Hb Hc].
  split; [exact Hb|].
  apply andb_true_iff in Hc. destruct Hc as [Hc _].
  apply andb_true_iff in Hc. destruct Hc as [Hc _].
  now apply String.eqb_eq.
Qed.

(** The budget alert carries its category where the lookup searches for
    it, provided JSON prints the category as it is. *)
Lemma budget_alert_self (now : Z) (rowid : nat) (v : BudgetVariance.t) :
  plain (Budget.category (BudgetVariance.budget v)) ->
  NotificationService.dataIncludes
    (stored now rowid (NotificationService.budget_alert now userId v))
    (Budget.category (BudgetVariance.budget v)) = true.
Proof.
  intro Hplain.
  unfold NotificationService.dataIncludes, stored,
    NotificationService.budget_alert.
  cbn [Alert.data]. unfold Json.stringify. cbn [String.concat map].
  apply includes_append_r, includes_append_l, includes_append_l.
  unfold Json.field. cbn [fst snd Json.render].
  do 2 apply includes_append_r.
  unfold Json.quote. apply includes_append_r.
  rewrite Hplain. apply includes_here.
Qed.

Lemma monitor_budget_extending (now : Z) (v : BudgetVariance.t) :
  extending (fun d => NotificationService.monitor_budget now userId d v).
Proof.
  intro d. unfold NotificationService.monitor_budget.
  destruct (negb _); [apply createAlert_extends|apply extends_refl].
Qed.

Lemma monitor_budget_settles (v : BudgetVariance.t) (P : DB -> Prop) :
  plain (Budget.category (BudgetVariance.budget v)) ->
  settles P (fun d => NotificationService.monitor_budget now1 userId d v)
            (fun d => NotificationService.monitor_budget now2 userId d v).
Proof.
  intros Hplain d d'' HP Hext.
  refine (@guarded_insert_settles now1 now2 userId false false
            (fun a => AlertType_eqb (Alert.alert_type a) budget_overrun
                      && NotificationService.dataIncludes a
                           (Budget.category (BudgetVariance.budget v))
                      && NotificationService.createdToday now1 a)
            (fun a => AlertType_eqb (Alert.alert_type a) budget_overrun
                      && NotificationService.dataIncludes a
                           (Budget.category (BudgetVariance.budget v))
                      && NotificationService.createdToday now2 a)
            (NotificationService.budget_alert now1 userId v)
            (NotificationService.budget_alert now2 userId v)
            _ _ _ _ _ P d d'' HP Hext); auto.
  - intros x Hx. apply andb_true_iff in Hx. destruct Hx as [-> Hx].
    now apply createdToday_shift.
  - intro rowid. rewrite budget_alert_self by exact Hplain.
    rewrite createdToday_stored. reflexivity.
Qed.

Lemma monitorBudgets_extending (now : Z) :
  extending (NotificationService.monitorBudgets now userId).
Proof.
  intro d. unfold NotificationService.monitorBudgets.
  apply extending_fold. intros v _. apply monitor_budget_extending.
Qed.

Lemma monitorBudgets_settles :
  settles (steady now1 now2 userId)
    (NotificationService.monitorBudgets now1 userId)
    (NotificationService.monitorBudgets now2 userId).
Proof.
  intros d d'' HP Hext.
  destruct (extends_tables
              (extends_trans (monitorBudgets_extending now1 d) Hext))
    as (Ht & Hb & _).
  unfold NotificationService.monitorBudgets in *.
  rewrite (checkBudgetAlerts_same _ _ Ht Hb).
  refine (@settles_fold _ (@steady_stable now1 now2 userId) _
            (NotificationService.monitor_budget now1 userId)
            (NotificationService.monitor_budget now2 userId)
            _ _ _ d d'' HP Hext).
  - intros v _. apply monitor_budget_extending.
  - intros v Hv. apply monitor_budget_settles.
    destruct (checkBudgetAlerts_budget _ _ _ Hv) as [Hin Hu].
    destruct HP as [Hplain _]. now apply Hplain.
Qed.

(** Goals. *)
Lemma getGoalProgress_same (d d' : DB) :
  steady now1 now2 userId d ->
  financial_goals d' = financial_goals d ->
  GoalRepository.getGoalProgress now2 userId d'
  = GoalRepository.getGoalProgress now1 userId d.
Proof.
  intros [_ Hg] H.
  unfold GoalRepository.getGoalProgress, GoalRepository.getGoals.
  rewrite H. apply map_ext_in. intros g Hin. apply Hg.
  apply order_by_In in Hin. apply filter_In in Hin. tauto.
Qed.

Lemma prefix_refl (w : string) : String.prefix w w = true.
Proof.
  induction w as [|c w IH]; simpl; [reflexivity|].
  destruct (ascii_dec c c); [exact IH|contradiction].
Qed.

Lemma includes_refl (w : string) : Js.includes w w = true.
Proof. rewrite includes_unfold, prefix_refl. reflexivity. Qed.

Lemma alert_at_risk_extending (now : Z) (p : GoalProgress.t) :
  extending (fun d => NotificationService.alert_at_risk now userId d p).
Proof.
  intro d. unfold NotificationService.alert_at_risk.
  destruct (NotificationService.at_risk p); [|apply extends_refl].
  destruct (negb _); [apply createAlert_extends|apply extends_refl].
Qed.

Lemma alert_milestone_extending (now : Z) (p : GoalProgress.t) :
  extending (fun d => NotificationService.alert_milestone now userId d p).
Proof.
  intro d. unfold NotificationService.alert_milestone.
  destruct (_ && GoalProgress.on_track p); [|apply extends_refl].
  destruct (negb _); [apply createAlert_extends|apply extends_refl].
Qed.

Lemma alert_at_risk_settles (p : GoalProgress.t) (P : DB -> Prop) :
  settles P (fun d => NotificationService.alert_at_risk now1 userId d p)
            (fun d => NotificationService.alert_at_risk now2 userId d p).
Proof.
  intros d d'' HP Hext. unfold NotificationService.alert_at_risk in *.
  destruct (NotificationService.at_risk p); [|reflexivity].
  refine (@guarded_insert_settles now1 now2 userId false false
            (fun a => AlertType_eqb (Alert.alert_type a) goal_progress
                      && NotificationService.dataIncludes a
                           (NotificationService.goal_id_text
                              (GoalProgress.goal p))
                      && NotificationService.createdToday now1 a)
            (fun a => AlertType_eqb (Alert.alert_type a) goal_progress
                      && NotificationService.dataIncludes a
                           (NotificationService.goal_id_text
                              (GoalProgress.goal p))
                      && NotificationService.createdToday now2 a)
            _ _ _ _ _ _ _ P d d'' HP Hext); auto.
  - intros x Hx. apply andb_true_iff in Hx. destruct Hx as [-> Hx].
    now apply createdToday_shift.
  - intro rowid. rewrite createdToday_stored, andb_true_r.
    unfold NotificationService.dataIncludes, stored. cbn [Alert.data].
    unfold Json.stringify. cbn [String.concat map].
    apply includes_append_r, includes_append_l, includes_append_l.
    unfold Json.field. cbn [fst snd Json.render].
    do 2 apply includes_append_r. apply includes_refl.
Qed.

Lemma alert_milestone_settles (p : GoalProgress.t) (P : DB -> Prop) :
  settles P (fun d => NotificationService.alert_milestone now1 userId d p)
            (fun d => NotificationService.alert_milestone now2 userId d p).
Proof.
  intros d d'' HP Hext. unfold NotificationService.alert_milestone in *.
  destruct (_ && GoalProgress.on_track p); [|reflexivity].
  refine (@guarded_insert_settles now1 now2 userId true true
            (fun a => AlertType_eqb (Alert.alert_type a) goal_progress
                      && NotificationService.dataIncludes a
                           (NotificationService.goal_id_text
                              (GoalProgress.goal p))
                      && Js.includes (Alert.message a) "50%")
            (fun a => AlertType_eqb (Alert.alert_type a) goal_progress
                      && NotificationService.dataIncludes a
                           (NotificationService.goal_id_text
                              (GoalProgress.goal p))
                      && Js.includes (Alert.message a) "50%")
            _ _ _ _ _ _ _ P d d'' HP Hext); auto.
  intro rowid.
  unfold NotificationService.dataIncludes, stored.
  cbn [Alert.data Alert.message Alert.alert_type AlertType_eqb andb].
  apply andb_true_iff. split.
  - unfold Json.stringify. cbn [String.concat map].
    apply includes_append_r, includes_append_l, includes_append_l.
    unfold Json.field. cbn [fst snd Json.render].
    do 2 apply includes_append_r. apply includes_refl.
  - apply includes_append_l. reflexivity.
Qed.

Lemma monitor_goal_extending (now : Z) (p : GoalProgress.t) :
  extending (fun d => NotificationService.monitor_goal now userId d p).
Proof.
  unfold NotificationService.monitor_goal.
  apply (extending_compose (alert_at_risk_extending now p)
                           (alert_milestone_extending now p)).
Qed.

Lemma monitorGoals_extending (now : Z) :
  extending (NotificationService.monitorGoals now userId).
Proof.
  intro d. unfold NotificationService.monitorGoals.
  apply extending_fold. intros p _. apply monitor_goal_extending.
Qed.

Lemma monitorGoals_settles :
  settles (steady now1 now2 userId)
    (NotificationService.monitorGoals now1 userId)
    (NotificationService.monitorGoals now2 userId).
Proof.
  intros d d'' HP Hext.
  destruct (extends_tables
              (extends_trans (monitorGoals_extending now1 d) Hext))
    as (_ & _ & Hg & _).
  unfold NotificationService.monitorGoals in *.
  rewrite (@getGoalProgress_same d d'' HP Hg).
  refine (@settles_fold _ (@steady_stable now1 now2 userId) _
            (NotificationService.monitor_goal now1 userId)
            (NotificationService.monitor_goal now2 userId)
            _ _ _ d d'' HP Hext).
  - intros p _. apply monitor_goal_extending.
  - intros p _. unfold NotificationService.monitor_goal.
    apply (settles_compose (@steady_stable now1 now2 userId)
             (alert_at_risk_extending now1 p)
             (alert_milestone_extending now1 p)
             (alert_at_risk_settles p _) (alert_milestone_settles p _)).
Qed.

(** Trends. *)
Lemma getMonthlyTrends_same (months : nat) (d d' : DB) :
  transactions d' = transactions d ->
  AnalyticsRepository.getMonthlyTrends now2 userId months d'
  = AnalyticsRepository.getMonthlyTrends now1 userId months d.
Proof.
  intro H.
  unfold AnalyticsRepository.getMonthlyTrends, Date.sqlite_minus_months.
  now rewrite same_day_today, H.
Qed.

Lemma alert_revenue_drop_extending (now : Z) (latest previous : TrendData.t) :
  extending (NotificationService.alert_revenue_drop now userId latest
               previous).
Proof.
  intro d. unfold NotificationService.alert_revenue_drop.
  destruct (Js.ltb _ _); [|apply extends_refl].
  destruct (negb _); [apply createAlert_extends|apply extends_refl].
Qed.

Lemma alert_expense_spike_extending (now : Z) (latest previous : TrendData.t) :
  extending (NotificationService.alert_expense_spike now userId latest
               previous).
Proof.
  intro d. unfold NotificationService.alert_expense_spike.
  destruct (Js.gtb _ _); [|apply extends_refl].
  destruct (negb _); [apply createAlert_extends|apply extends_refl].
Qed.

Lemma alert_revenue_drop_settles (latest previous : TrendData.t)
  (P : DB -> Prop) :
  settles P
    (NotificationService.alert_revenue_drop now1 userId latest previous)
    (NotificationService.alert_revenue_drop now2 userId latest previous).
Proof.
  intros d d'' HP Hext. unfold NotificationService.alert_revenue_drop in *.
  destruct (Js.ltb _ _); [|reflexivity].
  refine (@guarded_insert_settles now1 now2 userId false false
            (fun a => AlertType_eqb (Alert.alert_type a) trend
                      && Js.includes (Alert.message a) "revenue"
                      && NotificationService.createdToday now1 a)
            (fun a => AlertType_eqb (Alert.alert_type a) trend
                      && Js.includes (Alert.message a) "revenue"
                      && NotificationService.createdToday now2 a)
            _ _ _ _ _ _ _ P d d'' HP Hext); auto.
  - intros x Hx. apply andb_true_iff in Hx. destruct Hx as [-> Hx].
    now apply createdToday_shift.
  - intro rowid. rewrite createdToday_stored, andb_true_r.
    unfold stored. cbn [Alert.message Alert.alert_type AlertType_eqb andb].
    apply includes_append_l. reflexivity.
Qed.

Lemma alert_expense_spike_settles (latest previous : TrendData.t)
  (P : DB -> Prop) :
  settles P
    (NotificationService.alert_expense_spike now1 userId latest previous)
    (NotificationService.alert_expense_spike now2 userId latest previous).
Proof.
  intros d d'' HP Hext. unfold NotificationService.alert_expense_spike in *.
  destruct (Js.gtb _ _); [|reflexivity].
  refine (@guarded_insert_settles now1 now2 userId false false
            (fun a => AlertType_eqb (Alert.alert_type a) trend
                      && Js.includes (Alert.message a) "expenses"
                      && NotificationService.createdToday now1 a)
            (fun a => AlertType_eqb (Alert.alert_type a) trend
                      && Js.includes (Alert.message a) "expenses"
                      && NotificationService.createdToday now2 a)
            _ _ _ _ _ _ _ P d d'' HP Hext); auto.
  - intros x Hx. apply andb_true_iff in Hx. destruct Hx as [-> Hx].
    now apply createdToday_shift.
  - intro rowid. rewrite createdToday_stored, andb_true_r.
    unfold stored. cbn [Alert.message Alert.alert_type AlertType_eqb andb].
    apply includes_append_l. reflexivity.
Qed.

Lemma monitorTrends_extending (now : Z) :
  extending (NotificationService.monitorTrends now userId).
Proof.
  intro d. unfold NotificationService.monitorTrends.
  destruct (AnalyticsRepository.getMonthlyTrends now userId 3 d)
    as [|latest [|previous rest]]; try apply extends_refl.
  apply (extending_compose
           (alert_revenue_drop_extending now latest previous)
           (alert_expense_spike_extending now latest previous)).
Qed.

Lemma monitorTrends_settles (P : DB -> Prop) :
  stable P ->
  settles P (NotificationService.monitorTrends now1 userId)
            (NotificationService.monitorTrends now2 userId).
Proof.
  intros HPs d d'' HP Hext.
  destruct (extends_tables
              (extends_trans (monitorTrends_extending now1 d) Hext))
    as (Ht & _).
  unfold NotificationService.monitorTrends in *.
  rewrite (getMonthlyTrends_same 3 _ _ Ht).
  destruct (AnalyticsRepository.getMonthlyTrends now1 userId 3 d)
    as [|latest [|previous rest]]; try reflexivity.
  exact (settles_compose HPs
           (alert_revenue_drop_extending now1 latest previous)
           (alert_expense_spike_extending now1 latest previous)
           (alert_revenue_drop_settles latest previous P)
           (alert_expense_spike_settles latest previous P) d HP Hext).
Qed.

(** Anomalies. *)
Lemma detectAnomalies_extending (now : Z) :
  extending (FinancialIntelligenceService.detectAnomalies now userId).
Proof.
  intro d. unfold FinancialIntelligenceService.detectAnomalies.
  destruct (detect_loop userId now
              (TransactionRepository.getAnomalousTransactions userId 3 d) d)
    as (newA & newAl & HA & HAl & Hframe & _).
  exists newAl, newA. rewrite Hframe at 1. now rewrite HA, HAl.
Qed.

Lemma detectAnomalies_settles (P : DB -> Prop) :
  settles P (FinancialIntelligenceService.detectAnomalies now1 userId)
            (FinancialIntelligenceService.detectAnomalies now2 userId).
Proof.
  intros d d'' _ Hext.
  destruct (extends_tables
              (extends_trans (detectAnomalies_extending now1 d) Hext))
    as (Ht & _).
  destruct (extends_tables Hext) as (_ & _ & _ & _ & (more & Hmore)).
  unfold FinancialIntelligenceService.detectAnomalies in *.
  rewrite (getAnomalousTransactions_same_rows userId 3 d d'' Ht).
  apply detect_loop_idle. intros t Hin Hid.
  destruct (detect_loop userId now1
              (TransactionRepository.getAnomalousTransactions userId 3 d) d)
    as (newA & newAl & _ & _ & _ & _ & _ & Hrec).
  eapply recorded_grows; [exact Hmore|]. now apply Hrec.
Qed.

End Monitoring.

(** *** Two runs on one day *)

Lemma monitor_budget_found {fmt : NumberFormat} (now : Z) (userId : string)
  (d : DB) (v : BudgetVariance.t) (a : Alert.t) :
  In a (alerts d) ->
  Alert.user_id a = userId ->
  Alert.read a = 0%nat -> Alert.dismissed a = 0%nat ->
  Alert.alert_type a = budget_overrun ->
  NotificationService.dataIncludes a
    (Budget.category (BudgetVariance.budget v)) = true ->
  Date.same_day (Alert.created_at a) now = true ->
  NotificationService.monitor_budget now userId d v = d.
Proof.
  intros Hin Hu Hr Hd Hty Hdata Hday.
  unfold NotificationService.monitor_budget,
    NotificationService.hasRecentBudgetAlert.
  replace (existsb _ _) with true; [reflexivity|].
  symmetry. apply existsb_exists. exists a. split.
  - apply getAlerts_In. auto.
  - unfold NotificationService.createdToday.
    now rewrite Hty, Hdata, Hday.
Qed.

Lemma alert_at_risk_found {fmt : NumberFormat} (now : Z) (userId : string)
  (d : DB) (p : GoalProgress.t) (a : Alert.t) :
  In a (alerts d) ->
  Alert.user_id a = userId ->
  Alert.read a = 0%nat -> Alert.dismissed a = 0%nat ->
  Alert.alert_type a = goal_progress ->
  NotificationService.dataIncludes a
    (Js.string_of_nat (FinancialGoal.id (GoalProgress.goal p))) = true ->
  Date.same_day (Alert.created_at a) now = true ->
  NotificationService.alert_at_risk now userId d p = d.
Proof.
  intros Hin Hu Hr Hd Hty Hdata Hday.
  unfold NotificationService.alert_at_risk.
  destruct (NotificationService.at_risk p); [|reflexivity].
  replace (existsb _ _) with true; [reflexivity|].
  symmetry. apply existsb_exists. exists a. split.
  - apply getAlerts_In. auto.
  - unfold NotificationService.createdToday,
      NotificationService.goal_id_text.
    now rewrite Hty, Hdata, Hday.
Qed.

Lemma record_anomaly_found {fmt : NumberFormat} (now : Z) (userId : string)
  (d : DB) (t : Transaction.t) :
  recorded userId (Transaction.id t) d ->
  FinancialIntelligenceService.record_anomaly now userId d t = d.
Proof.
  intro H. destruct (record_anomaly_cases userId now d t)
    as [[Hsame _]|(Hnot & _)]; [exact Hsame|contradiction].
Qed.




(** ** Sums and orderings *)

Lemma fold_sum_shift (l : list Q) (a : Q) :
  fold_left Qplus l a == a + fold_left Qplus l 0.
Proof.
  revert a. induction l as [|x l IH]; intro a; simpl.
  - ring.
  - rewrite (IH (a + x)), (IH (0 + x)). ring.
Qed.

Lemma sum_cons (x : Q) (l : list Q) : Js.sum (x :: l) == x + Js.sum l.
Proof. unfold Js.sum. simpl. rewrite fold_sum_shift. ring. Qed.

Lemma sum_app (l l' : list Q) : Js.sum (l ++ l') == Js.sum l + Js.sum l'.
Proof.
  induction l as [|x l IH]; simpl.
  - unfold Js.sum at 2. simpl. ring.
  - rewrite !sum_cons, IH. ring.
Qed.

Lemma sum_nil : Js.sum [] == 0.
Proof. reflexivity. Qed.

(** [SUM(...) || 0] is the sum, the empty sum being [0]. *)
Lemma sum_or_zero (l : list Q) : Js.opt_num_or (Sql.SUM l) 0 == Js.sum l.
Proof.
  destruct l as [|x l]; [reflexivity|].
  unfold Sql.SUM, Js.opt_num_or, Js.num_or.
  destruct (Qeq_bool (Js.sum (x :: l)) 0) eqn:E; [|reflexivity].
  apply Qeq_bool_iff in E. now rewrite E.
Qed.

Section SumFacts.
Variable A : Type.

Lemma sum_insert_sorted (le : A -> A -> bool) (f : A -> Q) (x : A)
  (l : list A) :
  Js.sum (map f (Sql.insert_sorted le x l)) == f x + Js.sum (map f l).
Proof.
  induction l as [|y l IH]; simpl.
  - apply sum_cons.
  - destruct (le x y); simpl.
    + apply sum_cons.
    + rewrite !sum_cons, IH. ring.
Qed.

(** A sum does not depend on the [ORDER BY]. *)
Lemma sum_order_by (le : A -> A -> bool) (f : A -> Q) (l : list A) :
  Js.sum (map f (Sql.order_by le l)) == Js.sum (map f l).
Proof.
  induction l as [|x l IH]; simpl; [reflexivity|].
  now rewrite sum_insert_sorted, sum_cons, IH.
Qed.

End SumFacts.

(** ** Recording a transaction and the financial summary *)

Lemma summary_revenue (userId : string) (db : DB) :
  FinancialSummary.revenue
    (TransactionRepository.getFinancialSummary userId db)
  == Js.sum (map (fun t => match Transaction.type t with
                           | income => Transaction.amount t
                           | expense => 0
                           end)
                 (filter (TransactionRepository.of_user userId)
                         (transactions db))).
Proof. apply sum_or_zero. Qed.

Lemma summary_expenses (userId : string) (db : DB) :
  FinancialSummary.expenses
    (TransactionRepository.getFinancialSummary userId db)
  == Js.sum (map (fun t => match Transaction.type t with
                           | expense => Transaction.amount t
                           | income => 0
                           end)
                 (filter (TransactionRepository.of_user userId)
                         (transactions db))).
Proof. apply sum_or_zero. Qed.

Lemma summary_profit (userId : string) (db : DB) :
  FinancialSummary.profit
    (TransactionRepository.getFinancialSummary userId db)
  = FinancialSummary.revenue
      (TransactionRepository.getFinancialSummary userId db)
    - FinancialSummary.expenses
        (TransactionRepository.getFinancialSummary userId db).
Proof. reflexivity. Qed.

Lemma addTransaction_rows (now : Z) (t : Transaction.t) (db : DB) :
  exists row,
    transactions (snd (TransactionRepository.addTransaction now t db))
    = (transactions db ++ [row])%list
    /\ Transaction.id row = fst (TransactionRepository.addTransaction now t db)
    /\ Transaction.user_id row = Transaction.user_id t
    /\ Transaction.date row = Transaction.date t
    /\ Transaction.description row = Transaction.description t
    /\ Transaction.amount row = Transaction.amount t
    /\ Transaction.category row = Transaction.category t
    /\ Transaction.type row = Transaction.type t
    /\ Transaction.created_at row = now.
Proof. eexists. repeat split. Qed.

(** The summaries once a row has been appended to [transactions]. *)
Lemma summary_after_row (db db' : DB) (row : Transaction.t) :
  transactions db' = (transactions db ++ [row])%list ->
  let before :=
    TransactionRepository.getFinancialSummary (Transaction.user_id row) db in
  let after :=
    TransactionRepository.getFinancialSummary (Transaction.user_id row) db' in
  FinancialSummary.revenue after
  == FinancialSummary.revenue before
     + match Transaction.type row with
       | income => Transaction.amount row
       | expense => 0
       end
  /\ FinancialSummary.expenses after
     == FinancialSummary.expenses before
        + match Transaction.type row with
          | expense => Transaction.amount row
          | income => 0
          end
  /\ FinancialSummary.profit after
     == FinancialSummary.profit before
        + match Transaction.type row with
          | income => Transaction.amount row
          | expense => - Transaction.amount row
          end
  /\ forall other,
       other <> Transaction.user_id row ->
       TransactionRepository.getFinancialSummary other db'
       = TransactionRepository.getFinancialSummary other db.
Proof.
  intros Hrows before after.
  assert (Hmine : filter (TransactionRepository.of_user
                            (Transaction.user_id row)) (transactions db')
                  = (filter (TransactionRepository.of_user
                               (Transaction.user_id row)) (transactions db)
                     ++ [row])%list).
  { rewrite Hrows, filter_app. simpl.
    unfold TransactionRepository.of_user at 2.
    now rewrite String.eqb_refl. }
  assert (Hrev : FinancialSummary.revenue after
                 == FinancialSummary.revenue before
                    + match Transaction.type row with
                      | income => Transaction.amount row
                      | expense => 0
                      end).
  { unfold after, before. rewrite !summary_revenue, Hmine, map_app, sum_app.
    simpl. rewrite sum_cons, sum_nil.
    destruct (Transaction.type row); ring. }
  assert (Hexp : FinancialSummary.expenses after
                 == FinancialSummary.expenses before
                    + match Transaction.type row with
                      | expense => Transaction.amount row
                      | income => 0
                      end).
  { unfold after, before. rewrite !summary_expenses, Hmine, map_app, sum_app.
    simpl. rewrite sum_cons, sum_nil.
    destruct (Transaction.type row); ring. }
  split; [exact Hrev|]. split; [exact Hexp|]. split.
  - unfold after, before. rewrite !summary_profit.
    fold after. fold before. rewrite Hrev, Hexp.
    destruct (Transaction.type row); ring.
  - intros other Hother.
    unfold TransactionRepository.getFinancialSummary.
    replace (filter (TransactionRepository.of_user other) (transactions db'))
      with (filter (TransactionRepository.of_user other) (transactions db));
      [reflexivity|].
    rewrite Hrows, filter_app. simpl.
    unfold TransactionRepository.of_user at 3.
    destruct (String.eqb_spec (Transaction.user_id row) other) as [E|_].
    + congruence.
    + now rewrite app_nil_r.
Qed.


(** ** The most recent transactions *)

Section SortFacts.
Variable A : Type.
Variable le : A -> A -> bool.
Hypothesis le_total : forall a b, le a b = false -> le b a = true.
Hypothesis le_trans :
  forall a b c, le a b = true -> le b c = true -> le a c = true.

Lemma insert_sorted_sorted (x : A) (l : list A) :
  StronglySorted (fun a b => le a b = true) l ->
  StronglySorted (fun a b => le a b = true) (Sql.insert_sorted le x l).
Proof.
  induction 1 as [|y l Hs IH Hy]; simpl.
  - constructor; constructor.
  - destruct (le x y) eqn:E.
    + constructor; [now constructor|].
      constructor; [exact E|].
      rewrite Forall_forall in *. intros z Hz. eauto.
    + constructor; [exact IH|].
      rewrite Forall_forall in *. intros z Hz.
      apply insert_sorted_In in Hz. destruct Hz as [->|Hz]; auto.
Qed.

(** [ORDER BY] returns its rows in order. *)
Lemma order_by_sorted (l : list A) :
  StronglySorted (fun a b => le a b = true) (Sql.order_by le l).
Proof.
  induction l as [|x l IH]; simpl; [constructor|].
  now apply insert_sorted_sorted.
Qed.

End SortFacts.

Lemma firstn_In (A : Type) (n : nat) (l : list A) (x : A) :
  In x (firstn n l) -> In x l.
Proof.
  intro H. rewrite <- (firstn_skipn n l). apply in_or_app. auto.
Qed.

Lemma skipn_In (A : Type) (n : nat) (l : list A) (x : A) :
  In x (skipn n l) -> In x l.
Proof.
  intro H. rewrite <- (firstn_skipn n l). apply in_or_app. auto.
Qed.

Lemma sorted_prefix (A : Type) (R : A -> A -> Prop) (n : nat) (l : list A) :
  StronglySorted R l ->
  StronglySorted R (firstn n l)
  /\ forall a b, In a (firstn n l) -> In b (skipn n l) -> R a b.
Proof.
  intro Hs. revert n. induction Hs as [|x l Hs IH Hx]; intro n.
  - rewrite firstn_nil, skipn_nil. split; [constructor|intros a b []].
  - destruct n as [|n]; simpl.
    + split; [constructor|intros a b []].
    + destruct (IH n) as [IH1 IH2]. split.
      * constructor; [exact IH1|].
        rewrite Forall_forall in *. intros z Hz. apply Hx.
        eapply firstn_In; eauto.
      * intros a b [<-|Ha] Hb.
        -- rewrite Forall_forall in Hx. apply Hx.
           eapply skipn_In; eauto.
        -- now apply IH2.
Qed.

Lemma limit_length (A : Type) (n : Z) (l : list A) :
  List.length (Sql.limit n l)
  = if (n <? 0)%Z then List.length l
    else Nat.min (Z.to_nat n) (List.length l).
Proof.
  unfold Sql.limit. destruct (n <? 0)%Z; [reflexivity|].
  apply length_firstn.
Qed.

Lemma limit_In (A : Type) (n : Z) (l : list A) (x : A) :
  In x (Sql.limit n l) -> In x l.
Proof.
  unfold Sql.limit. destruct (n <? 0)%Z; [auto|].
  apply firstn_In.
Qed.

Lemma limit_sorted (A : Type) (R : A -> A -> Prop) (n : Z) (l : list A) :
  StronglySorted R l ->
  StronglySorted R (Sql.limit n l)
  /\ exists rest,
       l = (Sql.limit n l ++ rest)%list
       /\ forall a b, In a (Sql.limit n l) -> In b rest -> R a b.
Proof.
  intro Hs. unfold Sql.limit. destruct (n <? 0)%Z.
  - split; [exact Hs|]. exists []. rewrite app_nil_r.
    split; [reflexivity|intros a b _ []].
  - destruct (sorted_prefix (Z.to_nat n) Hs) as [H1 H2].
    split; [exact H1|]. exists (skipn (Z.to_nat n) l).
    now rewrite firstn_skipn.
Qed.

Lemma newest_first_iff (a b : Transaction.t) :
  TransactionRepository.newest_first a b = true
  <-> (Date.year (Transaction.date b) < Date.year (Transaction.date a)
       \/ (Date.year (Transaction.date b) = Date.year (Transaction.date a)
           /\ (Date.month (Transaction.date b)
               < Date.month (Transaction.date a)
               \/ (Date.month (Transaction.date b)
                   = Date.month (Transaction.date a)
                   /\ (Date.day (Transaction.date b)
                       < Date.day (Transaction.date a)
                       \/ (Date.day (Transaction.date b)
                           = Date.day (Transaction.date a)
                           /\ Transaction.created_at b
                              <= Transaction.created_at a))))))%Z.
Proof.
  unfold TransactionRepository.newest_first, Date.compare.
  destruct (Z.compare_spec (Date.year (Transaction.date b))
                           (Date.year (Transaction.date a)));
    destruct (Z.compare_spec (Date.month (Transaction.date b))
                             (Date.month (Transaction.date a)));
    destruct (Z.compare_spec (Date.day (Transaction.date b))
                             (Date.day (Transaction.date a)));
    rewrite ?Z.leb_le; split; intro; try discriminate; try reflexivity; lia.
Qed.

Lemma newest_first_total (a b : Transaction.t) :
  TransactionRepository.newest_first a b = false ->
  TransactionRepository.newest_first b a = true.
Proof.
  intro H. apply newest_first_iff.
  assert (Hn : ~ TransactionRepository.newest_first a b = true) by congruence.
  rewrite newest_first_iff in Hn. lia.
Qed.

Lemma newest_first_trans (a b c : Transaction.t) :
  TransactionRepository.newest_first a b = true ->
  TransactionRepository.newest_first b c = true ->
  TransactionRepository.newest_first a c = true.
Proof. rewrite !newest_first_iff. lia. Qed.

Lemma newest_first_dates (a b : Transaction.t) :
  TransactionRepository.newest_first a b = true ->
  Date.leb (Transaction.date b) (Transaction.date a) = true.
Proof. rewrite newest_first_iff, date_leb_iff. lia. Qed.

Lemma sorted_weaken (A : Type) (R R' : A -> A -> Prop) (l : list A) :
  (forall a b, R a b -> R' a b) ->
  StronglySorted R l -> StronglySorted R' l.
Proof.
  intros Himp. induction 1 as [|x l Hs IH Hx]; constructor; auto.
  rewrite Forall_forall in *. auto.
Qed.

(** X2.  [getRecentTransactions] returns rows of the user only, as many
    as the limit allows (all of them under a negative limit), the
    latest dates first; every row it leaves out is dated no later than
    the rows it returns. *)
Theorem getRecentTransactions_latest (userId : string) (limit : Z)
  (db : DB) :
  let recent := TransactionRepository.getRecentTransactions userId limit db in
  let mine :=
    filter (TransactionRepository.of_user userId) (transactions db) in
  (forall t, In t recent ->
             In t (transactions db) /\ Transaction.user_id t = userId)
  /\ List.length recent
     = (if (limit <? 0)%Z then List.length mine
        else Nat.min (Z.to_nat limit) (List.length mine))
  /\ StronglySorted
       (fun a b => Date.leb (Transaction.date b) (Transaction.date a) = true)
       recent
  /\ exists rest,
       TransactionRepository.getAllTransactions userId db
       = (recent ++ rest)%list
       /\ forall a b,
            In a recent -> In b rest ->
            Date.leb (Transaction.date b) (Transaction.date a) = true.
Proof.
  intros recent mine.
  pose proof (order_by_sorted TransactionRepository.newest_first
                newest_first_total newest_first_trans mine) as Hs.
  destruct (limit_sorted limit Hs) as (Hsorted & rest & Hsplit & Hrest).
  split; [|split; [|split]].
  - intros t Ht. apply limit_In, order_by_In, filter_In in Ht.
    destruct Ht as [Hin Hu]. split; [exact Hin|].
    now apply String.eqb_eq.
  - unfold recent, TransactionRepository.getRecentTransactions.
    now rewrite limit_length, order_by_length.
  - eapply sorted_weaken; [|exact Hsorted].
    intros a b. apply newest_first_dates.
  - exists rest. split; [exact Hsplit|].
    intros a b Ha Hb. apply newest_first_dates. now apply Hrest.
Qed.

(** ** Totals by group *)

Section GroupSums.
Variables (A K : Type) (eqb : K -> K -> bool) (key : A -> K).
Hypothesis eqb_eq : forall a b, eqb a b = true <-> a = b.
Variable f : A -> Q.

Lemma group_keys_NoDup (rows : list A) :
  NoDup (Sql.group_keys eqb key rows).
Proof.
  induction rows as [|r rows IH]; simpl; constructor.
  - intro Hin. apply filter_In in Hin. destruct Hin as [_ Hne].
    assert (E : eqb (key r) (key r) = true) by now apply eqb_eq.
    rewrite E in Hne. discriminate.
  - now apply NoDup_filter.
Qed.

Lemma sum_filter_disjoint (p q : A -> bool) (l : list A) :
  (forall r, p r = true -> q r = false) ->
  Js.sum (map f (filter (fun r => p r || q r) l))
  == Js.sum (map f (filter p l)) + Js.sum (map f (filter q l)).
Proof.
  intro Hd. induction l as [|r l IH]; simpl; [reflexivity|].
  destruct (p r) eqn:Ep; simpl.
  - rewrite (Hd r Ep), !sum_cons, IH. ring.
  - destruct (q r); simpl; rewrite ?sum_cons, IH; ring.
Qed.

Lemma sum_of_groups (keys : list K) (rows : list A) :
  NoDup keys ->
  Js.sum (map (fun k =>
                 Js.sum (map f (filter (fun r => eqb (key r) k) rows)))
              keys)
  == Js.sum (map f (filter (fun r => existsb (eqb (key r)) keys) rows)).
Proof.
  induction 1 as [|k keys Hk Hnd IH]; simpl.
  - replace (filter (fun _ : A => false) rows) with (@nil A);
      [reflexivity|].
    induction rows; simpl; auto.
  - rewrite sum_cons, IH.
    rewrite (sum_filter_disjoint (fun r => eqb (key r) k)
               (fun r => existsb (eqb (key r)) keys)); [reflexivity|].
    intros r Hr. apply eqb_eq in Hr.
    destruct (existsb (eqb (key r)) keys) eqn:E; [|reflexivity].
    apply existsb_exists in E. destruct E as (k' & Hin & Hk').
    apply eqb_eq in Hk'. exfalso. apply Hk. congruence.
Qed.

Lemma filter_all (p : A -> bool) (l : list A) :
  (forall r, In r l -> p r = true) -> filter p l = l.
Proof.
  induction l as [|r l IH]; simpl; intro H; [reflexivity|].
  rewrite (H r (or_introl eq_refl)). f_equal. apply IH. auto.
Qed.

(** The totals of the groups of a [GROUP BY] add up to the total of
    the rows. *)
Lemma sum_group_by (rows : list A) :
  Js.sum (map (fun k =>
                 Js.sum (map f (filter (fun r => eqb (key r) k) rows)))
              (Sql.group_keys eqb key rows))
  == Js.sum (map f rows).
Proof.
  rewrite sum_of_groups by apply group_keys_NoDup.
  rewrite filter_all; [reflexivity|].
  intros r Hr. apply existsb_exists. exists (key r). split.
  - now apply group_keys_complete.
  - now apply eqb_eq.
Qed.

End GroupSums.


(** ** Monthly trends *)

Lemma signed_sum (g : list Transaction.t) :
  Js.sum (map (fun t => match Transaction.type t with
                        | income => Transaction.amount t
                        | expense => - Transaction.amount t
                        end) g)
  == Js.sum (map (fun t => match Transaction.type t with
                           | income => Transaction.amount t
                           | expense => 0
                           end) g)
     - Js.sum (map (fun t => match Transaction.type t with
                             | expense => Transaction.amount t
                             | income => 0
                             end) g).
Proof.
  induction g as [|t g IH]; simpl; [reflexivity|].
  rewrite !sum_cons, IH. destruct (Transaction.type t); ring.
Qed.

Lemma period_eqb_eq (a b : Z * Z) :
  AnalyticsRepository.period_eqb a b = true <-> a = b.
Proof.
  unfold AnalyticsRepository.period_eqb. destruct a, b. simpl.
  rewrite andb_true_iff, !Z.eqb_eq. split.
  - intros [-> ->]. reflexivity.
  - intro H. injection H. auto.
Qed.


Lemma insert_sorted_map (A B : Type) (f : A -> B) (le : A -> A -> bool)
  (le' : B -> B -> bool) (x : A) (l : list A) :
  (forall a b, le' (f a) (f b) = le a b) ->
  Sql.insert_sorted le' (f x) (map f l) = map f (Sql.insert_sorted le x l).
Proof.
  intro H. induction l as [|y l IH]; simpl; [reflexivity|].
  rewrite H. destruct (le x y); simpl; [reflexivity|]. now rewrite IH.
Qed.

Lemma order_by_map (A B : Type) (f : A -> B) (le : A -> A -> bool)
  (le' : B -> B -> bool) (l : list A) :
  (forall a b, le' (f a) (f b) = le a b) ->
  Sql.order_by le' (map f l) = map f (Sql.order_by le l).
Proof.
  intro H. induction l as [|x l IH]; simpl; [reflexivity|].
  rewrite IH. now apply insert_sorted_map.
Qed.

(** X5.  [getMonthlyComparison] of the transaction repository returns
    the months of [getMonthlyTrends] of the analytics repository, row
    for row and in the same order, the period being called [month]. *)
Theorem getMonthlyComparison_is_getMonthlyTrends (now : Z) (userId : string)
  (months : nat) (db : DB) :
  TransactionRepository.getMonthlyComparison now userId months db
  = map (fun t => MonthlyComparison.mk (TrendData.period t)
                    (TrendData.income t) (TrendData.expenses t)
                    (TrendData.profit t))
        (AnalyticsRepository.getMonthlyTrends now userId months db).
Proof.
  unfold TransactionRepository.getMonthlyComparison,
    AnalyticsRepository.getMonthlyTrends.
  rewrite <- (order_by_map _ AnalyticsRepository.period_desc
                TransactionRepository.month_desc).
  - rewrite map_map. reflexivity.
  - intros a b. reflexivity.
Qed.

(** ** Spending patterns *)

Lemma sum_scaled (A : Type) (h : A -> Q) (c : Q) (l : list A) :
  Js.sum (map (fun r => h r * c) l) == Js.sum (map h l) * c.
Proof.
  induction l as [|r l IH]; simpl.
  - unfold Js.sum. simpl. ring.
  - rewrite !sum_cons, IH. ring.
Qed.

Lemma sum_shares (A : Type) (h : A -> Q) (T : Q) (l : list A) :
  Js.sum (map (fun r => h r / T * 100) l) == Js.sum (map h l) * (/ T * 100).
Proof.
  rewrite <- sum_scaled. induction l as [|r l IH]; simpl; [reflexivity|].
  rewrite !sum_cons, IH. unfold Qdiv. ring.
Qed.

Lemma sum_zeros (A : Type) (l : list A) :
  Js.sum (map (fun _ : A => 0) l) == 0.
Proof.
  induction l as [|r l IH]; simpl; [reflexivity|].
  rewrite sum_cons, IH. ring.
Qed.

Lemma spending_rows (userId : string) (startDate endDate : option Date.t)
  (db : DB) (r : AnalyticsRepository.CategorySpending) :
  In r (AnalyticsRepository.spending_by_category userId startDate endDate db)
  ->
  exists g : list Transaction.t,
    g <> []
    /\ AnalyticsRepository.spending_total r
       = Js.sum (map Transaction.amount g)
    /\ AnalyticsRepository.spending_count r = List.length g
    /\ AnalyticsRepository.spending_average r
       = Sql.AVG (map Transaction.amount g)
    /\ forall t, In t g ->
         In t (transactions db)
         /\ Transaction.user_id t = userId
         /\ Transaction.type t = expense
         /\ Transaction.category t = AnalyticsRepository.spending_category r.
Proof.
  unfold AnalyticsRepository.spending_by_category.
  intro H. apply order_by_In, in_map_iff in H.
  destruct H as (c & <- & Hc). simpl.
  apply (group_keys_sound String.eqb Transaction.category) in Hc.
  destruct Hc as (t0 & Ht0 & Hcat).
  eexists. split; [|split; [reflexivity|split; [reflexivity|split;
    [reflexivity|]]]].
  - intro Hnil.
    assert (Hin : In t0 (filter (fun t => String.eqb (Transaction.category t) c)
                           (filter (fun t =>
                              String.eqb (Transaction.user_id t) userId
                              && TxType_eqb (Transaction.type t) expense
                              && TransactionRepository.in_range startDate
                                   endDate t) (transactions db)))).
    { apply filter_In. split; [exact Ht0|]. rewrite Hcat.
      apply String.eqb_refl. }
    rewrite Hnil in Hin. destruct Hin.
  - intros t Ht. apply filter_In in Ht. destruct Ht as [Ht Hc'].
    apply filter_In in Ht. destruct Ht as [Hin Hp].
    rewrite !andb_true_iff in Hp. destruct Hp as [[Hu Hty] _].
    apply String.eqb_eq in Hu, Hc'. apply TxType_eqb_eq in Hty. auto.
Qed.

Lemma inject_nat_nonzero (n : nat) :
  (0 < n)%nat -> ~ inject_Z (Z.of_nat n) == 0.
Proof. intros H E. unfold Qeq in E. simpl in E. lia. Qed.

Lemma percentages_sum (now : Z) (userId : string)
  (startDate endDate : option Date.t) (db : DB) :
  let patterns :=
    AnalyticsRepository.getSpendingPatterns now userId startDate endDate db in
  Js.sum (map SpendingPattern.percentage patterns)
  == (if Js.gtb (Js.sum (map SpendingPattern.total patterns)) 0
      then 100 else 0).
Proof.
  intros patterns.
  set (totalExpenses := Js.sum (map SpendingPattern.total patterns)).
  assert (HT : totalExpenses
               == Js.sum (map AnalyticsRepository.spending_total
                            (AnalyticsRepository.spending_by_category
                               userId startDate endDate db))).
  { unfold totalExpenses, patterns, AnalyticsRepository.getSpendingPatterns.
    rewrite map_map. reflexivity. }
  unfold patterns, AnalyticsRepository.getSpendingPatterns.
  rewrite map_map. cbn [SpendingPattern.percentage].
  set (results := AnalyticsRepository.spending_by_category userId startDate
                    endDate db) in *.
  set (T := Js.sum (map AnalyticsRepository.spending_total results)) in *.
  assert (Hg : Js.gtb totalExpenses 0 = Js.gtb T 0).
  { apply eq_true_iff_eq. rewrite !gtb_true_iff. now rewrite HT. }
  rewrite Hg. destruct (Js.gtb T 0) eqn:E.
  - apply gtb_true_iff in E.
    rewrite sum_shares. fold T. field. intro K. rewrite K in E.
    apply (Qlt_irrefl _ E).
  - apply sum_zeros.
Qed.


(** ** Budget alerts *)

Lemma needs_alert_positive (userId : string) (startDate endDate : Date.t)
  (db : DB) (budget : Budget.t) :
  0 < Budget.amount budget ->
  BudgetRepository.needs_alert
    (BudgetRepository.variance_of userId startDate endDate db budget)
  = match BudgetVariance.status
            (BudgetRepository.variance_of userId startDate endDate db budget)
    with
    | under => false
    | _ => true
    end.
Proof.
  intro Hpos. unfold BudgetRepository.needs_alert,
    BudgetRepository.variance_of.
  cbn [BudgetVariance.status BudgetVariance.actual BudgetVariance.budget].
  set (actual := Js.opt_num_or _ 0).
  set (threshold := Js.opt_num_or (Budget.alert_threshold budget) (9 # 10)).
  destruct (Js.gtb actual (Budget.amount budget)); [reflexivity|].
  unfold BudgetRepository.quotient_geb.
  destruct (Qeq_bool (Budget.amount budget) 0) eqn:E0.
  { apply Qeq_bool_iff in E0. rewrite E0 in Hpos.
    exfalso. apply (Qlt_irrefl _ Hpos). }
  destruct (Js.ltb actual (Budget.amount budget * threshold)) eqn:E.
  - apply ltb_true_iff in E.
    destruct (Js.geb (actual / Budget.amount budget) threshold) eqn:G;
      [|reflexivity].
    apply geb_true_iff in G. exfalso.
    apply (Qlt_irrefl actual). eapply Qlt_le_trans; [exact E|].
    apply (Qmult_le_compat_r _ _ (Budget.amount budget)) in G;
      [|now apply Qlt_le_weak].
    rewrite Qmult_comm.
    setoid_replace (actual / Budget.amount budget * Budget.amount budget)
      with actual in G; [exact G|].
    field. intro K. rewrite K in Hpos. apply (Qlt_irrefl _ Hpos).
  - apply ltb_false_iff in E. apply geb_true_iff.
    apply Qle_shift_div_l; [exact Hpos|]. now rewrite Qmult_comm.
Qed.

Lemma variance_needs_alert (now : Z) (userId : string)
  (startDate endDate : Date.t) (db : DB) (v : BudgetVariance.t) :
  (forall b, In b (budgets db) -> Budget.user_id b = userId ->
             0 < Budget.amount b) ->
  In v (BudgetRepository.getBudgetVariance now userId startDate endDate db)
  ->
  BudgetRepository.needs_alert v
  = match BudgetVariance.status v with
    | under => false
    | _ => true
    end.
Proof.
  intros Hpos Hv. unfold BudgetRepository.getBudgetVariance in Hv.
  apply in_map_iff in Hv. destruct Hv as (b & <- & Hb).
  apply needs_alert_positive.
  unfold BudgetRepository.getActiveBudgets in Hb.
  apply order_by_In, filter_In in Hb. destruct Hb as [Hin Hc].
  rewrite !andb_true_iff in Hc. destruct Hc as [[Hu _] _].
  apply String.eqb_eq in Hu. auto.
Qed.



(** ** Goals: completion is reported once, progress only slips *)

(** X8.  Under the primary key of [financial_goals], a second
    [checkGoalCompletion] finds nothing left: it returns no goal and
    leaves the database as the first call left it, so that a goal is
    reported complete once. *)
Theorem checkGoalCompletion_reports_once (now1 now2 : Z) (userId : string)
  (db : DB) :
  goals_keyed db ->
  let first := GoalRepository.checkGoalCompletion now1 userId db in
  GoalRepository.checkGoalCompletion now2 userId (snd first)
  = ([], snd first).
Proof.
  intros Hk first.
  assert (Hnone : filter (GoalRepository.reached userId)
                    (financial_goals (snd first)) = []).
  { unfold first. rewrite checkGoalCompletion_table by exact Hk.
    induction (financial_goals db) as [|g l IH]; simpl; [reflexivity|].
    destruct (GoalRepository.reached userId g) eqn:E.
    - unfold GoalRepository.reached at 1. simpl.
      rewrite andb_false_r. simpl. exact IH.
    - rewrite E. exact IH. }
  unfold GoalRepository.checkGoalCompletion at 1.
  rewrite Hnone. reflexivity.
Qed.

Lemma checkGoalCompletion_reports_once_witness :
  let first := GoalRepository.checkGoalCompletion 86400000 "owner"
                 example_goal_db in
  GoalRepository.checkGoalCompletion 172800000 "owner" (snd first)
  = ([], snd first).
Proof.
  apply (@checkGoalCompletion_reports_once 86400000 172800000 "owner"
           example_goal_db).
  split.
  - simpl. repeat constructor; simpl; intuition discriminate.
  - simpl. intros g [<-|[<-|[]]]; discriminate.
Defined.

Lemma find_by_id (l : list FinancialGoal.t) (g : FinancialGoal.t) :
  NoDup (map FinancialGoal.id l) -> In g l ->
  find (fun x => (FinancialGoal.id x =? FinancialGoal.id g)%nat) l = Some g.
Proof.
  induction l as [|x l IH]; simpl; intros Hnd Hin; [contradiction|].
  inversion Hnd as [|? ? Hnotin Hnd']; subst.
  destruct Hin as [->|Hin].
  - now rewrite Nat.eqb_refl.
  - destruct (FinancialGoal.id x =? FinancialGoal.id g)%nat eqn:E.
    + apply Nat.eqb_eq in E. exfalso. apply Hnotin. rewrite E.
      now apply in_map.
    + auto.
Qed.

Lemma updateGoalProgress_ids (now : Z) (goalId : nat) (amount : Q) (db : DB) :
  map FinancialGoal.id
    (financial_goals (GoalRepository.updateGoalProgress now goalId amount db))
  = map FinancialGoal.id (financial_goals db).
Proof.
  unfold GoalRepository.updateGoalProgress. simpl. rewrite map_map.
  apply map_ext. intro g.
  destruct (FinancialGoal.id g =? goalId)%nat; reflexivity.
Qed.

Lemma updateGoalProgress_keyed (now : Z) (goalId : nat) (amount : Q)
  (db : DB) :
  goals_keyed db ->
  goals_keyed (GoalRepository.updateGoalProgress now goalId amount db).
Proof.
  intros [Hnd Hnz]. split.
  - now rewrite updateGoalProgress_ids.
  - intros g Hg. unfold GoalRepository.updateGoalProgress in Hg. simpl in Hg.
    apply in_map_iff in Hg. destruct Hg as (x & <- & Hx).
    destruct (FinancialGoal.id x =? goalId)%nat; simpl; auto.
Qed.

Lemma updateGoalProgress_others (now : Z) (goalId : nat) (amount : Q)
  (db : DB) (i : nat) :
  i <> goalId ->
  GoalRepository.getGoalById i
    (GoalRepository.updateGoalProgress now goalId amount db)
  = GoalRepository.getGoalById i db.
Proof.
  intro Hi. unfold GoalRepository.getGoalById,
    GoalRepository.updateGoalProgress. simpl.
  induction (financial_goals db) as [|x l IH]; simpl; [reflexivity|].
  destruct (FinancialGoal.id x =? goalId)%nat eqn:E; simpl.
  - apply Nat.eqb_eq in E.
    replace (FinancialGoal.id x =? i)%nat with false
      by (symmetry; apply Nat.eqb_neq; congruence).
    exact IH.
  - destruct (FinancialGoal.id x =? i)%nat; [reflexivity|exact IH].
Qed.

(** X9.  Raising the current amount of an active goal to its target or
    above with [updateGoalProgress] makes the next [checkGoalCompletion]
    of its owner return the goal with the new amount and store it as
    completed; [getGoalById] then shows the completed row, and every
    other goal reads as before the update. *)
Theorem updateGoalProgress_then_completion (now1 now2 : Z) (userId : string)
  (db : DB) (g : FinancialGoal.t) (amount : Q) :
  goals_keyed db ->
  In g (financial_goals db) ->
  FinancialGoal.user_id g = userId ->
  FinancialGoal.status g = active ->
  FinancialGoal.target_amount g <= amount ->
  let updated :=
    FinancialGoal.mk (FinancialGoal.id g) userId (FinancialGoal.goal_type g)
      (FinancialGoal.target_amount g) amount (FinancialGoal.deadline g)
      (FinancialGoal.description g) active (FinancialGoal.created_at g)
      now1 in
  let db1 :=
    GoalRepository.updateGoalProgress now1 (FinancialGoal.id g) amount db in
  let result := GoalRepository.checkGoalCompletion now2 userId db1 in
  GoalRepository.getGoalById (FinancialGoal.id g) db1 = Some updated
  /\ In updated (fst result)
  /\ GoalRepository.getGoalById (FinancialGoal.id g) (snd result)
     = Some (FinancialGoal.complete now2 updated)
  /\ forall i, i <> FinancialGoal.id g ->
               GoalRepository.getGoalById i db1
               = GoalRepository.getGoalById i db.
Proof.
  intros Hk Hin Hu Hs Hreach updated db1 result.
  assert (Hk1 : goals_keyed db1) by now apply updateGoalProgress_keyed.
  assert (Hin1 : In updated (financial_goals db1)).
  { unfold db1, GoalRepository.updateGoalProgress. simpl.
    apply in_map_iff. exists g. split; [|exact Hin].
    rewrite Nat.eqb_refl. unfold updated. now rewrite Hu, Hs. }
  assert (Hr : GoalRepository.reached userId updated = true).
  { unfold GoalRepository.reached, updated. simpl.
    rewrite String.eqb_refl. simpl. now apply geb_true_iff. }
  split; [|split; [|split]].
  - unfold GoalRepository.getGoalById.
    change (FinancialGoal.id g) with (FinancialGoal.id updated).
    apply find_by_id; [apply Hk1|exact Hin1].
  - unfold result, GoalRepository.checkGoalCompletion. simpl.
    apply filter_In. auto.
  - unfold GoalRepository.getGoalById, result.
    rewrite checkGoalCompletion_table by exact Hk1.
    change (FinancialGoal.id g)
      with (FinancialGoal.id (FinancialGoal.complete now2 updated)).
    apply find_by_id.
    + rewrite map_map. destruct Hk1 as [Hnd _].
      erewrite map_ext; [exact Hnd|].
      intro x. destruct (GoalRepository.reached userId x); reflexivity.
    + apply in_map_iff. exists updated. now rewrite Hr.
  - intros i Hi. now apply updateGoalProgress_others.
Qed.

Lemma updateGoalProgress_then_completion_witness :
  let g := FinancialGoal.mk 2 "owner" revenue_goal 500 200 None None active
             0 0 in
  let updated := FinancialGoal.mk 2 "owner" revenue_goal 500 600 None None
                   active 0 86400000 in
  let db1 := GoalRepository.updateGoalProgress 86400000 2 600
               example_goal_db in
  let result := GoalRepository.checkGoalCompletion 172800000 "owner" db1 in
  GoalRepository.getGoalById 2 db1 = Some updated
  /\ In updated (fst result)
  /\ GoalRepository.getGoalById 2 (snd result)
     = Some (FinancialGoal.complete 172800000 updated)
  /\ forall i, i <> 2%nat ->
               GoalRepository.getGoalById i db1
               = GoalRepository.getGoalById i example_goal_db.
Proof.
  apply (@updateGoalProgress_then_completion 86400000 172800000 "owner"
           example_goal_db
           (FinancialGoal.mk 2 "owner" revenue_goal 500 200 None None active
              0 0) 600).
  - split.
    + simpl. repeat constructor; simpl; intuition discriminate.
    + simpl. intros g [<-|[<-|[]]]; discriminate.
  - simpl. auto.
  - reflexivity.
  - reflexivity.
  - simpl. discriminate.
Defined.

Lemma ceil_days_monotone (a b : Z) :
  (a <= b)%Z -> (GoalRepository.ceil_days a <= GoalRepository.ceil_days b)%Z.
Proof.
  intro H. unfold GoalRepository.ceil_days, Js.ceil.
  apply Qceiling_resp_le. unfold Qdiv.
  apply Qmult_le_compat_r.
  - now rewrite <- Zle_Qle.
  - unfold Date.ms_per_day. discriminate.
Qed.

(** X10.  As the clock advances, the progress report of a goal can only
    slip: the days remaining do not grow, the percentage and the
    remaining amount stay as they are, and a goal that is on track at
    the later instant was on track at the earlier one. *)
Theorem goal_progress_only_slips (now1 now2 : Z) (goal : FinancialGoal.t) :
  (now1 <= now2)%Z ->
  let early := GoalRepository.progress_of now1 goal in
  let late := GoalRepository.progress_of now2 goal in
  GoalProgress.progress_percentage late = GoalProgress.progress_percentage early
  /\ GoalProgress.remaining_amount late = GoalProgress.remaining_amount early
  /\ (forall d1 d2,
        GoalProgress.days_remaining early = Some d1 ->
        GoalProgress.days_remaining late = Some d2 -> (d2 <= d1)%Z)
  /\ (GoalProgress.on_track late = true ->
      GoalProgress.on_track early = true).
Proof.
  intros Hle early late. unfold early, late, GoalRepository.progress_of.
  destruct (FinancialGoal.deadline goal) as [d|]; simpl.
  - split; [reflexivity|]. split; [reflexivity|]. split.
    + intros d1 d2 H1 H2. injection H1 as <-. injection H2 as <-.
      apply ceil_days_monotone. lia.
    + set (pct := if Js.gtb (FinancialGoal.target_amount goal) 0
                  then _ else 0).
      set (total := GoalRepository.ceil_days
                      (Date.getTime d - FinancialGoal.created_at goal)).
      rewrite !geb_true_iff. intro H.
      eapply Qle_trans; [|exact H].
      apply Qmult_le_compat_r; [|discriminate].
      destruct (0 <? total)%Z eqn:E; [|apply Qle_refl].
      apply Z.ltb_lt in E.
      apply Qmult_le_compat_r; [|discriminate].
      unfold Qdiv. apply Qmult_le_compat_r.
      * rewrite <- Zle_Qle. apply ceil_days_monotone. lia.
      * apply Qlt_le_weak, Qinv_lt_0_compat.
        change 0 with (inject_Z 0). now rewrite <- Zlt_Qlt.
  - split; [reflexivity|]. split; [reflexivity|]. split.
    + intros d1 d2 H1. discriminate.
    + auto.
Qed.

Lemma goal_progress_only_slips_witness :
  let goal := FinancialGoal.mk 1 "owner" savings_goal 1000 740
                (Some (Date.mk 2025 3 31)) None active
                (Date.getTime (Date.mk 2025 1 1) + 43200000)%Z 0 in
  let early := GoalRepository.progress_of mid_march goal in
  let late := GoalRepository.progress_of morning goal in
  GoalProgress.progress_percentage late = GoalProgress.progress_percentage early
  /\ GoalProgress.remaining_amount late = GoalProgress.remaining_amount early
  /\ (forall d1 d2,
        GoalProgress.days_remaining early = Some d1 ->
        GoalProgress.days_remaining late = Some d2 -> (d2 <= d1)%Z)
  /\ (GoalProgress.on_track late = true ->
      GoalProgress.on_track early = true).
Proof.
  apply (@goal_progress_only_slips mid_march morning
           (FinancialGoal.mk 1 "owner" savings_goal 1000 740
              (Some (Date.mk 2025 3 31)) None active
              (Date.getTime (Date.mk 2025 1 1) + 43200000)%Z 0)).
  vm_compute. discriminate.
Defined.

(** ** The next expected date *)

Ltac lia_div := Z.to_euclidean_division_equations; lia.

Lemma yoe_of_range (doe : Z) :
  (0 <= doe < 146097)%Z ->
  (0 <= yoe_of doe <= 399 /\ 0 <= doy_of doe <= 365)%Z.
Proof. intros H. unfold doy_of, yoe_of. lia_div. Qed.

Lemma mp_of_range (doe : Z) :
  (0 <= doy_of doe <= 365)%Z ->
  (0 <= mp_of doe <= 11
   /\ (153 * mp_of doe + 2) / 5 <= doy_of doe
      <= (153 * mp_of doe + 2) / 5 + 30)%Z.
Proof.
  intros H. unfold mp_of. generalize dependent (doy_of doe). intros.
  lia_div.
Qed.

Lemma of_days_fields (z : Z) :
  let doe := ((z + 719468) mod 146097)%Z in
  Date.of_days z
  = Date.mk (yoe_of doe + (z + 719468) / 146097 * 400
             + (if mp_of doe <? 10 then 0 else 1))%Z
            (if mp_of doe <? 10 then mp_of doe + 3 else mp_of doe - 9)%Z
            (doy_of doe - (153 * mp_of doe + 2) / 5 + 1)%Z.
Proof.
  intros doe. unfold Date.of_days.
  assert (E : (z + 719468 - (z + 719468) / 146097 * 146097 = doe)%Z).
  { unfold doe. rewrite Z.mod_eq by lia. lia. }
  rewrite E. fold (yoe_of doe). fold (doy_of doe). fold (mp_of doe).
  assert (R : (0 <= doe < 146097)%Z)
    by (unfold doe; apply Z.mod_pos_bound; lia).
  destruct (@yoe_of_range doe R) as [_ Hd].
  destruct (@mp_of_range doe Hd) as [[K3 K4] _].
  destruct (mp_of doe <? 10)%Z eqn:M.
  - apply Z.ltb_lt in M.
    replace (mp_of doe + 3 <=? 2)%Z with false
      by (symmetry; apply Z.leb_gt; lia).
    reflexivity.
  - apply Z.ltb_ge in M.
    replace (mp_of doe - 9 <=? 2)%Z with true
      by (symmetry; apply Z.leb_le; lia).
    reflexivity.
Qed.

(** The day count of the date of a day count is that day count. *)
Lemma to_days_of_days (z : Z) : Date.to_days (Date.of_days z) = z.
Proof.
  rewrite of_days_fields. cbv zeta.
  set (doe := ((z + 719468) mod 146097)%Z).
  assert (R : (0 <= doe < 146097)%Z)
    by (unfold doe; apply Z.mod_pos_bound; lia).
  destruct (@yoe_of_range doe R) as [[K1 K2] Hd].
  destruct (@mp_of_range doe Hd) as [[K3 K4] [K5 K6]].
  assert (E : (z + 719468 = (z + 719468) / 146097 * 146097 + doe)%Z).
  { unfold doe. rewrite Z.mod_eq by lia. lia. }
  set (era := ((z + 719468) / 146097)%Z) in *.
  unfold Date.to_days. cbn [Date.year Date.month Date.day].
  unfold doy_of in *.
  set (yoe := yoe_of doe) in *. set (mp := mp_of doe) in *.
  destruct (mp <? 10)%Z eqn:M.
  - apply Z.ltb_lt in M.
    replace (mp + 3 - 1)%Z with (mp + 2)%Z by lia.
    rewrite (Z.mod_small (mp + 2)) by lia.
    rewrite (Z.div_small (mp + 2)) by lia.
    replace (mp + 2 <? 2)%Z with false by (symmetry; apply Z.ltb_ge; lia).
    replace ((yoe + era * 400 + 0 + 0) / 400)%Z with era
      by (apply Z.div_unique with (r := yoe); lia).
    replace (yoe + era * 400 + 0 + 0 - era * 400)%Z with yoe by lia.
    replace (mp + 2 - 2)%Z with mp by lia. lia.
  - apply Z.ltb_ge in M.
    replace (mp - 9 - 1)%Z with (mp - 10)%Z by lia.
    rewrite (Z.mod_small (mp - 10)) by lia.
    rewrite (Z.div_small (mp - 10)) by lia.
    replace (mp - 10 <? 2)%Z with true by (symmetry; apply Z.ltb_lt; lia).
    replace ((yoe + era * 400 + 1 + 0 - 1) / 400)%Z with era
      by (apply Z.div_unique with (r := yoe); lia).
    replace (yoe + era * 400 + 1 + 0 - 1 - era * 400)%Z with yoe by lia.
    replace (mp - 10 + 10)%Z with mp by lia. lia.
Qed.

Lemma to_days_split (y m d : Z) :
  let r := ((m - 1) mod 12)%Z in
  let q := ((m - 1) / 12)%Z in
  Date.to_days (Date.mk y m d)
  = (year_start (if r <? 2 then y + q - 1 else y + q)
     + month_start (if r <? 2 then r + 10 else r - 2) + (d - 1) - 719468)%Z.
Proof.
  intros r q. unfold Date.to_days, year_start, month_start.
  cbn [Date.year Date.month Date.day].
  fold r. fold q. destruct (r <? 2)%Z; lia.
Qed.

Lemma year_length (y : Z) :
  (365 <= year_start (y + 1) - year_start y <= 366)%Z.
Proof. unfold year_start. lia_div. Qed.

Lemma month_cases (m : Z) :
  let r := ((m - 1) mod 12)%Z in
  (0 <= r < 12 /\ m - 1 = 12 * ((m - 1) / 12) + r)%Z.
Proof. intros r. unfold r. lia_div. Qed.

Lemma shift_month (m k r q : Z) :
  (0 <= r < 12)%Z -> (m - 1 = 12 * q + r)%Z -> (0 <= r + k < 12)%Z ->
  ((m + k - 1) mod 12 = r + k /\ (m + k - 1) / 12 = q)%Z.
Proof. intros. lia_div. Qed.

Lemma wrap_month (m k r q : Z) :
  (0 <= r < 12)%Z -> (m - 1 = 12 * q + r)%Z -> (12 <= r + k < 24)%Z ->
  ((m + k - 1) mod 12 = r + k - 12 /\ (m + k - 1) / 12 = q + 1)%Z.
Proof. intros. lia_div. Qed.

(** Split both dates of a shift by [k] months, and go through the
    twelve months the first may be. *)
Ltac month_shift m k :=
  rewrite (to_days_split _ (m + k) _), (to_days_split _ m _); cbv zeta;
  destruct (month_cases m) as [R E];
  generalize dependent ((m - 1) mod 12)%Z; generalize ((m - 1) / 12)%Z;
  intros q0 r0 R E;
  assert (C : (r0 = 0 \/ r0 = 1 \/ r0 = 2 \/ r0 = 3 \/ r0 = 4 \/ r0 = 5
               \/ r0 = 6 \/ r0 = 7 \/ r0 = 8 \/ r0 = 9 \/ r0 = 10
               \/ r0 = 11)%Z) by lia;
  repeat (destruct C as [C|C]); subst r0;
  (destruct (@shift_month m k _ _ R E ltac:(lia)) as [-> ->]
   || destruct (@wrap_month m k _ _ R E ltac:(lia)) as [-> ->]);
  repeat match goal with
         | |- context [if ?c then _ else _] =>
             let b := eval vm_compute in c in change c with b; cbv iota
         end;
  unfold month_start.

Lemma month_step (y m d : Z) :
  (28 <= Date.to_days (Date.mk y (m + 1) d) - Date.to_days (Date.mk y m d)
   <= 31)%Z.
Proof.
  month_shift m 1%Z.
  all: try (pose proof (year_length (y + q0 - 1));
            replace (y + q0 - 1 + 1)%Z with (y + q0)%Z in * by lia).
  all: try (pose proof (year_length (y + q0));
            replace (y + (q0 + 1) - 1)%Z with (y + q0)%Z in * by lia).
  all: lia_div.
Qed.

Lemma quarter_step (y m d : Z) :
  (89 <= Date.to_days (Date.mk y (m + 3) d) - Date.to_days (Date.mk y m d)
   <= 92)%Z.
Proof.
  month_shift m 3%Z.
  all: try (pose proof (year_length (y + q0 - 1));
            replace (y + q0 - 1 + 1)%Z with (y + q0)%Z in * by lia).
  all: try (pose proof (year_length (y + q0));
            replace (y + (q0 + 1) - 1)%Z with (y + q0)%Z in * by lia).
  all: try replace (y + (q0 + 1))%Z with (y + q0 + 1)%Z in * by lia.
  all: lia_div.
Qed.

Lemma year_step (y m d : Z) :
  (365 <= Date.to_days (Date.mk (y + 1) m d) - Date.to_days (Date.mk y m d)
   <= 366)%Z.
Proof.
  rewrite (to_days_split (y + 1) m d), (to_days_split y m d). cbv zeta.
  destruct ((m - 1) mod 12 <? 2)%Z.
  - pose proof (year_length (y + (m - 1) / 12 - 1)).
    replace (y + 1 + (m - 1) / 12 - 1)%Z
      with (y + (m - 1) / 12 - 1 + 1)%Z by lia. lia.
  - pose proof (year_length (y + (m - 1) / 12)).
    replace (y + 1 + (m - 1) / 12)%Z
      with (y + (m - 1) / 12 + 1)%Z by lia. lia.
Qed.

Lemma classify_whole_days (n : Z) :
  FinancialIntelligenceService.classify_frequency (inject_Z n)
  = if (n <=? 2)%Z then daily
    else if (n <=? 9)%Z then weekly
    else if (n <=? 40)%Z then monthly
    else if (n <=? 120)%Z then quarterly
    else yearly.
Proof.
  assert (H : forall k : Z, Js.leb (inject_Z n) (inject_Z k) = (n <=? k)%Z).
  { intro k. apply eq_true_iff_eq.
    rewrite leb_true_iff, Z.leb_le, <- Zle_Qle. reflexivity. }
  unfold FinancialIntelligenceService.classify_frequency.
  change 2 with (inject_Z 2). change 9 with (inject_Z 9).
  change 40 with (inject_Z 40). change 120 with (inject_Z 120).
  now rewrite !H.
Qed.

(** X11.  [calculateNextExpected] moves a date forward by 1 day for a
    daily pattern, 7 days for a weekly one, 28 to 31 days for a monthly
    one, 89 to 92 for a quarterly one and 365 or 366 for a yearly one;
    so the step it takes is a gap that the frequency cascade of
    [detectRecurringPatterns] classifies as the same frequency. *)
Theorem calculateNextExpected_step (lastDate : Date.t)
  (frequency : Frequency) :
  match frequency with
  | daily => step_days lastDate frequency = 1%Z
  | weekly => step_days lastDate frequency = 7%Z
  | monthly => (28 <= step_days lastDate frequency <= 31)%Z
  | quarterly => (89 <= step_days lastDate frequency <= 92)%Z
  | yearly => (365 <= step_days lastDate frequency <= 366)%Z
  end
  /\ FinancialIntelligenceService.classify_frequency
       (inject_Z (step_days lastDate frequency))
     = frequency.
Proof.
  assert (Hstep :
    match frequency with
    | daily => step_days lastDate frequency = 1%Z
    | weekly => step_days lastDate frequency = 7%Z
    | monthly => (28 <= step_days lastDate frequency <= 31)%Z
    | quarterly => (89 <= step_days lastDate frequency <= 92)%Z
    | yearly => (365 <= step_days lastDate frequency <= 366)%Z
    end).
  { unfold step_days, FinancialIntelligenceService.calculateNextExpected.
    rewrite to_days_of_days. destruct lastDate as [y m d].
    cbn [Date.year Date.month Date.day]. destruct frequency.
    - unfold Date.to_days. cbn [Date.year Date.month Date.day]. lia.
    - unfold Date.to_days. cbn [Date.year Date.month Date.day]. lia.
    - apply month_step.
    - apply quarter_step.
    - apply year_step. }
  split; [exact Hstep|].
  rewrite classify_whole_days.
  destruct frequency;
    repeat match goal with
           | |- context [(?a <=? ?b)%Z] => destruct (Z.leb_spec a b)
           end; try reflexivity; lia.
Qed.

(** ** What a monitoring run leaves behind *)

Section Coverage.
Context {fmt : NumberFormat}.
Variables (now : Z) (userId : string).

Lemma stored_listed (a : Alert.t) (d : DB) :
  Alert.user_id a = userId ->
  Alert.read a = 0%nat -> Alert.dismissed a = 0%nat ->
  In (stored now (Sql.next_id (map Alert.id (alerts d))) a)
     (AlertRepository.getAlerts userId false false
        (snd (AlertRepository.createAlert now a d))).
Proof.
  intros Hu Hr Hd. apply getAlerts_In. simpl.
  split; [apply in_or_app; simpl; auto|]. auto.
Qed.

Lemma monitorCashBalance_covers (threshold : Q) (d : DB) :
  FinancialSummary.profit
    (TransactionRepository.getFinancialSummary userId d) < threshold ->
  exists a,
    In a (AlertRepository.getAlerts userId false false
            (NotificationService.monitorCashBalance now userId threshold d))
    /\ Alert.alert_type a = low_cash
    /\ NotificationService.createdToday now a = true.
Proof.
  intro Hlow. unfold NotificationService.monitorCashBalance.
  apply ltb_true_iff in Hlow. rewrite Hlow.
  destruct (existsb _ _) eqn:E; cbn [negb].
  - apply existsb_exists in E. destruct E as (a & Ha & Hp).
    apply andb_true_iff in Hp. destruct Hp as [Hty Hday].
    exists a. split; [exact Ha|]. split; [|exact Hday].
    destruct (Alert.alert_type a); try discriminate. reflexivity.
  - eexists. split; [apply stored_listed; reflexivity|].
    split; [reflexivity|]. apply createdToday_stored.
Qed.

Lemma monitor_budget_covers (v : BudgetVariance.t) (d : DB) :
  plain (Budget.category (BudgetVariance.budget v)) ->
  exists a,
    In a (AlertRepository.getAlerts userId false false
            (NotificationService.monitor_budget now userId d v))
    /\ Alert.alert_type a = budget_overrun
    /\ NotificationService.dataIncludes a
         (Budget.category (BudgetVariance.budget v)) = true
    /\ NotificationService.createdToday now a = true.
Proof.
  intro Hplain. unfold NotificationService.monitor_budget,
    NotificationService.hasRecentBudgetAlert.
  destruct (existsb _ _) eqn:E; cbn [negb].
  - apply existsb_exists in E. destruct E as (a & Ha & Hp).
    rewrite !andb_true_iff in Hp. destruct Hp as [[Hty Hdata] Hday].
    exists a. split; [exact Ha|]. split; [|auto].
    destruct (Alert.alert_type a); try discriminate. reflexivity.
  - eexists. split; [apply stored_listed; reflexivity|].
    split; [reflexivity|]. split.
    + now apply budget_alert_self.
    + apply createdToday_stored.
Qed.

Lemma monitorBudgets_covers (l : list BudgetVariance.t) :
  forall d v,
    In v l ->
    plain (Budget.category (BudgetVariance.budget v)) ->
    exists a,
      In a (AlertRepository.getAlerts userId false false
              (fold_left (NotificationService.monitor_budget now userId) l d))
      /\ Alert.alert_type a = budget_overrun
      /\ NotificationService.dataIncludes a
           (Budget.category (BudgetVariance.budget v)) = true
      /\ NotificationService.createdToday now a = true.
Proof.
  induction l as [|x l IH]; intros d v Hin Hplain; simpl; [destruct Hin|].
  destruct Hin as [->|Hin].
  - destruct (@monitor_budget_covers v d Hplain) as (a & Ha & H).
    exists a. split; [|exact H].
    eapply getAlerts_extends; [|exact Ha].
    apply extending_fold. intros y _. apply monitor_budget_extending.
  - now apply IH.
Qed.

End Coverage.

(** X12.  After [runAllMonitoring], whatever was stored before: when
    the balance is under 5000 the user has an unread, undismissed
    low-cash alert created today; for every budget variance that needs
    an alert and whose category JSON prints as it is, an unread,
    undismissed budget alert created today holds the category in its
    data; and every flagged transaction has an unreviewed anomaly
    row. *)
Theorem runAllMonitoring_leaves_alerts {fmt : NumberFormat} (now : Z)
  (userId : string) (db : DB) :
  let db' := NotificationService.runAllMonitoring now userId db in
  (FinancialSummary.profit
     (TransactionRepository.getFinancialSummary userId db) < 5000 ->
   exists a,
     In a (AlertRepository.getAlerts userId false false db')
     /\ Alert.alert_type a = low_cash
     /\ NotificationService.createdToday now a = true)
  /\ (forall v,
        In v (BudgetRepository.checkBudgetAlerts now userId db) ->
        plain (Budget.category (BudgetVariance.budget v)) ->
        exists a,
          In a (AlertRepository.getAlerts userId false false db')
          /\ Alert.alert_type a = budget_overrun
          /\ NotificationService.dataIncludes a
               (Budget.category (BudgetVariance.budget v)) = true
          /\ NotificationService.createdToday now a = true)
  /\ (forall t,
        In t (TransactionRepository.getAnomalousTransactions userId 3 db) ->
        Transaction.id t <> 0%nat ->
        recorded userId (Transaction.id t) db').
Proof.
  intro db'. unfold db', NotificationService.runAllMonitoring.
  set (db1 := NotificationService.monitorCashBalance now userId 5000 db).
  set (db2 := NotificationService.monitorBudgets now userId db1).
  set (db3 := NotificationService.monitorGoals now userId db2).
  set (db4 := NotificationService.monitorTrends now userId db3).
  assert (E1 : extends db db1)
    by apply (@monitorCashBalance_extending fmt userId now 5000).
  assert (E2 : extends db1 db2)
    by apply (@monitorBudgets_extending fmt userId now).
  assert (E3 : extends db2 db3)
    by apply (@monitorGoals_extending fmt userId now).
  assert (E4 : extends db3 db4)
    by apply (@monitorTrends_extending fmt userId now).
  assert (E5 : extends db4
                 (FinancialIntelligenceService.detectAnomalies now userId db4))
    by apply (@detectAnomalies_extending fmt userId now).
  split; [|split].
  - intro Hlow.
    destruct (@monitorCashBalance_covers fmt now userId 5000 db Hlow)
      as (a & Ha & H).
    exists a. split; [|exact H].
    eapply getAlerts_extends; [|exact Ha].
    eapply extends_trans; [exact E2|].
    eapply extends_trans; [exact E3|].
    eapply extends_trans; [exact E4|exact E5].
  - intros v Hv Hplain.
    assert (Hv1 : In v (BudgetRepository.checkBudgetAlerts now userId db1)).
    { destruct (extends_tables E1) as (Ht & Hb & _).
      rewrite (@checkBudgetAlerts_same now now userId
                 (Z.eqb_refl _) db db1 Ht Hb).
      exact Hv. }
    destruct (@monitorBudgets_covers fmt now userId _ db1 v Hv1 Hplain)
      as (a & Ha & H).
    exists a. split; [|exact H].
    eapply getAlerts_extends; [|exact Ha].
    eapply extends_trans; [exact E3|].
    eapply extends_trans; [exact E4|exact E5].
  - intros t Ht Hid.
    assert (Hrows : transactions db4 = transactions db).
    { destruct (extends_tables E1) as (T1 & _).
      destruct (extends_tables E2) as (T2 & _).
      destruct (extends_tables E3) as (T3 & _).
      destruct (extends_tables E4) as (T4 & _). congruence. }
    unfold FinancialIntelligenceService.detectAnomalies.
    destruct (detect_loop userId now
                (TransactionRepository.getAnomalousTransactions userId 3 db4)
                db4) as (newA & newAl & _ & _ & _ & _ & _ & Hrec).
    apply Hrec; [|exact Hid].
    now rewrite (getAnomalousTransactions_same_rows userId 3 db db4 Hrows).
Qed.

(** ** Reviewing an anomaly *)

Section Review.
Context {fmt : NumberFormat}.
Variable userId : string.

(** The loop of [detectAnomalies] appends as many alerts as anomaly
    rows. *)
Lemma detect_pairs (now : Z) (l : list Transaction.t) :
  forall db,
    let db' :=
      fold_left (FinancialIntelligenceService.record_anomaly now userId) l
        db in
    exists n,
      List.length (anomalies db') = (List.length (anomalies db) + n)%nat
      /\ List.length (alerts db') = (List.length (alerts db) + n)%nat.
Proof.
  induction l as [|t l IH]; intro db; simpl.
  - exists 0%nat. lia.
  - destruct (IH (FinancialIntelligenceService.record_anomaly now userId db t))
      as (n & HA & HAl).
    destruct (record_anomaly_cases userId now db t)
      as [[Hsame _]|(_ & _ & a & al & Ha & Hal & _)].
    + rewrite Hsame in *. exists n. auto.
    + exists (S n). rewrite HA, HAl, Ha, Hal, !length_app. simpl. lia.
Qed.

Lemma markAnomalyAsReviewed_clears (anomalyId : nat) (isFalsePositive : bool)
  (db : DB) (i : nat) :
  (forall a, In a (anomalies db) -> Anomaly.user_id a = userId ->
             Anomaly.transaction_id a = Some i ->
             Anomaly.reviewed a = 0%nat -> Anomaly.id a = anomalyId) ->
  ~ recorded userId i
      (AlertRepository.markAnomalyAsReviewed anomalyId isFalsePositive db).
Proof.
  intros Honly (a & Ha & Hu & Hr & Ht).
  unfold AlertRepository.markAnomalyAsReviewed in Ha. simpl in Ha.
  apply in_map_iff in Ha. destruct Ha as (x & Hx & Hin).
  destruct (Anomaly.id x =? anomalyId)%nat eqn:E.
  - subst a. simpl in Hr. discriminate.
  - subst a. apply Nat.eqb_neq in E. apply E. now apply Honly.
Qed.

End Review.

(** X13.  Reviewing an anomaly does not silence its transaction: once
    the unreviewed anomaly row of a flagged transaction is marked as
    reviewed (false positive or not), the transaction has no
    unreviewed row left, and the next [detectAnomalies] records it
    again, appending at least one anomaly row and, as for every row it
    appends, one alert. *)
Theorem reviewed_anomaly_is_recorded_again {fmt : NumberFormat} (now : Z)
  (userId : string) (db : DB) (anomalyId : nat) (isFalsePositive : bool)
  (t : Transaction.t) :
  In t (TransactionRepository.getAnomalousTransactions userId 3 db) ->
  Transaction.id t <> 0%nat ->
  (forall a, In a (anomalies db) -> Anomaly.user_id a = userId ->
             Anomaly.transaction_id a = Some (Transaction.id t) ->
             Anomaly.reviewed a = 0%nat -> Anomaly.id a = anomalyId) ->
  let reviewed :=
    AlertRepository.markAnomalyAsReviewed anomalyId isFalsePositive db in
  let db' := FinancialIntelligenceService.detectAnomalies now userId reviewed in
  ~ recorded userId (Transaction.id t) reviewed
  /\ recorded userId (Transaction.id t) db'
  /\ (exists n,
        (0 < n)%nat
        /\ List.length (anomalies db') = (List.length (anomalies db) + n)%nat
        /\ List.length (alerts db') = (List.length (alerts db) + n)%nat).
Proof.
  intros Hflag Hid Honly reviewed db'.
  assert (Hnot : ~ recorded userId (Transaction.id t) reviewed)
    by now apply markAnomalyAsReviewed_clears.
  assert (Hflag' : In t (TransactionRepository.getAnomalousTransactions
                           userId 3 reviewed)).
  { now rewrite (getAnomalousTransactions_same_rows userId 3 db reviewed
                   eq_refl). }
  unfold db', FinancialIntelligenceService.detectAnomalies.
  destruct (detect_loop userId now
              (TransactionRepository.getAnomalousTransactions userId 3
                 reviewed) reviewed)
    as (newA & newAl & HA & _ & _ & _ & _ & Hrec).
  specialize (Hrec t Hflag' Hid).
  split; [exact Hnot|]. split; [exact Hrec|].
  destruct (detect_pairs userId now
              (TransactionRepository.getAnomalousTransactions userId 3
                 reviewed) reviewed) as (n & Hn & Hal).
  exists n.
  assert (Hlen : List.length (anomalies reviewed)
                 = List.length (anomalies db)).
  { unfold reviewed, AlertRepository.markAnomalyAsReviewed. simpl.
    apply length_map. }
  split; [|split; [now rewrite Hn, Hlen|exact Hal]].
  destruct n as [|n]; [|lia]. exfalso. apply Hnot.
  rewrite HA, length_app in Hn.
  assert (HnewA : newA = []) by (destruct newA; [reflexivity|simpl in Hn; lia]).
  rewrite HnewA, app_nil_r in HA.
  destruct Hrec as (a & Ha & H). exists a. split; [|exact H].
  now rewrite <- HA.
Qed.

Lemma reviewed_anomaly_is_recorded_again_witness :
  let db :=
    FinancialIntelligenceService.detectAnomalies (fmt := EnUS.format)
      mid_march "owner" mixed_office_db in
  let reviewed := AlertRepository.markAnomalyAsReviewed 1 false db in
  let db' :=
    FinancialIntelligenceService.detectAnomalies (fmt := EnUS.format)
      mid_march_later "owner" reviewed in
  ~ recorded "owner" 5 reviewed
  /\ recorded "owner" 5 db'
  /\ (exists n,
        (0 < n)%nat
        /\ List.length (anomalies db') = (List.length (anomalies db) + n)%nat
        /\ List.length (alerts db') = (List.length (alerts db) + n)%nat).
Proof.
  apply (@reviewed_anomaly_is_recorded_again EnUS.format mid_march_later
           "owner"
           (FinancialIntelligenceService.detectAnomalies
              (fmt := EnUS.format) mid_march "owner" mixed_office_db)
           1%nat false desk_row).
  - vm_compute. auto.
  - discriminate.
  - intros a Ha _ _ _. vm_compute in Ha. destruct Ha as [<-|[]]. reflexivity.
Defined.

(** ** The alert handlers *)

Lemma same_id_iff (parsed : option Z) (rowId : nat) :
  Routes.same_id parsed rowId = true <-> parsed = Some (Z.of_nat rowId).
Proof.
  unfold Routes.same_id. destruct parsed as [z|].
  - rewrite Z.eqb_eq. split; [intros ->; reflexivity|].
    intro H. injection H. auto.
  - split; discriminate.
Qed.

Lemma passed_id_of_nat (rowId : nat) :
  Routes.passed_id (Some (Z.of_nat rowId)) = rowId.
Proof. unfold Routes.passed_id. apply Nat2Z.id. Qed.

Lemma alerts_same_id (db : DB) (a b : Alert.t) :
  alerts_keyed db -> In a (alerts db) -> In b (alerts db) ->
  Alert.id a = Alert.id b -> a = b.
Proof.
  unfold alerts_keyed. induction (alerts db) as [|x l IH]; simpl;
    intros Hnd Ha Hb Heq; [contradiction|].
  inversion Hnd as [|? ? Hnotin Hnd']; subst.
  destruct Ha as [->|Ha], Hb as [->|Hb]; auto.
  - exfalso. apply Hnotin. rewrite Heq. now apply in_map.
  - exfalso. apply Hnotin. rewrite <- Heq. now apply in_map.
Qed.

(** The lookup of the two handlers: the alert of the user with the
    parsed id, when there is one. *)
Lemma own_alert_lookup (authenticatedUserId : string) (parsed : option Z)
  (db : DB) :
  match find (fun a => Routes.same_id parsed (Alert.id a))
             (AlertRepository.getAlerts authenticatedUserId true true db)
  with
  | Some row =>
      In row (alerts db)
      /\ Alert.user_id row = authenticatedUserId
      /\ parsed = Some (Z.of_nat (Alert.id row))
  | None =>
      forall a, In a (alerts db) ->
                Alert.user_id a = authenticatedUserId ->
                parsed <> Some (Z.of_nat (Alert.id a))
  end.
Proof.
  destruct (find _ _) as [row|] eqn:E.
  - apply find_some in E. destruct E as [Hin Hid].
    apply getAlerts_In in Hin. destruct Hin as (Hin & Hu & _).
    apply same_id_iff in Hid. auto.
  - intros a Hin Hu Hid.
    assert (Hl : In a (AlertRepository.getAlerts authenticatedUserId true true
                         db)) by (apply getAlerts_In; auto).
    apply (find_none _ _ E) in Hl. apply same_id_iff in Hid. congruence.
Qed.

Lemma mark_read_nth (alertId : nat) (db : DB) (i : nat) (a : Alert.t) :
  nth_error (alerts db) i = Some a -> Alert.id a <> alertId ->
  nth_error (alerts (AlertRepository.markAlertAsRead alertId db)) i = Some a.
Proof.
  intros Hn Hid. unfold AlertRepository.markAlertAsRead. simpl.
  rewrite nth_error_map, Hn. simpl.
  apply Nat.eqb_neq in Hid. now rewrite Hid.
Qed.

Lemma dismiss_nth (alertId : nat) (db : DB) (i : nat) (a : Alert.t) :
  nth_error (alerts db) i = Some a -> Alert.id a <> alertId ->
  nth_error (alerts (AlertRepository.dismissAlert alertId db)) i = Some a.
Proof.
  intros Hn Hid. unfold AlertRepository.dismissAlert. simpl.
  rewrite nth_error_map, Hn. simpl.
  apply Nat.eqb_neq in Hid. now rewrite Hid.
Qed.

Lemma mark_read_hides (userId : string) (alertId : nat) (db : DB)
  (x : Alert.t) :
  In x (AlertRepository.getAlerts userId false false
          (AlertRepository.markAlertAsRead alertId db)) ->
  Alert.id x <> alertId.
Proof.
  intro H. apply getAlerts_In in H. destruct H as (Hin & _ & Hr & _).
  unfold AlertRepository.markAlertAsRead in Hin. simpl in Hin.
  apply in_map_iff in Hin. destruct Hin as (y & Hy & _).
  destruct (Alert.id y =? alertId)%nat eqn:E.
  - subst x. simpl in Hr. destruct Hr; discriminate.
  - subst x. now apply Nat.eqb_neq.
Qed.

Lemma dismiss_hides (userId : string) (alertId : nat) (db : DB)
  (x : Alert.t) :
  In x (AlertRepository.getAlerts userId false false
          (AlertRepository.dismissAlert alertId db)) ->
  Alert.id x <> alertId.
Proof.
  intro H. apply getAlerts_In in H. destruct H as (Hin & _ & _ & Hd).
  unfold AlertRepository.dismissAlert in Hin. simpl in Hin.
  apply in_map_iff in Hin. destruct Hin as (y & Hy & _).
  destruct (Alert.id y =? alertId)%nat eqn:E.
  - subst x. simpl in Hd. destruct Hd; discriminate.
  - subst x. now apply Nat.eqb_neq.
Qed.

(** X14.  The handlers that mark an alert as read and that dismiss it
    act on the caller's own alerts only.  Under the primary key of
    [alerts]: no alert of another user changes; an id that is not one
    of the caller's alerts is answered with 404 and changes nothing;
    for the id of one of the caller's alerts the handler succeeds and
    the alert leaves the default listing of unread, undismissed
    alerts. *)
Theorem alert_handlers_change_own_alerts_only
  (authenticatedUserId : string) (parsed : option Z) (db : DB) :
  alerts_keyed db ->
  let read := Routes.post_alert_read authenticatedUserId parsed db in
  let dismissed := Routes.post_alert_dismiss authenticatedUserId parsed db in
  (forall i a,
      nth_error (alerts db) i = Some a ->
      Alert.user_id a <> authenticatedUserId ->
      nth_error (alerts (snd read)) i = Some a
      /\ nth_error (alerts (snd dismissed)) i = Some a)
  /\ ((forall a, In a (alerts db) ->
                 Alert.user_id a = authenticatedUserId ->
                 parsed <> Some (Z.of_nat (Alert.id a))) ->
      read = (alert_not_found, db) /\ dismissed = (alert_not_found, db))
  /\ (forall a,
        In a (alerts db) ->
        Alert.user_id a = authenticatedUserId ->
        parsed = Some (Z.of_nat (Alert.id a)) ->
        fst read = Routes.Success "Alert marked as read"
        /\ fst dismissed = Routes.Success "Alert dismissed"
        /\ (forall x,
              In x (AlertRepository.getAlerts authenticatedUserId false false
                      (snd read)) ->
              Alert.id x <> Alert.id a)
        /\ (forall x,
              In x (AlertRepository.getAlerts authenticatedUserId false false
                      (snd dismissed)) ->
              Alert.id x <> Alert.id a)).
Proof.
  intros Hk read dismissed.
  pose proof (own_alert_lookup authenticatedUserId parsed db) as Hlook.
  unfold read, dismissed, Routes.post_alert_read, Routes.post_alert_dismiss.
  destruct (find _ _) as [row|] eqn:E.
  - destruct Hlook as (Hrow & Hu & Hp). subst parsed.
    rewrite passed_id_of_nat. cbn [fst snd].
    split; [|split].
    + intros i a Hn Hother.
      assert (Hid : Alert.id a <> Alert.id row).
      { intro Heq. apply Hother. rewrite <- Hu. f_equal.
        apply (@alerts_same_id db); auto.
        eapply nth_error_In; eauto. }
      split; [now apply mark_read_nth|now apply dismiss_nth].
    + intro Hnone. exfalso. now apply (Hnone row).
    + intros a Ha Hau Hp.
      assert (Hid : Alert.id a = Alert.id row).
      { injection Hp. intro H. symmetry. now apply Nat2Z.inj. }
      rewrite Hid. split; [reflexivity|]. split; [reflexivity|].
      split; intros x Hx.
      * eapply mark_read_hides; eauto.
      * eapply dismiss_hides; eauto.
  - cbn [fst snd]. split; [|split].
    + auto.
    + auto.
    + intros a Ha Hau Hp. exfalso. now apply (Hlook a).
Qed.

Lemma alert_handlers_change_own_alerts_only_witness :
  let db :=
    set_alerts
      [Alert.mk 1 "owner" low_cash warning "Low Cash Reserves" "low" None 0 0
         0;
       Alert.mk 2 "guest" low_cash warning "Low Cash Reserves" "low" None 0 0
         0]
      empty_db in
  let read := Routes.post_alert_read "owner" (Some 1%Z) db in
  let dismissed := Routes.post_alert_dismiss "owner" (Some 1%Z) db in
  (forall i a,
      nth_error (alerts db) i = Some a ->
      Alert.user_id a <> "owner" ->
      nth_error (alerts (snd read)) i = Some a
      /\ nth_error (alerts (snd dismissed)) i = Some a)
  /\ ((forall a, In a (alerts db) ->
                 Alert.user_id a = "owner" ->
                 Some 1%Z <> Some (Z.of_nat (Alert.id a))) ->
      read = (alert_not_found, db) /\ dismissed = (alert_not_found, db))
  /\ (forall a,
        In a (alerts db) ->
        Alert.user_id a = "owner" ->
        Some 1%Z = Some (Z.of_nat (Alert.id a)) ->
        fst read = Routes.Success "Alert marked as read"
        /\ fst dismissed = Routes.Success "Alert dismissed"
        /\ (forall x,
              In x (AlertRepository.getAlerts "owner" false false
                      (snd read)) ->
              Alert.id x <> Alert.id a)
        /\ (forall x,
              In x (AlertRepository.getAlerts "owner" false false
                      (snd dismissed)) ->
              Alert.id x <> Alert.id a)).
Proof.
  apply (@alert_handlers_change_own_alerts_only "owner" (Some 1%Z)
           (set_alerts
              [Alert.mk 1 "owner" low_cash warning "Low Cash Reserves" "low"
                 None 0 0 0;
               Alert.mk 2 "guest" low_cash warning "Low Cash Reserves" "low"
                 None 0 0 0]
              empty_db)).
  unfold alerts_keyed. simpl.
  repeat constructor; simpl; intuition discriminate.
Defined.

(** ** Clearing old alerts *)

Lemma filter_after_filter (A : Type) (p q : A -> bool) (l : list A) :
  (forall x, p x = true -> q x = true) ->
  filter p (filter q l) = filter p l.
Proof.
  intro H. induction l as [|x l IH]; simpl; [reflexivity|].
  destruct (q x) eqn:Eq; simpl.
  - now rewrite IH.
  - destruct (p x) eqn:Ep; [|exact IH].
    rewrite (H x Ep) in Eq. discriminate.
Qed.

(** X15.  [clearOldAlerts] deletes read or dismissed alerts only: the
    default listing of unread, undismissed alerts of every user (the
    one the monitors deduplicate against) is the same before and
    after; alerts of other users and alerts not older than [daysOld]
    days stay; nothing is added and no other table changes. *)
Theorem clearOldAlerts_keeps_default_listing (now : Z) (owner : string)
  (daysOld : Z) (db : DB) :
  let db' := AlertRepository.clearOldAlerts now owner daysOld db in
  (forall userId,
      AlertRepository.getAlerts userId false false db'
      = AlertRepository.getAlerts userId false false db)
  /\ (forall a,
        In a (alerts db) ->
        Alert.user_id a <> owner
        \/ (now / 1000 - daysOld * 86400 <= Alert.created_at a / 1000)%Z ->
        In a (alerts db'))
  /\ (forall a, In a (alerts db') -> In a (alerts db))
  /\ db' = set_alerts (alerts db') db.
Proof.
  intro db'. unfold db', AlertRepository.clearOldAlerts. simpl.
  split; [|split; [|split]].
  - intro userId. unfold AlertRepository.getAlerts. simpl. f_equal.
    apply filter_after_filter. intros a Ha.
    rewrite !andb_true_iff in Ha. destruct Ha as [[_ Hr] Hd].
    simpl in Hr, Hd. apply Nat.eqb_eq in Hr, Hd.
    unfold AlertRepository.expired. rewrite Hr, Hd. simpl.
    now rewrite andb_false_r.
  - intros a Ha Hkeep. apply filter_In. split; [exact Ha|].
    unfold AlertRepository.expired. destruct Hkeep as [Hu|Hage].
    + apply String.eqb_neq in Hu. now rewrite Hu.
    + replace (Alert.created_at a / 1000 <? now / 1000 - daysOld * 86400)%Z
        with false by (symmetry; apply Z.ltb_ge; lia).
      now rewrite andb_false_r.
  - intros a Ha. apply filter_In in Ha. tauto.
  - reflexivity.
Qed.

(** ** The halfway alert *)

Lemma alert_milestone_found {fmt : NumberFormat} (now : Z) (userId : string)
  (db : DB) (p : GoalProgress.t) (a : Alert.t) :
  In a (alerts db) ->
  Alert.user_id a = userId ->
  Alert.alert_type a = goal_progress ->
  Js.includes (Alert.message a) "50%" = true ->
  NotificationService.dataIncludes a
    (NotificationService.goal_id_text (GoalProgress.goal p)) = true ->
  NotificationService.alert_milestone now userId db p = db.
Proof.
  intros Hin Hu Hty Hmsg Hdata. unfold NotificationService.alert_milestone.
  destruct (_ && GoalProgress.on_track p); [|reflexivity].
  replace (existsb _ _) with true; [reflexivity|].
  symmetry. apply existsb_exists. exists a. split.
  - apply getAlerts_In. auto.
  - now rewrite Hty, Hdata, Hmsg.
Qed.

Lemma milestone_data_includes {fmt : NumberFormat} (k : nat) (w : string) :
  Js.includes "50" w = true ->
  Js.includes
    (Json.stringify [("goal_id", Json.Int k); ("milestone", Json.Int 50)])
    w = true.
Proof.
  intro H. unfold Json.stringify. cbn [String.concat map].
  apply includes_append_r, includes_append_l.
  do 2 apply includes_append_r.
  unfold Json.field. cbn [fst snd Json.render].
  do 2 apply includes_append_r. exact H.
Qed.

(** X16.  The halfway alert of a goal is looked up by substring over
    all alerts of the user: [alert_milestone] inserts nothing for a
    goal as soon as some goal-progress alert of the user mentions 50%
    and has the decimal text of the goal's id somewhere in its data,
    whichever goal that alert is about.  So once the user has one
    halfway alert, the goals with id 5 and 50 never get theirs: the
    data of every halfway alert ends in [milestone: 50]. *)
Theorem alert_milestone_matches_by_substring {fmt : NumberFormat} (now : Z)
  (userId : string) (db : DB) (p : GoalProgress.t) (a : Alert.t) :
  In a (alerts db) ->
  Alert.user_id a = userId ->
  Alert.alert_type a = goal_progress ->
  Js.includes (Alert.message a) "50%" = true ->
  (NotificationService.dataIncludes a
     (Js.string_of_nat (FinancialGoal.id (GoalProgress.goal p))) = true ->
   NotificationService.alert_milestone now userId db p = db)
  /\ (forall k,
        Alert.data a
        = Some (Json.stringify
                  [("goal_id", Json.Int k); ("milestone", Json.Int 50)]) ->
        FinancialGoal.id (GoalProgress.goal p) = 5%nat
        \/ FinancialGoal.id (GoalProgress.goal p) = 50%nat ->
        NotificationService.alert_milestone now userId db p = db).
Proof.
  intros Hin Hu Hty Hmsg. split.
  - intro Hdata. eapply alert_milestone_found; eauto.
  - intros k Hdata Hid. eapply alert_milestone_found; eauto.
    unfold NotificationService.dataIncludes,
      NotificationService.goal_id_text.
    rewrite Hdata. apply milestone_data_includes.
    destruct Hid as [-> | ->]; reflexivity.
Qed.

Lemma alert_milestone_matches_by_substring_witness :
  let first :=
    Alert.mk 1 "owner" goal_progress info "Halfway There!"
      "You've reached 50% of your savings goal. Keep up the great work!"
      (Some (Json.stringify (fmt := EnUS.format)
               [("goal_id", Json.Int 1); ("milestone", Json.Int 50)]))
      0 0 0 in
  let db := set_alerts [first] empty_db in
  let p :=
    GoalProgress.mk
      (FinancialGoal.mk 5 "owner" revenue_goal 1000 520 None None active 0 0)
      52 480 None true in
  (NotificationService.dataIncludes first
     (Js.string_of_nat (FinancialGoal.id (GoalProgress.goal p))) = true ->
   NotificationService.alert_milestone (fmt := EnUS.format) mid_march "owner"
     db p = db)
  /\ (forall k,
        Alert.data first
        = Some (Json.stringify (fmt := EnUS.format)
                  [("goal_id", Json.Int k); ("milestone", Json.Int 50)]) ->
        FinancialGoal.id (GoalProgress.goal p) = 5%nat
        \/ FinancialGoal.id (GoalProgress.goal p) = 50%nat ->
        NotificationService.alert_milestone (fmt := EnUS.format) mid_march
          "owner" db p = db).
Proof.
  apply (@alert_milestone_matches_by_substring EnUS.format mid_march "owner").
  - simpl. auto.
  - reflexivity.
  - reflexivity.
  - reflexivity.
Defined.

(** ** Streaming a response *)

Lemma concat_empty_sep (l : list string) :
  String.concat EmptyString l = fold_right String.append EmptyString l.
Proof.
  induction l as [|x l IH]; [reflexivity|].
  destruct l as [|y l].
  - simpl. induction x; simpl; congruence.
  - change (String.concat EmptyString (x :: y :: l))
      with (x ++ EmptyString ++ String.concat EmptyString (y :: l))%string.
    rewrite IH. reflexivity.
Qed.

Lemma split_spaces_cons (s : string) :
  exists w ws, Js.split_spaces s = w :: ws.
Proof.
  induction s as [|c s IH]; simpl.
  - eauto.
  - destruct (Ascii.eqb c " "); [eauto|].
    destruct IH as (w & ws & ->). eauto.
Qed.

Lemma chunks_glue (s : string) :
  fold_right String.append EmptyString
    (GeminiAccountantService.chunks_of s) = s.
Proof.
  unfold GeminiAccountantService.chunks_of.
  induction s as [|c s IH]; simpl; [reflexivity|].
  destruct (split_spaces_cons s) as (w & ws & E). rewrite E in *.
  destruct (Ascii.eqb_spec c " ") as [->|_]; simpl.
  - f_equal. exact IH.
  - f_equal. exact IH.
Qed.


(** ** What a conversation turn may write *)

Section ChatWrites.
Context {fmt : NumberFormat}.
Variables (now : Z) (userId : string).

(** A tool call writes nothing, or one transaction and one unread
    notification of the caller. *)
Lemma dispatch_writes (call : GeminiAccountantService.FunctionCall)
  (db : DB) :
  let db' := snd (GeminiAccountantService.dispatch now userId call db) in
  db' = db
  \/ exists t n,
       db' = set_notifications (notifications db ++ [n])
               (set_transactions (transactions db ++ [t]) db)
       /\ Transaction.user_id t = userId
       /\ Notification.user_id n = userId
       /\ Notification.read n = 0%nat.
Proof.
  unfold GeminiAccountantService.dispatch,
    GeminiAccountantService.tool_addTransaction.
  destruct call as [name [date description amount category type]].
  cbn [GeminiAccountantService.name GeminiAccountantService.args
         GeminiAccountantService.date GeminiAccountantService.description
         GeminiAccountantService.amount GeminiAccountantService.category
         GeminiAccountantService.type].
  destruct (String.eqb name "addTransaction").
  - destruct description, amount, category, type as [ty|]; try (now left).
    destruct (GeminiAccountantService.type_of_text ty); [|now left].
    right. eexists. eexists. cbn [snd fst].
    split; [destruct db; reflexivity|]. repeat split.
  - destruct (String.eqb name "generateReport"); now left.
Qed.

End ChatWrites.

(** X18.  Whatever the model answers, a turn of [chat] only appends, and
    only rows of the caller: either nothing, or the two messages of
    the turn, or one transaction together with one unread
    notification; budgets, goals, alerts, anomalies, recurring
    transactions and forecasts are never touched. *)
Theorem chat_writes_for_caller_only {fmt : NumberFormat} (now : Z)
  (ids : string * string) (apiKey : string)
  (session : GeminiAccountantService.ChatSession)
  (userId userMessage : string) (db : DB) :
  turn_writes userId db
    (snd (GeminiAccountantService.chat now ids apiKey session userId
            userMessage db)).
Proof.
  assert (Hnone : turn_writes userId db db).
  { exists [], [], []. rewrite !app_nil_r.
    split; [now destruct db|]. split; [intros ? []|].
    split; [intros ? []|]. split; [intros ? []|]. left. auto. }
  assert (Htext : forall text,
             turn_writes userId db
               (ConversationRepository.saveMessage now (snd ids) userId model
                  text
                  (ConversationRepository.saveMessage now (fst ids) userId
                     user userMessage db))).
  { intro text.
    set (m1 := ConversationMessage.mk
                 (Sql.next_id (map ConversationMessage.id (conversations db)))
                 userId (fst ids) user userMessage now).
    exists [], [],
      [m1;
       ConversationMessage.mk
         (Sql.next_id (map ConversationMessage.id
                         (conversations db ++ [m1])))
         userId (snd ids) model text now].
    rewrite !app_nil_r. split.
    - unfold ConversationRepository.saveMessage. simpl. fold m1.
      rewrite <- app_assoc. reflexivity.
    - split; [intros ? []|]. split; [intros ? []|]. split.
      + intros m [<-|[<-|[]]]; reflexivity.
      + right. left. auto. }
  unfold GeminiAccountantService.chat.
  destruct (GeminiAccountantService.sendMessage session userMessage)
    as [e|response]; cbn [snd]; [exact Hnone|].
  destruct (GeminiAccountantService.functionCalls response)
    as [[|call calls]|]; cbn [snd]; try apply Htext.
  assert (Hcall : turn_writes userId db
                    (snd (GeminiAccountantService.dispatch now userId call
                            db))).
  { destruct (dispatch_writes now userId call db)
      as [->|(t & n & -> & Ht & Hn & Hr)]; [exact Hnone|].
    exists [t], [n], []. rewrite app_nil_r.
    split; [reflexivity|].
    split; [intros ? [<-|[]]; exact Ht|].
    split; [intros ? [<-|[]]; auto|].
    split; [intros ? []|]. right. right. auto. }
  destruct (GeminiAccountantService.sendFunctionResponse session _ _);
    cbn [snd]; exact Hcall.
Qed.

(** ** The conversation history *)

Lemma filter_none (A : Type) (p q : A -> bool) (l : list A) :
  (forall x, p x = true -> q x = false) ->
  filter p (filter q l) = [].
Proof.
  intro H. induction l as [|x l IH]; simpl; [reflexivity|].
  destruct (q x) eqn:Eq; simpl; [|exact IH].
  destruct (p x) eqn:Ep; [|exact IH].
  rewrite (H x Ep) in Eq. discriminate.
Qed.

(** X19.  [clearHistory] removes the whole conversation of one user and
    nothing else: afterwards [getHistory] of that user is empty and the
    message count is zero, while the history and the count of every
    other user, and every other table, are as before. *)
Theorem clearHistory_empties_one_history (userId : string) (db : DB) :
  let db' := History.clearHistory userId db in
  History.getHistory userId db' = []
  /\ ConversationRepository.getMessageCount userId db' = 0%nat
  /\ (forall other limit,
        other <> userId ->
        ConversationRepository.getConversationHistory other limit db'
        = ConversationRepository.getConversationHistory other limit db
        /\ ConversationRepository.getMessageCount other db'
           = ConversationRepository.getMessageCount other db)
  /\ db' = set_conversations (conversations db') db.
Proof.
  intro db'.
  assert (Hmine : filter (fun m => String.eqb (ConversationMessage.userId m)
                                              userId)
                    (conversations db') = []).
  { unfold db', History.clearHistory, ConversationRepository.clearConversation.
    simpl. apply filter_none. intros m Hm. now rewrite Hm. }
  assert (Hother : forall other, other <> userId ->
            filter (fun m => String.eqb (ConversationMessage.userId m) other)
              (conversations db')
            = filter (fun m => String.eqb (ConversationMessage.userId m)
                                          other)
                (conversations db)).
  { intros other Hne.
    unfold db', History.clearHistory, ConversationRepository.clearConversation.
    simpl. apply filter_after_filter. intros m Hm.
    apply String.eqb_eq in Hm. apply negb_true_iff, String.eqb_neq.
    congruence. }
  split; [|split; [|split]].
  - unfold History.getHistory, ConversationRepository.getConversationHistory.
    rewrite Hmine. unfold Sql.limit. simpl.
    destruct (50 <? 0)%Z; reflexivity.
  - unfold ConversationRepository.getMessageCount. now rewrite Hmine.
  - intros other limit Hne.
    unfold ConversationRepository.getConversationHistory,
      ConversationRepository.getMessageCount.
    now rewrite (Hother other Hne).
  - reflexivity.
Qed.

Lemma sorted_snoc (A : Type) (R : A -> A -> Prop) (l : list A) (x : A) :
  StronglySorted R l -> (forall y, In y l -> R y x) ->
  StronglySorted R (l ++ [x]).
Proof.
  induction 1 as [|y l Hs IH Hy]; intro Hx; simpl.
  - constructor; constructor.
  - constructor.
    + apply IH. intros z Hz. apply Hx. simpl. auto.
    + rewrite Forall_forall in *. intros z Hz.
      apply in_app_or in Hz. destruct Hz as [Hz|[<-|[]]].
      * now apply Hy.
      * apply Hx. simpl. auto.
Qed.

Lemma sorted_rev (A : Type) (R : A -> A -> Prop) (l : list A) :
  StronglySorted R l -> StronglySorted (fun a b => R b a) (rev l).
Proof.
  induction 1 as [|x l Hs IH Hx]; simpl; [constructor|].
  apply sorted_snoc; [exact IH|].
  intros y Hy. apply in_rev in Hy. rewrite Forall_forall in Hx. auto.
Qed.

Lemma timestamp_desc_total (a b : ConversationMessage.t) :
  ConversationRepository.timestamp_desc a b = false ->
  ConversationRepository.timestamp_desc b a = true.
Proof.
  unfold ConversationRepository.timestamp_desc.
  rewrite Z.leb_gt, Z.leb_le. lia.
Qed.

Lemma timestamp_desc_trans (a b c : ConversationMessage.t) :
  ConversationRepository.timestamp_desc a b = true ->
  ConversationRepository.timestamp_desc b c = true ->
  ConversationRepository.timestamp_desc a c = true.
Proof.
  unfold ConversationRepository.timestamp_desc.
  rewrite !Z.leb_le. lia.
Qed.

(** X20.  [getConversationHistory] returns messages of the user only,
    as many as the limit allows (all of them under a negative limit),
    oldest first; the messages it leaves out are no newer than the
    ones it returns. *)
Theorem getConversationHistory_latest_in_order (userId : string) (limit : Z)
  (db : DB) :
  let history :=
    ConversationRepository.getConversationHistory userId limit db in
  (forall m, In m history ->
             In m (conversations db)
             /\ ConversationMessage.userId m = userId)
  /\ List.length history
     = (if (limit <? 0)%Z
        then ConversationRepository.getMessageCount userId db
        else Nat.min (Z.to_nat limit)
               (ConversationRepository.getMessageCount userId db))
  /\ StronglySorted
       (fun a b => (ConversationMessage.timestamp a
                    <= ConversationMessage.timestamp b)%Z)
       history
  /\ (forall m h,
        In m (conversations db) ->
        ConversationMessage.userId m = userId ->
        ~ In m history -> In h history ->
        (ConversationMessage.timestamp m
         <= ConversationMessage.timestamp h)%Z).
Proof.
  intro history.
  set (mine := filter (fun m => String.eqb (ConversationMessage.userId m)
                                           userId) (conversations db)).
  pose proof (order_by_sorted ConversationRepository.timestamp_desc
                timestamp_desc_total timestamp_desc_trans mine) as Hs.
  destruct (limit_sorted limit Hs) as (Hsorted & rest & Hsplit & Hrest).
  fold mine in history.
  split; [|split; [|split]].
  - intros m Hm. unfold history,
      ConversationRepository.getConversationHistory in Hm. fold mine in Hm.
    apply in_rev, limit_In, order_by_In, filter_In in Hm.
    destruct Hm as [Hin Hu]. split; [exact Hin|]. now apply String.eqb_eq.
  - unfold history, ConversationRepository.getConversationHistory,
      ConversationRepository.getMessageCount. fold mine.
    now rewrite length_rev, limit_length, order_by_length.
  - unfold history, ConversationRepository.getConversationHistory. fold mine.
    apply sorted_rev in Hsorted.
    eapply sorted_weaken; [|exact Hsorted].
    intros a b H. unfold ConversationRepository.timestamp_desc in H.
    now apply Z.leb_le.
  - intros m h Hm Hu Hout Hh.
    unfold history, ConversationRepository.getConversationHistory in Hout, Hh.
    fold mine in Hout, Hh. rewrite <- in_rev in Hout, Hh.
    assert (Hall : In m (Sql.order_by ConversationRepository.timestamp_desc
                           mine)).
    { apply order_by_In, filter_In. split; [exact Hm|].
      now apply String.eqb_eq. }
    rewrite Hsplit in Hall. apply in_app_or in Hall.
    destruct Hall as [Hin|Hin]; [contradiction|].
    specialize (Hrest h m Hh Hin).
    unfold ConversationRepository.timestamp_desc in Hrest.
    now apply Z.leb_le.
Qed.

(** ** A transaction recorded from the conversation *)



(** ** Rows found by their primary key *)

Section Keyed.
Variables (A : Type) (key : A -> nat).

Lemma keyed_same (l : list A) (a b : A) :
  NoDup (map key l) -> In a l -> In b l -> key a = key b -> a = b.
Proof.
  induction l as [|x l IH]; simpl; intros Hnd Ha Hb Heq; [contradiction|].
  inversion Hnd as [|? ? Hnotin Hnd']; subst.
  destruct Ha as [->|Ha], Hb as [->|Hb]; auto.
  - exfalso. apply Hnotin. rewrite Heq. now apply in_map.
  - exfalso. apply Hnotin. rewrite <- Heq. now apply in_map.
Qed.

(** A keyed table is the row of a key between two lists without it. *)
Lemma keyed_split (l : list A) (a : A) :
  NoDup (map key l) -> In a l ->
  exists l1 l2,
    l = (l1 ++ a :: l2)%list
    /\ forall x, In x (l1 ++ l2)%list -> key x <> key a.
Proof.
  intros Hnd Ha. destruct (in_split _ _ Ha) as (l1 & l2 & ->).
  exists l1, l2. split; [reflexivity|].
  intros x Hx Heq.
  rewrite map_app in Hnd. simpl in Hnd.
  apply NoDup_remove_2 in Hnd. apply Hnd.
  rewrite <- map_app, <- Heq. now apply in_map.
Qed.

Lemma update_misses (k : nat) (f : A -> A) (l : list A) :
  (forall x, In x l -> key x <> k) ->
  map (fun a => if (key a =? k)%nat then f a else a) l = l.
Proof.
  intro H. induction l as [|x l IH]; simpl; [reflexivity|].
  rewrite IH by (intros; apply H; now right).
  assert (E : (key x =? k)%nat = false)
    by (apply Nat.eqb_neq, H; now left).
  now rewrite E.
Qed.

Lemma delete_misses (k : nat) (l : list A) :
  (forall x, In x l -> key x <> k) ->
  filter (fun a => negb (key a =? k)%nat) l = l.
Proof.
  intro H. induction l as [|x l IH]; simpl; [reflexivity|].
  rewrite IH by (intros; apply H; now right).
  assert (E : (key x =? k)%nat = false)
    by (apply Nat.eqb_neq, H; now left).
  now rewrite E.
Qed.

End Keyed.

(** ** Deleting a budget *)

Lemma own_budget_lookup (authenticatedUserId : string) (parsed : option Z)
  (db : DB) :
  match find (fun b => Routes.same_id parsed (Budget.id b))
             (BudgetRepository.getBudgets authenticatedUserId db)
  with
  | Some row =>
      In row (budgets db)
      /\ Budget.user_id row = authenticatedUserId
      /\ parsed = Some (Z.of_nat (Budget.id row))
  | None =>
      forall b, In b (budgets db) ->
                Budget.user_id b = authenticatedUserId ->
                parsed <> Some (Z.of_nat (Budget.id b))
  end.
Proof.
  unfold BudgetRepository.getBudgets.
  destruct (find _ _) as [row|] eqn:E.
  - apply find_some in E. destruct E as [Hin Hid].
    apply order_by_In, filter_In in Hin. destruct Hin as [Hin Hu].
    apply String.eqb_eq in Hu. apply same_id_iff in Hid. auto.
  - intros b Hin Hu Hid.
    assert (Hl : In b (Sql.order_by BudgetRepository.created_desc
                         (filter (fun b => String.eqb (Budget.user_id b)
                                             authenticatedUserId)
                                 (budgets db)))).
    { apply order_by_In, filter_In. split; [exact Hin|].
      now apply String.eqb_eq. }
    apply (find_none _ _ E) in Hl. apply same_id_iff in Hid. congruence.
Qed.

(** X22.  The handler that deletes a budget acts on the caller's own
    budgets only.  Under the primary key of [budgets]: the budgets
    listed for every other user are the same before and after; an id
    that is not one of the caller's budgets is answered with 404 and
    changes nothing; for the id of one of the caller's budgets the
    handler succeeds, the caller's listing loses that budget and no
    other, the budget can no longer be read by its id, and a second
    request for it is answered with 404. *)
Theorem delete_budget_removes_own_budget_only
  (authenticatedUserId : string) (parsed : option Z) (db : DB) :
  budgets_keyed db ->
  let reply := Routes.delete_budget authenticatedUserId parsed db in
  (forall userId,
      userId <> authenticatedUserId ->
      BudgetRepository.getBudgets userId (snd reply)
      = BudgetRepository.getBudgets userId db)
  /\ ((forall b, In b (budgets db) ->
                 Budget.user_id b = authenticatedUserId ->
                 parsed <> Some (Z.of_nat (Budget.id b))) ->
      reply = (budget_not_found, db))
  /\ (forall b,
        In b (budgets db) ->
        Budget.user_id b = authenticatedUserId ->
        parsed = Some (Z.of_nat (Budget.id b)) ->
        fst reply = Routes.Success "Budget deleted successfully"
        /\ (forall x,
              In x (BudgetRepository.getBudgets authenticatedUserId
                      (snd reply))
              <-> In x (BudgetRepository.getBudgets authenticatedUserId db)
                  /\ x <> b)
        /\ BudgetRepository.getBudgetById (Budget.id b) (snd reply) = None
        /\ Routes.delete_budget authenticatedUserId parsed (snd reply)
           = (budget_not_found, snd reply)).
Proof.
  intros Hk reply.
  pose proof (own_budget_lookup authenticatedUserId parsed db) as Hlook.
  assert (Hr : reply
               = match find (fun b => Routes.same_id parsed (Budget.id b))
                            (BudgetRepository.getBudgets authenticatedUserId
                               db)
                 with
                 | Some _ =>
                     (Routes.Success "Budget deleted successfully",
                      BudgetRepository.deleteBudget (Routes.passed_id parsed)
                        db)
                 | None => (budget_not_found, db)
                 end) by reflexivity.
  clearbody reply.
  destruct (find _ _) as [row|] eqn:E; subst reply.
  - destruct Hlook as (Hrow & Hu & Hp). subst parsed.
    rewrite passed_id_of_nat. cbn [fst snd].
    destruct (keyed_split Budget.id (budgets db) row Hk Hrow)
      as (l1 & l2 & Hl & Hrest).
    assert (Hdel : budgets (BudgetRepository.deleteBudget (Budget.id row) db)
                   = (l1 ++ l2)%list).
    { unfold BudgetRepository.deleteBudget. destruct db; simpl in *.
      subst. rewrite filter_app. simpl. rewrite Nat.eqb_refl. simpl.
      rewrite <- filter_app. apply delete_misses. exact Hrest. }
    split; [|split].
    + intros userId Hother. unfold BudgetRepository.getBudgets.
      rewrite Hdel, Hl, !filter_app. simpl.
      assert (Eu : String.eqb (Budget.user_id row) userId = false).
      { apply String.eqb_neq. congruence. }
      now rewrite Eu.
    + intro Hnone. exfalso. now apply (Hnone row).
    + intros b Hb Hbu Hp.
      assert (Hid : Budget.id b = Budget.id row).
      { injection Hp. intro H. symmetry. now apply Nat2Z.inj. }
      assert (Hbrow : b = row)
        by (apply (keyed_same Budget.id (budgets db)); auto).
      subst b. split; [reflexivity|]. split; [|split].
      * intro x. unfold BudgetRepository.getBudgets.
        rewrite !order_by_In, !filter_In, Hdel, Hl, !in_app_iff. simpl.
        split.
        -- intros [Hx Hxu]. split; [tauto|].
           intros ->. apply (Hrest row); [|reflexivity].
           now apply in_app_iff.
        -- intros [[[Hx|[Hx|Hx]] Hxu] Hne]; try tauto.
           exfalso. now apply Hne.
      * unfold BudgetRepository.getBudgetById. rewrite Hdel.
        match goal with
        | |- find ?p ?l = None => destruct (find p l) as [y|] eqn:F
        end; [|reflexivity].
        apply find_some in F. destruct F as [Hy Hyid].
        apply Nat.eqb_eq in Hyid. exfalso. now apply (Hrest y).
      * unfold Routes.delete_budget.
        match goal with
        | |- context [find ?p ?l] => destruct (find p l) as [y|] eqn:F
        end; [|reflexivity].
        apply find_some in F. destruct F as [Hy Hyid].
        unfold BudgetRepository.getBudgets in Hy.
        apply order_by_In, filter_In in Hy. destruct Hy as [Hy _].
        rewrite Hdel in Hy. apply same_id_iff in Hyid.
        injection Hyid. intro H. apply Nat2Z.inj in H.
        exfalso. apply (Hrest y Hy). now symmetry.
  - cbn [fst snd]. split; [|split].
    + reflexivity.
    + reflexivity.
    + intros b Hb Hbu Hp. exfalso. now apply (Hlook b).
Qed.

Lemma delete_budget_removes_own_budget_only_witness :
  let db := overspent_db "Travel" in
  let reply := Routes.delete_budget "owner" (Some 1%Z) db in
  (forall userId,
      userId <> "owner" ->
      BudgetRepository.getBudgets userId (snd reply)
      = BudgetRepository.getBudgets userId db)
  /\ ((forall b, In b (budgets db) ->
                 Budget.user_id b = "owner" ->
                 Some 1%Z <> Some (Z.of_nat (Budget.id b))) ->
      reply = (budget_not_found, db))
  /\ (forall b,
        In b (budgets db) ->
        Budget.user_id b = "owner" ->
        Some 1%Z = Some (Z.of_nat (Budget.id b)) ->
        fst reply = Routes.Success "Budget deleted successfully"
        /\ (forall x,
              In x (BudgetRepository.getBudgets "owner" (snd reply))
              <-> In x (BudgetRepository.getBudgets "owner" db) /\ x <> b)
        /\ BudgetRepository.getBudgetById (Budget.id b) (snd reply) = None
        /\ Routes.delete_budget "owner" (Some 1%Z) (snd reply)
           = (budget_not_found, snd reply)).
Proof.
  apply (@delete_budget_removes_own_budget_only "owner" (Some 1%Z)
           (overspent_db "Travel")).
  unfold budgets_keyed. simpl.
  repeat constructor; simpl; intuition discriminate.
Defined.

(** ** Reviewing an anomaly *)

Lemma own_anomaly_lookup (authenticatedUserId : string) (parsed : option Z)
  (db : DB) :
  match find (fun a => Routes.same_id parsed (Anomaly.id a))
             (AlertRepository.getAnomalies authenticatedUserId true db)
  with
  | Some row =>
      In row (anomalies db)
      /\ Anomaly.user_id row = authenticatedUserId
      /\ parsed = Some (Z.of_nat (Anomaly.id row))
  | None =>
      forall a, In a (anomalies db) ->
                Anomaly.user_id a = authenticatedUserId ->
                parsed <> Some (Z.of_nat (Anomaly.id a))
  end.
Proof.
  unfold AlertRepository.getAnomalies.
  destruct (find _ _) as [row|] eqn:E.
  - apply find_some in E. destruct E as [Hin Hid].
    apply order_by_In, filter_In in Hin. destruct Hin as [Hin Hu].
    rewrite andb_true_iff in Hu. destruct Hu as [Hu _].
    apply String.eqb_eq in Hu. apply same_id_iff in Hid. auto.
  - intros a Hin Hu Hid.
    assert (Hl : In a (Sql.order_by AlertRepository.severity_desc
                         (filter (fun a =>
                                    String.eqb (Anomaly.user_id a)
                                      authenticatedUserId
                                    && (true || (Anomaly.reviewed a =? 0)%nat))
                                 (anomalies db)))).
    { apply order_by_In, filter_In. split; [exact Hin|].
      rewrite andb_true_iff. split; [now apply String.eqb_eq|reflexivity]. }
    apply (find_none _ _ E) in Hl. apply same_id_iff in Hid. congruence.
Qed.

(** X23.  The handler that marks an anomaly as reviewed acts on the
    caller's own anomalies only.  Under the primary key of [anomalies]:
    no anomaly of another user changes; an id that is not one of the
    caller's anomalies is answered with 404 and changes nothing; for
    the id of one of the caller's anomalies the handler succeeds, the
    anomaly leaves the listing of unreviewed anomalies, and the full
    listing holds it as reviewed, with the false-positive flag of the
    request. *)
Theorem anomaly_review_changes_own_anomaly_only
  (authenticatedUserId : string) (parsed : option Z) (isFalsePositive : bool)
  (db : DB) :
  anomalies_keyed db ->
  let reply :=
    Routes.post_anomaly_review authenticatedUserId parsed isFalsePositive db in
  (forall i a,
      nth_error (anomalies db) i = Some a ->
      Anomaly.user_id a <> authenticatedUserId ->
      nth_error (anomalies (snd reply)) i = Some a)
  /\ ((forall a, In a (anomalies db) ->
                 Anomaly.user_id a = authenticatedUserId ->
                 parsed <> Some (Z.of_nat (Anomaly.id a))) ->
      reply = (anomaly_not_found, db))
  /\ (forall a,
        In a (anomalies db) ->
        Anomaly.user_id a = authenticatedUserId ->
        parsed = Some (Z.of_nat (Anomaly.id a)) ->
        fst reply = Routes.Success "Anomaly marked as reviewed"
        /\ (forall x,
              In x (AlertRepository.getAnomalies authenticatedUserId false
                      (snd reply)) ->
              Anomaly.id x <> Anomaly.id a)
        /\ In (Anomaly.mk (Anomaly.id a) authenticatedUserId
                 (Anomaly.transaction_id a) (Anomaly.anomaly_type a)
                 (Anomaly.severity a) (Anomaly.description a) 1%nat
                 (if isFalsePositive then 1%nat else 0%nat)
                 (Anomaly.detected_at a))
              (AlertRepository.getAnomalies authenticatedUserId true
                 (snd reply))).
Proof.
  intros Hk reply.
  pose proof (own_anomaly_lookup authenticatedUserId parsed db) as Hlook.
  unfold reply, Routes.post_anomaly_review.
  destruct (find _ _) as [row|] eqn:E.
  - destruct Hlook as (Hrow & Hu & Hp). subst parsed.
    rewrite passed_id_of_nat. cbn [fst snd].
    split; [|split].
    + intros i a Hn Hother.
      assert (Hid : Anomaly.id a <> Anomaly.id row).
      { intro Heq. apply Hother. rewrite <- Hu. f_equal.
        apply (keyed_same Anomaly.id (anomalies db)); auto.
        eapply nth_error_In; eauto. }
      unfold AlertRepository.markAnomalyAsReviewed. simpl.
      rewrite nth_error_map, Hn. simpl.
      apply Nat.eqb_neq in Hid. now rewrite Hid.
    + intro Hnone. exfalso. now apply (Hnone row).
    + intros a Ha Hau Hp.
      assert (Hid : Anomaly.id a = Anomaly.id row).
      { injection Hp. intro H. symmetry. now apply Nat2Z.inj. }
      assert (Harow : a = row)
        by (apply (keyed_same Anomaly.id (anomalies db)); auto).
      subst a. split; [reflexivity|]. split.
      * intros x Hx. unfold AlertRepository.getAnomalies in Hx.
        apply order_by_In, filter_In in Hx. destruct Hx as [Hx Hc].
        unfold AlertRepository.markAnomalyAsReviewed in Hx. simpl in Hx.
        apply in_map_iff in Hx. destruct Hx as (y & Hy & _).
        destruct (Anomaly.id y =? Anomaly.id row)%nat eqn:F.
        -- subst x. simpl in Hc. rewrite andb_false_r in Hc. discriminate.
        -- subst x. now apply Nat.eqb_neq.
      * unfold AlertRepository.getAnomalies.
        apply order_by_In, filter_In. split.
        -- unfold AlertRepository.markAnomalyAsReviewed. simpl.
           apply in_map_iff. exists row. rewrite Nat.eqb_refl, Hau.
           split; [reflexivity|exact Hrow].
        -- simpl. rewrite String.eqb_refl. reflexivity.
  - cbn [fst snd]. split; [|split].
    + auto.
    + reflexivity.
    + intros a Ha Hau Hp. exfalso. now apply (Hlook a).
Qed.

Lemma anomaly_review_changes_own_anomaly_only_witness :
  let db :=
    set_anomalies
      [Anomaly.mk 1 "owner" (Some 5%nat) unusual_amount 4 "Desk" 0 0 0;
       Anomaly.mk 2 "guest" (Some 7%nat) unusual_amount 5 "Chair" 0 0 0]
      empty_db in
  let reply := Routes.post_anomaly_review "owner" (Some 1%Z) true db in
  (forall i a,
      nth_error (anomalies db) i = Some a ->
      Anomaly.user_id a <> "owner" ->
      nth_error (anomalies (snd reply)) i = Some a)
  /\ ((forall a, In a (anomalies db) ->
                 Anomaly.user_id a = "owner" ->
                 Some 1%Z <> Some (Z.of_nat (Anomaly.id a))) ->
      reply = (anomaly_not_found, db))
  /\ (forall a,
        In a (anomalies db) ->
        Anomaly.user_id a = "owner" ->
        Some 1%Z = Some (Z.of_nat (Anomaly.id a)) ->
        fst reply = Routes.Success "Anomaly marked as reviewed"
        /\ (forall x,
              In x (AlertRepository.getAnomalies "owner" false (snd reply)) ->
              Anomaly.id x <> Anomaly.id a)
        /\ In (Anomaly.mk (Anomaly.id a) "owner"
                 (Anomaly.transaction_id a) (Anomaly.anomaly_type a)
                 (Anomaly.severity a) (Anomaly.description a) 1%nat 1%nat
                 (Anomaly.detected_at a))
              (AlertRepository.getAnomalies "owner" true (snd reply))).
Proof.
  apply (@anomaly_review_changes_own_anomaly_only "owner" (Some 1%Z) true
           (set_anomalies
              [Anomaly.mk 1 "owner" (Some 5%nat) unusual_amount 4 "Desk" 0 0
                 0;
               Anomaly.mk 2 "guest" (Some 7%nat) unusual_amount 5 "Chair" 0 0
                 0]
              empty_db)).
  unfold anomalies_keyed. simpl.
  repeat constructor; simpl; intuition discriminate.
Defined.

(** ** Reading a notification *)

Lemma markAsRead_rows (notificationId : nat) (db : DB)
  (l1 l2 : list Notification.t) (n : Notification.t) :
  notifications db = (l1 ++ n :: l2)%list ->
  Notification.id n = notificationId ->
  (forall x, In x (l1 ++ l2)%list -> Notification.id x <> Notification.id n) ->
  notifications (NotificationRepository.markAsRead notificationId db)
  = (l1
     ++ Notification.mk (Notification.id n) (Notification.user_id n)
          (Notification.title n) (Notification.message n)
          (Notification.type n) 1%nat (Notification.created_at n)
     :: l2)%list.
Proof.
  intros Hl Hid Hrest. unfold NotificationRepository.markAsRead.
  destruct db; simpl in *. subst.
  rewrite map_app. simpl. rewrite Nat.eqb_refl.
  rewrite !(update_misses Notification.id); [reflexivity| |];
    intros x Hx; apply Hrest, in_app_iff; auto.
Qed.

(** X24.  [markAsRead] asks for no user.  Under the primary key of
    [notifications]: marking an unread notification lowers the unread
    count of the user it belongs to by one and leaves the count of
    every other user as it was; marking a notification that is read
    already, or an id that no notification has, changes no count; and
    marking twice is marking once. *)
Theorem markAsRead_lowers_one_unread_count (notificationId : nat) (db : DB) :
  notifications_keyed db ->
  let db' := NotificationRepository.markAsRead notificationId db in
  (forall n,
      In n (notifications db) ->
      Notification.id n = notificationId ->
      Notification.read n = 0%nat ->
      S (NotificationRepository.getUnreadCount (Notification.user_id n) db')
      = NotificationRepository.getUnreadCount (Notification.user_id n) db
      /\ forall userId,
           userId <> Notification.user_id n ->
           NotificationRepository.getUnreadCount userId db'
           = NotificationRepository.getUnreadCount userId db)
  /\ ((forall n,
         In n (notifications db) ->
         Notification.id n = notificationId ->
         Notification.read n <> 0%nat) ->
      forall userId,
        NotificationRepository.getUnreadCount userId db'
        = NotificationRepository.getUnreadCount userId db)
  /\ NotificationRepository.markAsRead notificationId db' = db'.
Proof.
  intros Hk db'. split; [|split].
  - intros n Hn Hid Hread.
    destruct (keyed_split Notification.id (notifications db) n Hk Hn)
      as (l1 & l2 & Hl & Hrest).
    unfold db', NotificationRepository.getUnreadCount.
    rewrite (@markAsRead_rows notificationId db l1 l2 n Hl Hid Hrest), Hl.
    rewrite !filter_app, !length_app. simpl.
    split.
    + rewrite String.eqb_refl, Hread. simpl. lia.
    + intros userId Hother.
      assert (E : String.eqb (Notification.user_id n) userId = false).
      { apply String.eqb_neq. congruence. }
      rewrite !filter_app, !length_app. simpl. now rewrite E.
  - intros Hnone userId.
    unfold db', NotificationRepository.getUnreadCount,
      NotificationRepository.markAsRead.
    destruct db as [? ? ? ? ? ? ? ? ns]. simpl in *. clear Hk.
    induction ns as [|x l IH]; simpl; [reflexivity|].
    assert (IH' : List.length
                    (filter (fun n => String.eqb (Notification.user_id n)
                                        userId
                                      && (Notification.read n =? 0)%nat)
                       (map (fun n =>
                               if (Notification.id n =? notificationId)%nat
                               then Notification.mk (Notification.id n)
                                      (Notification.user_id n)
                                      (Notification.title n)
                                      (Notification.message n)
                                      (Notification.type n) 1%nat
                                      (Notification.created_at n)
                               else n) l))
                  = List.length
                      (filter (fun n => String.eqb (Notification.user_id n)
                                          userId
                                        && (Notification.read n =? 0)%nat)
                         l)).
    { apply IH. intros n Hn. apply Hnone. now right. }
    destruct (Notification.id x =? notificationId)%nat eqn:E.
    + apply Nat.eqb_eq in E.
      assert (Hx : (Notification.read x =? 0)%nat = false).
      { apply Nat.eqb_neq. apply Hnone; [now left|exact E]. }
      simpl. rewrite Hx, !andb_false_r. exact IH'.
    + destruct (String.eqb (Notification.user_id x) userId
                && (Notification.read x =? 0)%nat); simpl; now rewrite IH'.
  - unfold db', NotificationRepository.markAsRead, set_notifications.
    destruct db as [? ? ? ? ? ? ? ? ns]. simpl. f_equal.
    rewrite map_map. apply map_ext. intro x.
    destruct (Notification.id x =? notificationId)%nat eqn:E; simpl;
      now rewrite E.
Qed.

Lemma markAsRead_lowers_one_unread_count_witness :
  let db :=
    set_notifications
      [Notification.mk 1 "owner" "Transaction Added" "Lunch" success_note 0 0;
       Notification.mk 2 "guest" "Transaction Added" "Taxi" success_note 0 0]
      empty_db in
  let db' := NotificationRepository.markAsRead 1 db in
  (forall n,
      In n (notifications db) ->
      Notification.id n = 1%nat ->
      Notification.read n = 0%nat ->
      S (NotificationRepository.getUnreadCount (Notification.user_id n) db')
      = NotificationRepository.getUnreadCount (Notification.user_id n) db
      /\ forall userId,
           userId <> Notification.user_id n ->
           NotificationRepository.getUnreadCount userId db'
           = NotificationRepository.getUnreadCount userId db)
  /\ ((forall n,
         In n (notifications db) ->
         Notification.id n = 1%nat ->
         Notification.read n <> 0%nat) ->
      forall userId,
        NotificationRepository.getUnreadCount userId db'
        = NotificationRepository.getUnreadCount userId db)
  /\ NotificationRepository.markAsRead 1 db' = db'.
Proof.
  apply (@markAsRead_lowers_one_unread_count 1
           (set_notifications
              [Notification.mk 1 "owner" "Transaction Added" "Lunch"
                 success_note 0 0;
               Notification.mk 2 "guest" "Transaction Added" "Taxi"
                 success_note 0 0]
              empty_db)).
  unfold notifications_keyed. simpl.
  repeat constructor; simpl; intuition discriminate.
Defined.

(** ** Scenarios *)



(** ** Spending insights *)

Lemma sum_nonneg (l : list Q) : (forall x, In x l -> 0 <= x) -> 0 <= Js.sum l.
Proof.
  induction l as [|x l IH]; intro H.
  - apply Qle_refl.
  - rewrite sum_cons.
    assert (0 <= x) by (apply H; now left).
    assert (0 <= Js.sum l) by (apply IH; intros; apply H; now right).
    lra.
Qed.

(** Shares above a quarter: there are fewer than the sum of the shares
    divided by 25. *)
Lemma count_above_quarter (A : Type) (h : A -> Q) (l : list A) :
  (forall x, In x l -> 0 <= h x) ->
  let n := inject_Z (Z.of_nat (List.length
                                 (filter (fun x => Js.gtb (h x) 25) l))) in
  25 * n <= Js.sum (map h l)
  /\ (0 < n -> 25 * n < Js.sum (map h l)).
Proof.
  induction l as [|x l IH]; intro H; cbv zeta.
  - simpl. split; [discriminate|]. intro K. discriminate.
  - assert (Hx : 0 <= h x) by (apply H; now left).
    destruct IH as [IH1 IH2]; [intros; apply H; now right|].
    cbn [filter map]. rewrite sum_cons.
    destruct (Js.gtb (h x) 25) eqn:E.
    + apply gtb_true_iff in E. cbn [List.length].
      rewrite Nat2Z.inj_succ. unfold Z.succ. rewrite inject_Z_plus.
      change (inject_Z 1) with 1. split; [lra|]. intros _. lra.
    + split; [lra|]. intro K. specialize (IH2 K). lra.
Qed.

Lemma share_insights (fmt : NumberFormat) (patterns : list SpendingPattern.t) :
  List.length
    (filter (fun i => match FinancialInsight.type i with
                      | info_insight => true
                      | _ => false
                      end)
            (flat_map FinancialIntelligenceService.insights_of_pattern
                      patterns))
  = List.length
      (filter (fun p => Js.gtb (SpendingPattern.percentage p) 25) patterns).
Proof.
  induction patterns as [|p l IH]; [reflexivity|].
  cbn [flat_map filter]. rewrite filter_app, length_app, IH.
  unfold FinancialIntelligenceService.insights_of_pattern.
  destruct (Js.gtb (SpendingPattern.percentage p) 25);
    destruct (SpendingPattern.trend p); reflexivity.
Qed.

Lemma percentage_nonneg (now : Z) (userId : string)
  (startDate endDate : option Date.t) (db : DB) (p : SpendingPattern.t) :
  (forall t, In t (transactions db) -> Transaction.user_id t = userId ->
             Transaction.type t = expense -> 0 <= Transaction.amount t) ->
  In p (AnalyticsRepository.getSpendingPatterns now userId startDate endDate
          db) ->
  0 <= SpendingPattern.percentage p.
Proof.
  intros Hpos Hp. unfold AnalyticsRepository.getSpendingPatterns in Hp.
  apply in_map_iff in Hp. destruct Hp as (r & <- & Hr).
  cbn [SpendingPattern.percentage].
  set (T := Js.sum _).
  destruct (Js.gtb T 0) eqn:E; [|apply Qle_refl].
  apply gtb_true_iff in E.
  destruct (spending_rows _ _ _ _ _ Hr) as (g & _ & Htotal & _ & _ & Hg).
  assert (Hr0 : 0 <= AnalyticsRepository.spending_total r).
  { rewrite Htotal. apply sum_nonneg. intros x Hx.
    apply in_map_iff in Hx. destruct Hx as (t & <- & Ht).
    destruct (Hg t Ht) as (Hin & Hu & Hty & _). now apply Hpos. }
  apply Qmult_le_0_compat; [|discriminate].
  apply Qle_shift_div_l; [exact E|]. lra.
Qed.

(** X26.  When no expense of the user has a negative amount,
    [analyzeSpending] gives at most three insights of type [info], the
    ones that report a category above 25% of the expenses: the shares
    of the categories add up to 100. *)
Theorem analyzeSpending_reports_at_most_three_shares {fmt : NumberFormat}
  (now : Z) (userId : string) (db : DB) :
  (forall t, In t (transactions db) -> Transaction.user_id t = userId ->
             Transaction.type t = expense -> 0 <= Transaction.amount t) ->
  (List.length
     (filter (fun i => match FinancialInsight.type i with
                       | info_insight => true
                       | _ => false
                       end)
             (FinancialIntelligenceService.analyzeSpending now userId db))
   <= 3)%nat.
Proof.
  intro Hpos. unfold FinancialIntelligenceService.analyzeSpending.
  cbv zeta. rewrite share_insights.
  set (patterns := AnalyticsRepository.getSpendingPatterns _ _ _ _ _).
  destruct (count_above_quarter SpendingPattern.percentage patterns)
    as [_ Hcount].
  { intros p Hp. eapply percentage_nonneg; eauto. }
  pose proof (percentages_sum now userId
                (Some (Date.of_days
                         (Date.to_days
                            (Date.mk (Date.year (Date.today now))
                               (Date.month (Date.today now) - 2) 1))))
                (Some (Date.today now)) db) as Hsum.
  cbv zeta in Hsum. fold patterns in Hsum.
  set (k := List.length
              (filter (fun p => Js.gtb (SpendingPattern.percentage p) 25)
                      patterns)) in *.
  destruct (le_lt_dec k 3) as [Hle|Hgt]; [exact Hle|exfalso].
  assert (Hk : 4 <= inject_Z (Z.of_nat k)).
  { change 4 with (inject_Z 4). rewrite <- Zle_Qle. lia. }
  assert (H0 : 0 < inject_Z (Z.of_nat k)) by lra.
  specialize (Hcount H0). rewrite Hsum in Hcount.
  destruct (Js.gtb (Js.sum (map SpendingPattern.total patterns)) 0); lra.
Qed.

Lemma analyzeSpending_reports_at_most_three_shares_witness :
  (List.length
     (filter (fun i => match FinancialInsight.type i with
                       | info_insight => true
                       | _ => false
                       end)
             (FinancialIntelligenceService.analyzeSpending
                (fmt := EnUS.format) mid_march "owner" mixed_office_db))
   <= 3)%nat.
Proof.
  apply (@analyzeSpending_reports_at_most_three_shares EnUS.format mid_march
           "owner" mixed_office_db).
  intros t Ht _ _. simpl in Ht.
  repeat (destruct Ht as [<-|Ht]; [vm_compute; discriminate|]).
  destruct Ht.
Defined.

(** ** The daily digest *)

Lemma sum_filter_cond (A : Type) (p : A -> bool) (f : A -> Q) (l : list A) :
  Js.sum (map f (filter p l))
  == Js.sum (map (fun x => if p x then f x else 0) l).
Proof.
  induction l as [|x l IH]; simpl; [reflexivity|].
  destruct (p x); simpl; rewrite !sum_cons, IH; ring.
Qed.

Lemma sum_filter_order_by (A : Type) (le : A -> A -> bool) (p : A -> bool)
  (f : A -> Q) (l : list A) :
  Js.sum (map f (filter p (Sql.order_by le l)))
  == Js.sum (map f (filter p l)).
Proof. now rewrite !sum_filter_cond, sum_order_by. Qed.

Lemma leb_both_ways (a b : Date.t) :
  Date.leb a b && Date.leb b a = Date.eqb b a.
Proof.
  unfold Date.leb, Date.eqb, Date.compare.
  rewrite (Z.compare_antisym (Date.year b) (Date.year a)),
    (Z.compare_antisym (Date.month b) (Date.month a)),
    (Z.compare_antisym (Date.day b) (Date.day a)).
  destruct (Date.year b ?= Date.year a)%Z; simpl; try reflexivity.
  destruct (Date.month b ?= Date.month a)%Z; simpl; try reflexivity.
  destruct (Date.day b ?= Date.day a)%Z; reflexivity.
Qed.

(** The income or the expenses of one day once a row has been appended
    to [transactions]. *)
Lemma daily_total_after_row (type : TxType) (d : Date.t) (db db' : DB)
  (row : Transaction.t) :
  transactions db' = (transactions db ++ [row])%list ->
  NotificationService.daily_total type
    (TransactionRepository.getTransactionsByDateRange
       (Transaction.user_id row) d d db')
  == NotificationService.daily_total type
       (TransactionRepository.getTransactionsByDateRange
          (Transaction.user_id row) d d db)
     + (if Date.eqb (Transaction.date row) d
           && TxType_eqb (Transaction.type row) type
        then Transaction.amount row else 0).
Proof.
  intro Hrows. unfold NotificationService.daily_total,
    TransactionRepository.getTransactionsByDateRange.
  rewrite !sum_filter_order_by, Hrows, !filter_app, map_app, sum_app.
  apply Qplus_comp; [reflexivity|].
  cbn [filter]. unfold TransactionRepository.of_user at 1.
  rewrite String.eqb_refl, <- andb_assoc, leb_both_ways. cbn [andb].
  destruct (Date.eqb (Transaction.date row) d); cbn [filter andb];
    [|reflexivity].
  destruct (TxType_eqb (Transaction.type row) type); cbn [map];
    [|reflexivity].
  rewrite sum_cons, sum_nil. ring.
Qed.


Lemma count_text_is_no_letter (n : nat) (rest : string) :
  Js.string_of_nat n ++ rest <> "All budgets on track".
Proof.
  unfold Js.string_of_nat, NilZero.string_of_uint.
  destruct (Nat.to_uint n); simpl; discriminate.
Qed.

Lemma none_kept (A : Type) (p : A -> bool) (l : list A) :
  List.length (filter p l) = 0%nat <-> forall x, In x l -> p x = false.
Proof.
  induction l as [|x l IH]; simpl.
  - split; [intros _ y []|reflexivity].
  - destruct (p x) eqn:E; simpl.
    + split; [discriminate|]. intro H.
      rewrite (H x (or_introl eq_refl)) in E. discriminate.
    + rewrite IH. split.
      * intros H y [<-|Hy]; auto.
      * intros H y Hy. apply H. now right.
Qed.



(** ** Insights without data *)

Lemma filter_empty (A : Type) (p : A -> bool) (l : list A) :
  (forall x, In x l -> p x = false) -> filter p l = [].
Proof.
  intro H. induction l as [|x l IH]; simpl; [reflexivity|].
  rewrite (H x (or_introl eq_refl)). apply IH. intros y Hy. apply H.
  now right.
Qed.

Lemma flat_map_empty (A B : Type) (f : A -> list B) (l : list A) :
  (forall x, In x l -> f x = []) -> flat_map f l = [].
Proof.
  intro H. induction l as [|x l IH]; simpl; [reflexivity|].
  rewrite (H x (or_introl eq_refl)). apply IH. intros y Hy. apply H.
  now right.
Qed.

(** X29.  For a user without transactions whose budgets have no
    negative amount, [generateInsights] returns one insight: the
    warning about low cash reserves, on a cash position of 0. *)
Theorem generateInsights_without_transactions {fmt : NumberFormat} (now : Z)
  (userId : string) (db : DB) :
  (forall t, In t (transactions db) -> Transaction.user_id t <> userId) ->
  (forall b, In b (budgets db) -> Budget.user_id b = userId ->
             0 <= Budget.amount b) ->
  FinancialIntelligenceService.generateInsights now userId db
  = [FinancialInsight.mk warning_insight "Cash Flow" "Low cash reserves"
       ("Your current cash position is $" ++ toLocaleString 0
        ++ ". Consider building reserves.")
       0 true
       (Some "Aim to build at least 3 months of operating expenses in reserves.")].
Proof.
  intros Hnone Hpos.
  assert (Hfilter : forall q : Transaction.t -> bool,
             filter (fun t => String.eqb (Transaction.user_id t) userId && q t)
                    (transactions db) = []).
  { intro q. apply filter_empty. intros t Ht.
    apply andb_false_iff. left. apply String.eqb_neq. now apply Hnone. }
  assert (Hmine : filter (TransactionRepository.of_user userId)
                    (transactions db) = []).
  { apply filter_empty. intros t Ht. apply String.eqb_neq. now apply Hnone. }
  assert (Hsummary : TransactionRepository.getFinancialSummary userId db
                     = FinancialSummary.mk 0 0 0).
  { unfold TransactionRepository.getFinancialSummary. rewrite Hmine.
    reflexivity. }
  assert (Hspending : FinancialIntelligenceService.analyzeSpending now userId
                        db = []).
  { unfold FinancialIntelligenceService.analyzeSpending,
      AnalyticsRepository.getSpendingPatterns,
      AnalyticsRepository.spending_by_category.
    cbv zeta.
    rewrite (filter_ext _
               (fun t => String.eqb (Transaction.user_id t) userId
                         && (TxType_eqb (Transaction.type t) expense
                             && TransactionRepository.in_range
                                  (Some (Date.of_days
                                     (Date.to_days
                                        (Date.mk (Date.year (Date.today now))
                                           (Date.month (Date.today now) - 2)
                                           1))))
                                  (Some (Date.today now)) t)))
      by (intro t; now rewrite andb_assoc).
    rewrite Hfilter. reflexivity. }
  assert (Hbudgets : flat_map
                       (fun variance =>
                          match BudgetVariance.status variance with
                          | over =>
                              [FinancialIntelligenceService.budget_exceeded_insight
                                 variance]
                          | _ => []
                          end)
                       (BudgetRepository.checkBudgetAlerts now userId db)
                     = []).
  { apply flat_map_empty. intros v Hv.
    unfold BudgetRepository.checkBudgetAlerts in Hv.
    apply filter_In in Hv. destruct Hv as [Hv _].
    unfold BudgetRepository.getBudgetVariance in Hv.
    apply in_map_iff in Hv. destruct Hv as (b & <- & Hb).
    unfold BudgetRepository.getActiveBudgets in Hb.
    apply order_by_In, filter_In in Hb. destruct Hb as [Hin Hc].
    rewrite !andb_true_iff in Hc. destruct Hc as [[Hu _] _].
    apply String.eqb_eq in Hu.
    unfold BudgetRepository.variance_of, BudgetRepository.spent.
    cbn [BudgetVariance.status].
    rewrite (filter_ext _
               (fun t => String.eqb (Transaction.user_id t) userId
                         && (String.eqb (Transaction.category t)
                               (Budget.category b)
                             && Date.leb (Date.first_of_month now)
                                  (Transaction.date t)
                             && Date.leb (Transaction.date t) (Date.today now)
                             && TxType_eqb (Transaction.type t) expense)))
      by (intro t; now rewrite !andb_assoc).
    rewrite Hfilter. cbn [map Sql.SUM Js.opt_num_or].
    assert (E : Js.gtb 0 (Budget.amount b) = false)
      by (apply gtb_false_iff; now apply Hpos).
    rewrite E. destruct (Js.ltb 0 _); reflexivity. }
  unfold FinancialIntelligenceService.generateInsights.
  cbv zeta. rewrite Hbudgets, Hspending, Hsummary. reflexivity.
Qed.

Lemma generateInsights_without_transactions_witness :
  FinancialIntelligenceService.generateInsights (fmt := EnUS.format) mid_march
    "guest" (overspent_db "Travel")
  = [FinancialInsight.mk warning_insight "Cash Flow" "Low cash reserves"
       ("Your current cash position is $" ++ @toLocaleString EnUS.format 0
        ++ ". Consider building reserves.")
       0 true
       (Some "Aim to build at least 3 months of operating expenses in reserves.")].
Proof.
  apply (@generateInsights_without_transactions EnUS.format mid_march "guest"
           (overspent_db "Travel")).
  - intros t Ht. simpl in Ht.
    repeat (destruct Ht as [<-|Ht]; [discriminate|]). destruct Ht.
  - intros b [<-|[]] Hu. discriminate.
Defined.

(** ** Two growth rates *)

Lemma last_of_map (A B : Type) (f : A -> B) (l : list A) (a : A) :
  last (map f l) (f a) = f (last l a).
Proof.
  induction l as [|x l IH]; [reflexivity|].
  destruct l; [reflexivity|]. exact IH.
Qed.

Lemma last_default (A : Type) (l : list A) (a d d' : A) :
  last (a :: l) d = last (a :: l) d'.
Proof.
  revert a. induction l as [|b l IH]; intro a; [reflexivity|]. exact (IH b).
Qed.

